(** * Connection-and-trust core of ssl/ssl_lib.c

    A shallow embedding of the DANE/TLSA engine, the session-cache helpers,
    the early-data read entry point and connection duplication of
    [deps/openssl/openssl/ssl/ssl_lib.c], with the properties the
    specification states about them.

    Conventions.  C integers are [Z]; a cast that can wrap is written out.
    A byte buffer is a [list Z] and a possibly-NULL pointer an [option].
    Every call that can fail for lack of memory takes its outcome from an
    allocation oracle that is threaded through the code in call order.
    Functions of other translation units (DER decoders, digest sizes, the
    handshake driver, the hash table) are parameters of the section that
    uses them. *)

From Stdlib Require Import ZArith List Bool Lia Sorted Permutation.
From stdpp Require Import base option list strings gmap.
Import ListNotations.
Open Scope Z_scope.

(** ** Allocation oracle *)

(** The outcomes of the successive allocating calls, in call order; once
    the list is used up every further allocation succeeds. *)
Definition alloc_oracle := list bool.

Definition alloc (o : alloc_oracle) : bool * alloc_oracle :=
  match o with
  | [] => (true, [])
  | b :: o' => (b, o')
  end.

(** An oracle under which no allocation ever fails. *)
Definition never_fails (o : alloc_oracle) : Prop := Forall (fun b => b = true) o.

Lemma alloc_never_fails o :
  never_fails o -> fst (alloc o) = true /\ never_fails (snd (alloc o)).
Proof.
  intros H. destruct o as [|b o]; simpl.
  - split; [reflexivity | constructor].
  - inversion H; subst. split; auto.
Qed.

(** A pointer test, [p != NULL]. *)
Definition is_some {A} (p : option A) : bool :=
  match p with Some _ => true | None => false end.

(** ** Integer conversions *)

(** [(int)n] for a [size_t] n: the low 32 bits, read as two's complement. *)
Definition int_of_size_t (n : Z) : Z :=
  let m := n mod 2 ^ 32 in
  if m <? 2 ^ 31 then m else m - 2 ^ 32.

(** [(size_t)i] for an [int] i. *)
Definition size_t_of_int (i : Z) : Z := i mod 2 ^ 64.

Definition INT_MAX : Z := 2 ^ 31 - 1.

Lemma int_of_size_t_small n : 0 <= n <= INT_MAX -> int_of_size_t n = n.
Proof.
  unfold int_of_size_t, INT_MAX. intros H.
  rewrite Z.mod_small by lia.
  destruct (Z.ltb_spec n (2 ^ 31)); lia.
Qed.

Lemma size_t_of_int_small n : 0 <= n <= INT_MAX -> size_t_of_int n = n.
Proof.
  unfold size_t_of_int, INT_MAX. intros H. apply Z.mod_small. lia.
Qed.

(** Reason codes pushed on the error queue by [ERR_raise]. *)
Inductive reason : Type :=
  | SSL_R_DANE_NOT_ENABLED
  | SSL_R_DANE_ALREADY_ENABLED
  | SSL_R_CONTEXT_NOT_DANE_ENABLED
  | SSL_R_ERROR_SETTING_TLSA_BASE_DOMAIN
  | SSL_R_DANE_CANNOT_OVERRIDE_MTYPE_FULL
  | SSL_R_DANE_TLSA_BAD_DATA_LENGTH
  | SSL_R_DANE_TLSA_BAD_CERTIFICATE_USAGE
  | SSL_R_DANE_TLSA_BAD_SELECTOR
  | SSL_R_DANE_TLSA_BAD_MATCHING_TYPE
  | SSL_R_DANE_TLSA_BAD_DIGEST_LENGTH
  | SSL_R_DANE_TLSA_NULL_DATA
  | SSL_R_DANE_TLSA_BAD_CERTIFICATE
  | SSL_R_DANE_TLSA_BAD_PUBLIC_KEY
  | ERR_R_CRYPTO_LIB
  | ERR_R_SHOULD_NOT_HAVE_BEEN_CALLED.

(** ** DANE engine *)

Module Dane.

(** Modelled from the spec: the TLSA field constants of the DANE header,
    which is not part of the sources at hand.  Usages are 0..3 (PKIX-TA,
    PKIX-EE, DANE-TA, DANE-EE), the selector is certificate (0) or public
    key (1), and the built-in matching types are full (0), sha2-256 (1)
    and sha2-512 (2). *)
Definition DANETLS_USAGE_PKIX_TA : Z := 0.
Definition DANETLS_USAGE_PKIX_EE : Z := 1.
Definition DANETLS_USAGE_DANE_TA : Z := 2.
Definition DANETLS_USAGE_DANE_EE : Z := 3.
Definition DANETLS_USAGE_LAST : Z := DANETLS_USAGE_DANE_EE.
Definition DANETLS_SELECTOR_CERT : Z := 0.
Definition DANETLS_SELECTOR_SPKI : Z := 1.
Definition DANETLS_SELECTOR_LAST : Z := DANETLS_SELECTOR_SPKI.
Definition DANETLS_MATCHING_FULL : Z := 0.
Definition DANETLS_MATCHING_2256 : Z := 1.
Definition DANETLS_MATCHING_2512 : Z := 2.
Definition DANETLS_MATCHING_LAST : Z := DANETLS_MATCHING_2512.

(** Modelled from the spec: the usage bit of the "bitmask of usage values
    present" and the mask of the two trust-anchor usages. *)
Definition DANETLS_USAGE_BIT (u : Z) : Z := Z.shiftl 1 u mod 2 ^ 32.
Definition DANETLS_TA_MASK : Z :=
  Z.lor (DANETLS_USAGE_BIT DANETLS_USAGE_PKIX_TA)
        (DANETLS_USAGE_BIT DANETLS_USAGE_DANE_TA).

Section Engine.

(** Digest handles, certificates and public keys belong to the crypto
    library; the engine only stores and passes them on. *)
Variables EVP_MD X509 EVP_PKEY : Type.

(** [EVP_MD_get_size]. *)
Variable EVP_MD_get_size : EVP_MD -> Z.
(** [d2i_X509(&cert, &p, ilen)]: the decoded certificate and [p - data],
    or failure. *)
Variable d2i_X509 : list Z -> Z -> option (X509 * Z).
(** [X509_get0_pubkey]. *)
Variable X509_get0_pubkey : X509 -> option EVP_PKEY.
(** [d2i_PUBKEY(&pkey, &p, ilen)]. *)
Variable d2i_PUBKEY : list Z -> Z -> option (EVP_PKEY * Z).

(** [danetls_record]. *)
Record danetls_record : Type := {
  usage : Z;
  selector : Z;
  mtype : Z;
  data : list Z;
  dlen : Z;
  spki : option EVP_PKEY
}.

(** [struct dane_ctx_st]: the per-factory matching-type registry.  The two
    arrays have [mdmax + 1] slots; a slot outside them reads as empty. *)
Record dane_ctx_st : Type := {
  mdevp : option (list (option EVP_MD));
  mdord : list Z;
  mdmax : Z;
  ctx_flags : Z
}.

(** [SSL_DANE]: the per-connection state.  [dctx] points at the factory's
    registry; the registry itself is passed to the functions that read
    through that pointer. *)
Record SSL_DANE : Type := {
  dctx_set : bool;
  trecs : option (list danetls_record);
  certs : option (list X509);
  mtlsa : option danetls_record;
  mcert : option X509;
  umask : Z;
  mdpth : Z;
  pdpth : Z;
  flags : Z
}.

Definition set_trecs (d : SSL_DANE) (l : option (list danetls_record)) : SSL_DANE :=
  {| dctx_set := dctx_set d; trecs := l; certs := certs d; mtlsa := mtlsa d;
     mcert := mcert d; umask := umask d; mdpth := mdpth d; pdpth := pdpth d;
     flags := flags d |}.

Definition set_certs (d : SSL_DANE) (c : option (list X509)) : SSL_DANE :=
  {| dctx_set := dctx_set d; trecs := trecs d; certs := c; mtlsa := mtlsa d;
     mcert := mcert d; umask := umask d; mdpth := mdpth d; pdpth := pdpth d;
     flags := flags d |}.

Definition set_umask (d : SSL_DANE) (u : Z) : SSL_DANE :=
  {| dctx_set := dctx_set d; trecs := trecs d; certs := certs d; mtlsa := mtlsa d;
     mcert := mcert d; umask := u; mdpth := mdpth d; pdpth := pdpth d;
     flags := flags d |}.

(** [dctx->mdevp[mtype]] and [dctx->mdord[mtype]]. *)
Definition mdevp_at (dctx : dane_ctx_st) (m : Z) : option EVP_MD :=
  match mdevp dctx with
  | None => None
  | Some tbl => nth (Z.to_nat m) tbl None
  end.

Definition mdord_at (dctx : dane_ctx_st) (m : Z) : Z :=
  nth (Z.to_nat m) (mdord dctx) 0.

(** [tlsa_md_get] (lines 261-266). *)
Definition tlsa_md_get (dctx : dane_ctx_st) (m : Z) : option EVP_MD :=
  if m >? mdmax dctx then None else mdevp_at dctx m.

(** The loop of lines 426-441: the index of the first stored record that
    is not strictly ahead of the new one, [num] when there is none. *)
Fixpoint insertion_point (dctx : dane_ctx_st) (l : list danetls_record)
    (u s m : Z) (i : nat) : nat :=
  match l with
  | [] => i
  | rec :: rest =>
      if usage rec >? u then insertion_point dctx rest u s m (S i)
      else if usage rec <? u then i
      else if selector rec >? s then insertion_point dctx rest u s m (S i)
      else if selector rec <? s then i
      else if mdord_at dctx (mtype rec) >? mdord_at dctx m
           then insertion_point dctx rest u s m (S i)
      else i
  end.

(** [sk_danetls_record_insert(sk, t, i)] when it succeeds. *)
Definition sk_insert {A} (l : list A) (t : A) (i : nat) : list A :=
  firstn i l ++ t :: skipn i l.

(** The stored sequence after a record went in: lines 426-443. *)
Definition tlsa_insert (dctx : dane_ctx_st) (l : list danetls_record)
    (t : danetls_record) : list danetls_record :=
  sk_insert l t (insertion_point dctx l (usage t) (selector t) (mtype t) 0).

(** The outcome of one call: the returned [int], the state afterwards, the
    reasons raised, and what is left of the allocation oracle. *)
Definition outcome : Type := (Z * SSL_DANE * list reason * alloc_oracle)%type.

(** Lines 426-450: find the insertion point, insert, record the usage. *)
Definition tlsa_add_tail (dctx : dane_ctx_st) (dane : SSL_DANE)
    (l : list danetls_record) (t : danetls_record) (o : alloc_oracle) : outcome :=
  let (ok, o') := alloc o in
  if negb ok then (-1, dane, [ERR_R_CRYPTO_LIB], o')
  else
    let dane' := set_trecs dane (Some (tlsa_insert dctx l t)) in
    (1, set_umask dane' (Z.lor (umask dane') (DANETLS_USAGE_BIT (usage t))), [], o').

(** [dane_tlsa_add] (lines 268-451).  [dctx] is the registry [dane->dctx]
    points at, [d] the [data] pointer and [n] the [dlen] argument. *)
Definition dane_tlsa_add (dctx : dane_ctx_st) (dane : SSL_DANE)
    (u s m : Z) (d : option (list Z)) (n : Z) (o : alloc_oracle) : outcome :=
  let ilen := int_of_size_t n in
  match trecs dane with
  | None => (-1, dane, [SSL_R_DANE_NOT_ENABLED], o)
  | Some l =>
    if (ilen <? 0) || negb (n =? size_t_of_int ilen)
    then (0, dane, [SSL_R_DANE_TLSA_BAD_DATA_LENGTH], o)
    else if u >? DANETLS_USAGE_LAST
    then (0, dane, [SSL_R_DANE_TLSA_BAD_CERTIFICATE_USAGE], o)
    else if s >? DANETLS_SELECTOR_LAST
    then (0, dane, [SSL_R_DANE_TLSA_BAD_SELECTOR], o)
    else
      let md := if negb (m =? DANETLS_MATCHING_FULL) then tlsa_md_get dctx m else None in
      if negb (m =? DANETLS_MATCHING_FULL) && negb (is_some md)
      then (0, dane, [SSL_R_DANE_TLSA_BAD_MATCHING_TYPE], o)
      else if match md with
              | Some h => (EVP_MD_get_size h <=? 0)
                          || negb (n =? size_t_of_int (EVP_MD_get_size h))
              | None => false
              end
      then (0, dane, [SSL_R_DANE_TLSA_BAD_DIGEST_LENGTH], o)
      else
        match d with
        | None => (0, dane, [SSL_R_DANE_TLSA_NULL_DATA], o)
        | Some bytes =>
          let (ok_t, o1) := alloc o in
          if negb ok_t then (-1, dane, [], o1)
          else
            let (ok_d, o2) := alloc o1 in
            if negb ok_d then (-1, dane, [], o2)
            else
              let t := {| usage := u; selector := s; mtype := m;
                          data := firstn (Z.to_nat n) bytes; dlen := n;
                          spki := None |} in
              if m =? DANETLS_MATCHING_FULL then
                if s =? DANETLS_SELECTOR_CERT then
                  match d2i_X509 bytes ilen with
                  | None => (0, dane, [SSL_R_DANE_TLSA_BAD_CERTIFICATE], o2)
                  | Some (cert, used) =>
                    if (used <? 0) || negb (n =? used)
                    then (0, dane, [SSL_R_DANE_TLSA_BAD_CERTIFICATE], o2)
                    else if negb (is_some (X509_get0_pubkey cert))
                    then (0, dane, [SSL_R_DANE_TLSA_BAD_CERTIFICATE], o2)
                    else if Z.land (DANETLS_USAGE_BIT u) DANETLS_TA_MASK =? 0
                    then tlsa_add_tail dctx dane l t o2
                    else
                      (* dane->certs is created on first use, then pushed to *)
                      let (ok_new, o3) :=
                        match certs dane with
                        | None => alloc o2
                        | Some _ => (true, o2)
                        end in
                      if negb ok_new then (-1, dane, [ERR_R_CRYPTO_LIB], o3)
                      else
                        let cs := match certs dane with None => [] | Some cs => cs end in
                        let dane1 := set_certs dane (Some cs) in
                        let (ok_push, o4) := alloc o3 in
                        if negb ok_push then (-1, dane1, [ERR_R_CRYPTO_LIB], o4)
                        else tlsa_add_tail dctx (set_certs dane (Some (cs ++ [cert]))) l t o4
                  end
                else if s =? DANETLS_SELECTOR_SPKI then
                  match d2i_PUBKEY bytes ilen with
                  | None => (0, dane, [SSL_R_DANE_TLSA_BAD_PUBLIC_KEY], o2)
                  | Some (pkey, used) =>
                    if (used <? 0) || negb (n =? used)
                    then (0, dane, [SSL_R_DANE_TLSA_BAD_PUBLIC_KEY], o2)
                    else
                      let t' := {| usage := u; selector := s; mtype := m;
                                   data := firstn (Z.to_nat n) bytes; dlen := n;
                                   spki := if u =? DANETLS_USAGE_DANE_TA
                                           then Some pkey else None |} in
                      tlsa_add_tail dctx dane l t' o2
                  end
                else tlsa_add_tail dctx dane l t o2
              else tlsa_add_tail dctx dane l t o2
        end
  end.

(** A call as the application makes it: the five arguments after the
    connection. *)
Record submission : Type := {
  sub_usage : Z;
  sub_selector : Z;
  sub_mtype : Z;
  sub_data : option (list Z);
  sub_dlen : Z
}.

Definition submit (dctx : dane_ctx_st) (dane : SSL_DANE) (x : submission)
    (o : alloc_oracle) : outcome :=
  dane_tlsa_add dctx dane (sub_usage x) (sub_selector x) (sub_mtype x)
                (sub_data x) (sub_dlen x) o.

(** A run of calls that all succeed, [None] as soon as one does not. *)
Fixpoint add_all (dctx : dane_ctx_st) (dane : SSL_DANE) (xs : list submission)
    (o : alloc_oracle) : option (SSL_DANE * alloc_oracle) :=
  match xs with
  | [] => Some (dane, o)
  | x :: rest =>
      match submit dctx dane x o with
      | (ret, dane', _, o') =>
          if ret =? 1 then add_all dctx dane' rest o' else None
      end
  end.

(** The record a successful call stores (lines 323-332 and 404-405). *)
Definition stored_record (x : submission) : danetls_record :=
  {| usage := sub_usage x; selector := sub_selector x; mtype := sub_mtype x;
     data := firstn (Z.to_nat (sub_dlen x))
                    (match sub_data x with Some b => b | None => [] end);
     dlen := sub_dlen x;
     spki :=
       if (sub_mtype x =? DANETLS_MATCHING_FULL)
          && (sub_selector x =? DANETLS_SELECTOR_SPKI)
          && (sub_usage x =? DANETLS_USAGE_DANE_TA)
       then match sub_data x with
            | Some b => option_map fst (d2i_PUBKEY b (int_of_size_t (sub_dlen x)))
            | None => None
            end
       else None |}.

(** The sort key of a stored record under a registry: usage, selector and
    the registry's priority ordinal of the matching type. *)
Definition sort_key (dctx : dane_ctx_st) (t : danetls_record) : Z * Z * Z :=
  (usage t, selector t, mdord_at dctx (mtype t)).

Definition key_eqb (k1 k2 : Z * Z * Z) : bool :=
  match k1, k2 with
  | (u1, s1, p1), (u2, s2, p2) => (u1 =? u2) && (s1 =? s2) && (p1 =? p2)
  end.

Definition has_key (dctx : dane_ctx_st) (k : Z * Z * Z) (t : danetls_record) : bool :=
  key_eqb (sort_key dctx t) k.

(** [key_ge k1 k2]: k1 is not behind k2 in the descending order. *)
Definition key_ge (k1 k2 : Z * Z * Z) : Prop :=
  match k1, k2 with
  | (u1, s1, p1), (u2, s2, p2) =>
      u1 > u2 \/ (u1 = u2 /\ (s1 > s2 \/ (s1 = s2 /\ p1 >= p2)))
  end.

Definition tlsa_ge (dctx : dane_ctx_st) (a b : danetls_record) : Prop :=
  key_ge (sort_key dctx a) (sort_key dctx b).

(** The stored sequence is in descending key order. *)
Definition tlsa_sorted (dctx : dane_ctx_st) (l : list danetls_record) : Prop :=
  StronglySorted (tlsa_ge dctx) l.

(** The test that makes the loop [continue]: the stored record is strictly
    ahead of the new one. *)
Definition ahead (dctx : dane_ctx_st) (rec t : danetls_record) : bool :=
  (usage rec >? usage t)
  || ((usage rec =? usage t)
      && ((selector rec >? selector t)
          || ((selector rec =? selector t)
              && (mdord_at dctx (mtype rec) >? mdord_at dctx (mtype t))))).

(** The insertion written as a recursion on the stored sequence. *)
Fixpoint ins (dctx : dane_ctx_st) (l : list danetls_record) (t : danetls_record)
    : list danetls_record :=
  match l with
  | [] => [t]
  | rec :: rest => if ahead dctx rec t then rec :: ins dctx rest t else t :: rec :: rest
  end.

(** The digests [dane_ctx_enable] asks the provider for. *)
Inductive nid : Type := NID_undef | NID_sha256 | NID_sha512.

(** [EVP_get_digestbynid]. *)
Variable EVP_get_digestbynid : nid -> option EVP_MD.

(** The table [dane_mds] (lines 100-114): matching type, ordinal, digest. *)
Definition dane_mds : list (Z * Z * nid) :=
  [ (DANETLS_MATCHING_FULL, 0, NID_undef);
    (DANETLS_MATCHING_2256, 1, NID_sha256);
    (DANETLS_MATCHING_2512, 2, NID_sha512) ].

(** The loop body of lines 137-145 for one table entry. *)
Definition install_default (acc : list (option EVP_MD) * list Z) (e : Z * Z * nid)
    : list (option EVP_MD) * list Z :=
  match e with
  | (mt, ord, n) =>
      match n with
      | NID_undef => acc
      | _ =>
          match EVP_get_digestbynid n with
          | None => acc
          | Some md =>
              (<[Z.to_nat mt := Some md]> (fst acc), <[Z.to_nat mt := ord]> (snd acc))
          end
      end
  end.

(** [dane_ctx_enable] (lines 116-152). *)
Definition dane_ctx_enable (dctx : dane_ctx_st) (o : alloc_oracle)
    : Z * dane_ctx_st * alloc_oracle :=
  let max := DANETLS_MATCHING_LAST in
  let n := Z.to_nat (max + 1) in
  if is_some (mdevp dctx) then (1, dctx, o)
  else
    let (ok_evp, o1) := alloc o in
    let (ok_ord, o2) := alloc o1 in
    if negb ok_ord || negb ok_evp then (0, dctx, o2)
    else
      let tbl := fold_left install_default dane_mds
                           (repeat None n, repeat 0 n) in
      (1, {| mdevp := Some (fst tbl); mdord := snd tbl; mdmax := max;
             ctx_flags := ctx_flags dctx |}, o2).

(** The part of a connection [SSL_dane_enable] touches: its DANE state,
    the SNI hint [ext.hostname] and the verification parameters. *)
Variable X509_VERIFY_PARAM : Type.

Record dane_conn : Type := {
  dane : SSL_DANE;
  ext_hostname : option string;
  param : X509_VERIFY_PARAM
}.

(** [SSL_set_tlsext_host_name(s, name)]: whether it succeeded and the SNI
    hint it leaves behind. *)
Variable SSL_set_tlsext_host_name :
  option string -> string -> alloc_oracle ->
  bool * option string * alloc_oracle.
(** [X509_VERIFY_PARAM_set1_host(param, name, 0)]: whether it succeeded
    and the parameters it leaves behind. *)
Variable X509_VERIFY_PARAM_set1_host :
  X509_VERIFY_PARAM -> string -> alloc_oracle ->
  bool * X509_VERIFY_PARAM * alloc_oracle.

Definition enable_outcome : Type :=
  (Z * option dane_conn * list reason * alloc_oracle)%type.

(** [SSL_dane_enable] (lines 1237-1283).  [ctx_dane] is [s->ctx->dane];
    [sc] is [None] when the handle is not backed by a TLS connection. *)
Definition SSL_dane_enable (ctx_dane : dane_ctx_st) (sc : option dane_conn)
    (basedomain : string) (o : alloc_oracle) : enable_outcome :=
  match sc with
  | None => (0, None, [], o)
  | Some c =>
    if mdmax ctx_dane =? 0
    then (0, Some c, [SSL_R_CONTEXT_NOT_DANE_ENABLED], o)
    else if is_some (trecs (dane c))
    then (0, Some c, [SSL_R_DANE_ALREADY_ENABLED], o)
    else
      let '(ok_sni, host1, o1) :=
        match ext_hostname c with
        | None => SSL_set_tlsext_host_name (ext_hostname c) basedomain o
        | Some _ => (true, ext_hostname c, o)
        end in
      let c1 := {| dane := dane c; ext_hostname := host1; param := param c |} in
      if negb ok_sni
      then (-1, Some c1, [SSL_R_ERROR_SETTING_TLSA_BASE_DOMAIN], o1)
      else
        let '(ok_host, param2, o2) :=
          X509_VERIFY_PARAM_set1_host (param c1) basedomain o1 in
        let c2 := {| dane := dane c1; ext_hostname := host1; param := param2 |} in
        if negb ok_host
        then (-1, Some c2, [SSL_R_ERROR_SETTING_TLSA_BASE_DOMAIN], o2)
        else
          let (ok_sk, o3) := alloc o2 in
          let d3 := {| dctx_set := true;
                       trecs := if ok_sk then Some [] else None;
                       certs := certs (dane c2); mtlsa := mtlsa (dane c2);
                       mcert := mcert (dane c2); umask := umask (dane c2);
                       mdpth := -1; pdpth := -1; flags := flags (dane c2) |} in
          let c3 := {| dane := d3; ext_hostname := host1; param := param2 |} in
          if negb ok_sk then (-1, Some c3, [ERR_R_CRYPTO_LIB], o3)
          else (1, Some c3, [], o3)
  end.

(** Modelled from the spec: [DANETLS_ENABLED], a macro of the DANE header,
    which is not among the sources: DANE counts as in use on a connection
    once its state holds at least one record. *)
Definition DANETLS_ENABLED (dn : SSL_DANE) : bool :=
  match trecs dn with
  | Some l => (0 <? length l)%nat
  | None => false
  end.

(** [dane_final] (lines 173-186). *)
Definition dane_final (dn : SSL_DANE) : SSL_DANE :=
  {| dctx_set := dctx_set dn; trecs := None; certs := None; mtlsa := None;
     mcert := None; umask := umask dn; mdpth := -1; pdpth := -1;
     flags := flags dn |}.

(** The loop of lines 210-216: the records of the source are added to the
    target one by one, in the order the source stores them. *)
Fixpoint dup_records (dctx : dane_ctx_st) (to : SSL_DANE)
    (recs : list danetls_record) (o : alloc_oracle)
    : Z * SSL_DANE * list reason * alloc_oracle :=
  match recs with
  | [] => (1, to, [], o)
  | t :: rest =>
      match dane_tlsa_add dctx to (usage t) (selector t) (mtype t)
                          (Some (data t)) (dlen t) o with
      | (ret, to', errs, o') =>
          if ret <=? 0 then (0, to', errs, o')
          else dup_records dctx to' rest o'
      end
  end.

(** [ssl_dane_dup] (lines 191-218); [dctx] is the registry of the target's
    factory. *)
Definition ssl_dane_dup (dctx : dane_ctx_st) (to from : SSL_DANE) (o : alloc_oracle)
    : Z * SSL_DANE * list reason * alloc_oracle :=
  if negb (DANETLS_ENABLED from) then (1, to, [], o)
  else
    let to1 := dane_final to in
    let (ok, o1) := alloc o in
    let to2 := {| dctx_set := true;
                  trecs := if ok then Some [] else None;
                  certs := certs to1; mtlsa := mtlsa to1; mcert := mcert to1;
                  umask := umask to1; mdpth := mdpth to1; pdpth := pdpth to1;
                  flags := flags from |} in
    if negb ok then (0, to2, [ERR_R_CRYPTO_LIB], o1)
    else dup_records dctx to2 (match trecs from with Some l => l | None => [] end) o1.

(** A well-formed call on an enabled state: fields in range, data present
    and of the announced length, a digest of exactly the registered size
    for a digest matching type, and DER that decodes in full (with a
    public key inside a certificate) for the matching type "full". *)
Definition valid_submission (dctx : dane_ctx_st) (dn : SSL_DANE) (x : submission) : Prop :=
  is_some (trecs dn) = true /\
  0 <= sub_dlen x <= INT_MAX /\
  0 <= sub_usage x <= DANETLS_USAGE_LAST /\
  0 <= sub_selector x <= DANETLS_SELECTOR_LAST /\
  0 <= sub_mtype x <= 255 /\
  exists bytes,
    sub_data x = Some bytes /\ Z.of_nat (length bytes) = sub_dlen x /\
    if sub_mtype x =? DANETLS_MATCHING_FULL then
      if sub_selector x =? DANETLS_SELECTOR_CERT then
        exists cert, d2i_X509 bytes (sub_dlen x) = Some (cert, sub_dlen x)
                     /\ is_some (X509_get0_pubkey cert) = true
      else
        exists pkey, d2i_PUBKEY bytes (sub_dlen x) = Some (pkey, sub_dlen x)
    else
      exists md, tlsa_md_get dctx (sub_mtype x) = Some md
                 /\ EVP_MD_get_size md = sub_dlen x /\ 0 < sub_dlen x.

(** *** The insertion loop *)

Lemma insertion_point_step dctx rec rest t i :
  insertion_point dctx (rec :: rest) (usage t) (selector t) (mtype t) i =
  if ahead dctx rec t
  then insertion_point dctx rest (usage t) (selector t) (mtype t) (S i)
  else i.
Proof.
  unfold ahead. simpl.
  destruct (Z.gtb_spec (usage rec) (usage t)) as [Hu|Hu]; simpl; [reflexivity|].
  destruct (Z.ltb_spec (usage rec) (usage t)) as [Hu'|Hu'].
  - destruct (Z.eqb_spec (usage rec) (usage t)); [lia | reflexivity].
  - destruct (Z.eqb_spec (usage rec) (usage t)); [simpl | lia].
    destruct (Z.gtb_spec (selector rec) (selector t)) as [Hs|Hs]; simpl; [reflexivity|].
    destruct (Z.ltb_spec (selector rec) (selector t)) as [Hs'|Hs'].
    + destruct (Z.eqb_spec (selector rec) (selector t)); [lia | reflexivity].
    + destruct (Z.eqb_spec (selector rec) (selector t)); [simpl | lia].
      reflexivity.
Qed.

Lemma insertion_point_shift dctx l t i :
  insertion_point dctx l (usage t) (selector t) (mtype t) (S i) =
  S (insertion_point dctx l (usage t) (selector t) (mtype t) i).
Proof.
  revert i. induction l as [|rec rest IH]; intros i; [reflexivity|].
  rewrite !insertion_point_step. destruct (ahead dctx rec t); [apply IH | reflexivity].
Qed.

Lemma tlsa_insert_ins dctx l t : tlsa_insert dctx l t = ins dctx l t.
Proof.
  unfold tlsa_insert, sk_insert. induction l as [|rec rest IH]; [reflexivity|].
  rewrite insertion_point_step. simpl ins.
  destruct (ahead dctx rec t); [|reflexivity].
  rewrite insertion_point_shift. simpl. f_equal. exact IH.
Qed.

Lemma ins_length dctx l t : length (ins dctx l t) = S (length l).
Proof.
  induction l as [|rec rest IH]; simpl; [reflexivity|].
  destruct (ahead dctx rec t); simpl; [rewrite IH|]; reflexivity.
Qed.

Lemma ins_In dctx l t x : In x (ins dctx l t) -> x = t \/ In x l.
Proof.
  induction l as [|rec rest IH]; simpl.
  - intros [H|[]]; auto.
  - destruct (ahead dctx rec t); simpl.
    + intros [H|H]; [auto | destruct (IH H); auto].
    + intros [H|[H|H]]; auto.
Qed.

(** *** The descending order *)

Lemma key_ge_refl k : key_ge k k.
Proof. destruct k as [[u s] p]. simpl. right. split; [|right; split]; lia. Qed.

Lemma key_ge_trans k1 k2 k3 : key_ge k1 k2 -> key_ge k2 k3 -> key_ge k1 k3.
Proof.
  destruct k1 as [[u1 s1] p1], k2 as [[u2 s2] p2], k3 as [[u3 s3] p3]. simpl. lia.
Qed.

Lemma key_ge_antisym k1 k2 : key_ge k1 k2 -> key_ge k2 k1 -> k1 = k2.
Proof.
  destruct k1 as [[u1 s1] p1], k2 as [[u2 s2] p2]. simpl. intros H1 H2.
  assert (u1 = u2 /\ s1 = s2 /\ p1 = p2) as (-> & -> & ->) by lia. reflexivity.
Qed.

Lemma key_eqb_eq k1 k2 : key_eqb k1 k2 = true <-> k1 = k2.
Proof.
  destruct k1 as [[u1 s1] p1], k2 as [[u2 s2] p2]. simpl.
  rewrite !andb_true_iff, !Z.eqb_eq. split.
  - intros [[-> ->] ->]. reflexivity.
  - intros H. inversion H. auto.
Qed.

Lemma ahead_ge dctx rec t : ahead dctx rec t = true -> tlsa_ge dctx rec t.
Proof. unfold ahead, tlsa_ge, sort_key, key_ge. lia. Qed.

Lemma ahead_key_neq dctx rec t :
  ahead dctx rec t = true -> sort_key dctx rec <> sort_key dctx t.
Proof. unfold ahead, sort_key. intros H E. inversion E. lia. Qed.

Lemma not_ahead_ge dctx rec t : ahead dctx rec t = false -> tlsa_ge dctx t rec.
Proof. unfold ahead, tlsa_ge, sort_key, key_ge. lia. Qed.

Lemma ins_sorted dctx l t : tlsa_sorted dctx l -> tlsa_sorted dctx (ins dctx l t).
Proof.
  unfold tlsa_sorted. induction 1 as [|rec rest Hs IH Hall]; simpl.
  - repeat constructor.
  - destruct (ahead dctx rec t) eqn:Ha.
    + constructor; [exact IH|].
      apply List.Forall_forall. intros x Hx. destruct (ins_In _ _ _ _ Hx) as [->|Hx'].
      * apply ahead_ge, Ha.
      * rewrite List.Forall_forall in Hall. apply Hall, Hx'.
    + constructor; [constructor; assumption|].
      constructor; [apply not_ahead_ge, Ha|].
      rewrite List.Forall_forall in Hall |- *. intros x Hx.
      eapply key_ge_trans; [apply not_ahead_ge, Ha | apply Hall, Hx].
Qed.

(** Among the records of one key the new record goes to the front. *)
Lemma ins_filter dctx l t k :
  List.filter (has_key dctx k) (ins dctx l t) =
  List.filter (has_key dctx k) [t] ++ List.filter (has_key dctx k) l.
Proof.
  induction l as [|rec rest IH]; [simpl; rewrite app_nil_r; reflexivity|].
  simpl ins. destruct (ahead dctx rec t) eqn:Ha;
    [|simpl; destruct (has_key dctx k t); reflexivity].
  simpl. rewrite IH. simpl.
  destruct (has_key dctx k t) eqn:Ht; [|reflexivity].
  destruct (has_key dctx k rec) eqn:Hr; [|reflexivity].
  exfalso. apply (ahead_key_neq _ _ _ Ha).
  unfold has_key in Ht, Hr. apply key_eqb_eq in Ht, Hr. congruence.
Qed.

(** *** One call *)

Ltac split_cases H :=
  repeat match type of H with
         | context [match ?x with _ => _ end] => destruct x eqn:?
         end.

Lemma tlsa_add_tail_spec dctx dane l t o ret dane' errs o' :
  tlsa_add_tail dctx dane l t o = (ret, dane', errs, o') ->
  (ret = 1 /\ trecs dane' = Some (tlsa_insert dctx l t) /\ errs = []
   /\ certs dane' = certs dane)
  \/ (ret = -1 /\ dane' = dane).
Proof.
  unfold tlsa_add_tail. intros H. split_cases H; inversion H; subst; simpl; auto.
Qed.

(** A call either stores exactly one record, at the place the loop finds,
    and returns 1, or returns 0 or -1 and leaves the record list alone. *)
Lemma dane_tlsa_add_spec dctx dane x o ret dane' errs o' :
  submit dctx dane x o = (ret, dane', errs, o') ->
  (ret = 1 /\ errs = [] /\
   exists l, trecs dane = Some l /\
             trecs dane' = Some (tlsa_insert dctx l (stored_record x)))
  \/ ((ret = 0 \/ ret = -1) /\ trecs dane' = trecs dane).
Proof.
  destruct x as [u s m d n]. unfold submit, dane_tlsa_add. simpl. intros H.
  split_cases H;
    try (inversion H; subst; simpl; right; split; [auto | congruence]);
    apply tlsa_add_tail_spec in H;
    (destruct H as [(-> & Ht & -> & _) | (-> & ->)];
     [ left; split; [reflexivity|]; split; [reflexivity|];
       eexists; split; [reflexivity|]; rewrite Ht; simpl; do 2 f_equal;
       unfold stored_record; simpl
     | right; simpl; split; [auto | congruence] ]).
  all: repeat match goal with
         | E : (_ =? _) = true |- _ => apply Z.eqb_eq in E; subst
         end; simpl; try reflexivity.
  all: repeat match goal with
         | E : ?b = _ |- context [?b] => rewrite E
         end; simpl; try reflexivity.
Qed.

(** *** A run of calls *)

Lemma add_all_spec dctx xs : forall dane o dane' o' l,
  add_all dctx dane xs o = Some (dane', o') ->
  trecs dane = Some l ->
  trecs dane' = Some (fold_left (ins dctx) (map stored_record xs) l).
Proof.
  induction xs as [|x rest IH]; simpl; intros dane o dane' o' l H Hl.
  - inversion H; subst. exact Hl.
  - destruct (submit dctx dane x o) as [[[ret d1] e1] o1] eqn:Hx.
    destruct (Z.eqb_spec ret 1) as [->|]; [|discriminate].
    destruct (dane_tlsa_add_spec _ _ _ _ _ _ _ _ Hx)
      as [(_ & _ & l0 & Hl0 & Hl1) | ([?|?] & _)]; try discriminate.
    rewrite Hl in Hl0. inversion Hl0; subst l0.
    rewrite tlsa_insert_ins in Hl1. eapply IH; eassumption.
Qed.

Lemma fold_ins_sorted dctx recs : forall l,
  tlsa_sorted dctx l -> tlsa_sorted dctx (fold_left (ins dctx) recs l).
Proof.
  induction recs as [|t recs IH]; simpl; intros l Hl; [exact Hl|].
  apply IH, ins_sorted, Hl.
Qed.

Lemma fold_ins_filter dctx k recs : forall l,
  List.filter (has_key dctx k) (fold_left (ins dctx) recs l) =
  rev (List.filter (has_key dctx k) recs) ++ List.filter (has_key dctx k) l.
Proof.
  induction recs as [|t recs IH]; simpl; intros l; [reflexivity|].
  rewrite IH, ins_filter. simpl.
  destruct (has_key dctx k t); simpl; [|reflexivity].
  rewrite <- app_assoc. reflexivity.
Qed.

(** *** A sorted sequence is fixed by its per-key subsequences *)

Lemma filter_has_key_In dctx l t :
  In t l -> List.filter (has_key dctx (sort_key dctx t)) l <> [].
Proof.
  intros Hin E.
  assert (In t (List.filter (has_key dctx (sort_key dctx t)) l)) as H.
  { apply filter_In. split; [exact Hin|]. apply key_eqb_eq. reflexivity. }
  rewrite E in H. destruct H.
Qed.

Lemma filter_nonempty_In dctx k l :
  List.filter (has_key dctx k) l <> [] ->
  exists t, In t l /\ sort_key dctx t = k.
Proof.
  intros H. destruct (List.filter (has_key dctx k) l) as [|t r] eqn:E; [congruence|].
  assert (In t (List.filter (has_key dctx k) l)) as Hin by (rewrite E; left; reflexivity).
  apply filter_In in Hin. destruct Hin as [Hin Hk].
  exists t. split; [exact Hin | apply key_eqb_eq, Hk].
Qed.

Lemma sorted_unique dctx l1 : forall l2,
  tlsa_sorted dctx l1 -> tlsa_sorted dctx l2 ->
  (forall k, List.filter (has_key dctx k) l1 = List.filter (has_key dctx k) l2) ->
  l1 = l2.
Proof.
  induction l1 as [|a l1 IH]; intros l2 H1 H2 Hf.
  - destruct l2 as [|b l2]; [reflexivity|]. exfalso.
    apply (filter_has_key_In dctx (b :: l2) b); [left; reflexivity|].
    rewrite <- Hf. reflexivity.
  - destruct l2 as [|b l2].
    { exfalso. apply (filter_has_key_In dctx (a :: l1) a); [left; reflexivity|].
      rewrite Hf. reflexivity. }
    inversion H1 as [|? ? Hs1 Ha]; subst. inversion H2 as [|? ? Hs2 Hb]; subst.
    rewrite List.Forall_forall in Ha, Hb.
    assert (sort_key dctx a = sort_key dctx b) as Hk.
    { apply key_ge_antisym.
      - destruct (filter_nonempty_In dctx (sort_key dctx b) (a :: l1)) as (t & [<-|Hin] & Ht).
        + rewrite Hf. apply filter_has_key_In. left; reflexivity.
        + rewrite Ht. apply key_ge_refl.
        + rewrite <- Ht. apply Ha, Hin.
      - destruct (filter_nonempty_In dctx (sort_key dctx a) (b :: l2)) as (t & [<-|Hin] & Ht).
        + rewrite <- Hf. apply filter_has_key_In. left; reflexivity.
        + rewrite Ht. apply key_ge_refl.
        + rewrite <- Ht. apply Hb, Hin. }
    assert (a = b) as ->.
    { specialize (Hf (sort_key dctx a)). simpl in Hf.
      assert (has_key dctx (sort_key dctx a) a = true) as Ea
        by (apply key_eqb_eq; reflexivity).
      assert (has_key dctx (sort_key dctx a) b = true) as Eb
        by (apply key_eqb_eq; symmetry; exact Hk).
      rewrite Ea, Eb in Hf. inversion Hf. reflexivity. }
    f_equal. apply IH; [assumption..|].
    intros k. specialize (Hf k). simpl in Hf.
    destruct (has_key dctx k b); [inversion Hf|]; auto.
Qed.

(** When no two records share a key, reordering the submissions does not
    change any per-key subsequence. *)
Lemma perm_filter_key dctx k (l1 l2 : list danetls_record) :
  Permutation l1 l2 -> List.NoDup (map (sort_key dctx) l1) ->
  List.filter (has_key dctx k) l1 = List.filter (has_key dctx k) l2.
Proof.
  induction 1 as [|x l l' Hp IH|x y l|l l' l'' Hp1 IH1 Hp2 IH2]; intros Hnd.
  - reflexivity.
  - simpl in *. inversion Hnd; subst. rewrite IH by assumption. reflexivity.
  - simpl in *. destruct (has_key dctx k x) eqn:Hx, (has_key dctx k y) eqn:Hy;
      try reflexivity.
    exfalso. unfold has_key in Hx, Hy. apply key_eqb_eq in Hx, Hy.
    inversion Hnd as [|? ? Hnin _]; subst. apply Hnin. left. congruence.
  - rewrite IH1 by assumption. apply IH2.
    eapply Permutation_NoDup; [|exact Hnd]. apply Permutation_map, Hp1.
Qed.

Lemma ins_perm dctx l t : Permutation (ins dctx l t) (t :: l).
Proof.
  induction l as [|rec rest IH]; simpl; [reflexivity|].
  destruct (ahead dctx rec t); [|reflexivity].
  rewrite IH. apply perm_swap.
Qed.

Lemma fold_ins_perm dctx recs : forall l,
  Permutation (fold_left (ins dctx) recs l) (recs ++ l).
Proof.
  induction recs as [|t recs IH]; simpl; intros l; [reflexivity|].
  rewrite IH, ins_perm. symmetry. apply Permutation_middle.
Qed.

Lemma alloc_ok o : never_fails o -> exists o1, alloc o = (true, o1) /\ never_fails o1.
Proof.
  intros H. destruct (alloc_never_fails o H) as [H1 H2].
  destruct (alloc o) as [b o1]. simpl in *. subst b. eauto.
Qed.

Lemma tlsa_add_tail_ok dctx dn l t o :
  never_fails o ->
  exists dn' o', tlsa_add_tail dctx dn l t o = (1, dn', [], o')
                 /\ trecs dn' = Some (tlsa_insert dctx l t).
Proof.
  intros Ho. unfold tlsa_add_tail. destruct (alloc_ok o Ho) as (o1 & -> & _).
  simpl. eauto.
Qed.

(** *** The claims about [dane_tlsa_add] *)

(** C1 (amended).  After any run of successful [dane_tlsa_add] calls on an
    enabled state whose records were in order, the stored sequence is
    sorted by descending usage, then descending selector, then descending
    registry priority of the matching type, and holds exactly the records
    submitted; among the records of one key the most recently submitted
    comes first (reverse submission order); and when no two submitted
    records share a key, submitting the same records in another order ends
    with the same sequence. *)
Theorem tlsa_add_sorted_newest_first dctx dn l0 xs o dn' o' :
  trecs dn = Some l0 ->
  tlsa_sorted dctx l0 ->
  add_all dctx dn xs o = Some (dn', o') ->
  exists L,
    trecs dn' = Some L
    /\ tlsa_sorted dctx L
    /\ Permutation L (map stored_record xs ++ l0)
    /\ (forall k, List.filter (has_key dctx k) L =
                  rev (List.filter (has_key dctx k) (map stored_record xs))
                  ++ List.filter (has_key dctx k) l0)
    /\ (forall xs2 o2 dn2 o2',
          Permutation xs xs2 ->
          List.NoDup (map (sort_key dctx) (map stored_record xs)) ->
          add_all dctx dn xs2 o2 = Some (dn2, o2') ->
          trecs dn2 = Some L).
Proof.
  intros Hl Hs Hrun. pose proof (add_all_spec _ _ _ _ _ _ _ Hrun Hl) as HL.
  eexists. split; [exact HL|]. split; [apply fold_ins_sorted, Hs|].
  split; [apply fold_ins_perm|]. split; [intros k; apply fold_ins_filter|].
  intros xs2 o2 dn2 o2' Hp Hnd Hrun2.
  rewrite (add_all_spec _ _ _ _ _ _ _ Hrun2 Hl). f_equal.
  apply sorted_unique with (dctx := dctx); try (apply fold_ins_sorted, Hs).
  intros k. rewrite !fold_ins_filter. do 2 f_equal.
  symmetry. apply perm_filter_key; [apply Permutation_map, Hp | exact Hnd].
Qed.

(** C2 (amended).  On a valid input, when no allocation fails,
    [dane_tlsa_add] returns 1 (not the record count), raises nothing, and
    the connection holds exactly one record more than before. *)
Theorem tlsa_add_returns_one dctx dn x o :
  valid_submission dctx dn x ->
  never_fails o ->
  exists dn' o' l l',
    submit dctx dn x o = (1, dn', [], o')
    /\ trecs dn = Some l /\ trecs dn' = Some l'
    /\ length l' = S (length l).
Proof.
  intros (Hen & Hn & Hu & Hs & Hm & bytes & Hd & Hlen & Hwf) Ho.
  destruct x as [u s m d n]. simpl in *. subst d.
  destruct (trecs dn) as [l|] eqn:Hl; [|discriminate].
  assert (forall t dn1 o1, never_fails o1 -> trecs dn1 = trecs dn ->
            exists dn' o' l',
              tlsa_add_tail dctx dn1 l t o1 = (1, dn', [], o')
              /\ trecs dn' = Some l' /\ length l' = S (length l)) as Htail.
  { intros t dn1 o1 Ho1 _. destruct (tlsa_add_tail_ok dctx dn1 l t o1 Ho1)
      as (dn' & o' & E & Et). exists dn', o', (tlsa_insert dctx l t).
    split; [exact E|]. split; [exact Et|].
    rewrite tlsa_insert_ins. apply ins_length. }
  assert (exists dn' o' l', submit dctx dn
            {| sub_usage := u; sub_selector := s; sub_mtype := m;
               sub_data := Some bytes; sub_dlen := n |} o = (1, dn', [], o')
            /\ trecs dn' = Some l' /\ length l' = S (length l)) as (dn' & o' & l' & E & E1 & E2);
    [|exists dn', o', l, l'; auto].
  unfold submit, dane_tlsa_add. simpl. rewrite Hl.
  rewrite (int_of_size_t_small n Hn), (size_t_of_int_small n Hn).
  unfold DANETLS_USAGE_LAST, DANETLS_USAGE_DANE_EE, DANETLS_SELECTOR_LAST,
    DANETLS_SELECTOR_SPKI in *.
  replace (n <? 0) with false by (symmetry; apply Z.ltb_ge; lia).
  rewrite Z.eqb_refl. simpl.
  replace (u >? 3) with false by (symmetry; rewrite Z.gtb_ltb; apply Z.ltb_ge; lia).
  replace (s >? 1) with false by (symmetry; rewrite Z.gtb_ltb; apply Z.ltb_ge; lia).
  destruct (alloc_ok o Ho) as (o1 & Eo & Ho1).
  destruct (alloc_ok o1 Ho1) as (o2 & Eo1 & Ho2).
  destruct (m =? DANETLS_MATCHING_FULL) eqn:Em; simpl.
  - rewrite Eo, Eo1. simpl.
    destruct (s =? DANETLS_SELECTOR_CERT) eqn:Es.
    + destruct Hwf as (cert & -> & Hpk). rewrite Z.eqb_refl, Hpk. simpl.
      replace (n <? 0) with false by (symmetry; apply Z.ltb_ge; lia). simpl.
      destruct (Z.land (DANETLS_USAGE_BIT u) DANETLS_TA_MASK =? 0).
      * apply Htail; auto.
      * destruct (certs dn) as [cs|] eqn:Ec.
        -- destruct (alloc_ok o2 Ho2) as (o3 & -> & Ho3). simpl.
           apply Htail; auto.
        -- destruct (alloc_ok o2 Ho2) as (o3 & -> & Ho3). simpl.
           destruct (alloc_ok o3 Ho3) as (o4 & -> & Ho4). simpl.
           apply Htail; auto.
    + destruct Hwf as (pkey & Hpk).
      assert (s = 1) as -> by (apply Z.eqb_neq in Es; unfold DANETLS_SELECTOR_CERT in Es; lia).
      simpl. rewrite Hpk. rewrite Z.eqb_refl.
      replace (n <? 0) with false by (symmetry; apply Z.ltb_ge; lia). simpl.
      apply Htail; auto.
  - destruct Hwf as (md & -> & Hsz & Hpos). simpl. rewrite Hsz.
    rewrite (size_t_of_int_small n Hn), Z.eqb_refl.
    replace (n <=? 0) with false by (symmetry; apply Z.leb_gt; lia). simpl.
    rewrite Eo, Eo1. simpl. apply Htail; auto.
Qed.

(** C5.  Whenever [dane_tlsa_add] fails, whatever the cause (not enabled,
    bad length, usage, selector, matching type or digest length, null
    data, undecodable certificate or key, or an allocation failure), the
    record list is the same after the call as before it. *)
Theorem tlsa_add_failure_keeps_records dctx dn u s m d n o ret dn' errs o' :
  dane_tlsa_add dctx dn u s m d n o = (ret, dn', errs, o') ->
  ret <= 0 ->
  trecs dn' = trecs dn.
Proof.
  intros H Hret.
  destruct (dane_tlsa_add_spec dctx dn
              {| sub_usage := u; sub_selector := s; sub_mtype := m;
                 sub_data := d; sub_dlen := n |} o ret dn' errs o' H)
    as [(-> & _) | (_ & E)]; [lia | exact E].
Qed.

(** *** The claim about [SSL_dane_enable] *)

(** The call succeeds only when every inner step it took succeeded: the
    SNI setter when no hint was set, the reference-identifier setter, and
    the allocation of the record list; the list is then empty. *)
Lemma dane_enable_success_needs_every_step ctx_dane c basedomain o sc' errs o' :
  SSL_dane_enable ctx_dane (Some c) basedomain o = (1, sc', errs, o') ->
  let sni := match ext_hostname c with
             | None => SSL_set_tlsext_host_name (ext_hostname c) basedomain o
             | Some _ => (true, ext_hostname c, o)
             end in
  let host := X509_VERIFY_PARAM_set1_host (param c) basedomain (snd sni) in
  fst (fst sni) = true
  /\ fst (fst host) = true
  /\ fst (alloc (snd host)) = true
  /\ exists c', sc' = Some c' /\ trecs (dane c') = Some []
                /\ ext_hostname c' = snd (fst sni) /\ param c' = snd (fst host).
Proof.
  unfold SSL_dane_enable. intros H.
  destruct (mdmax ctx_dane =? 0); [inversion H|].
  destruct (is_some (trecs (dane c))); [inversion H|].
  destruct (match ext_hostname c with
            | None => SSL_set_tlsext_host_name (ext_hostname c) basedomain o
            | Some _ => (true, ext_hostname c, o)
            end) as [[ok_sni host1] o1].
  simpl in *. destruct ok_sni; simpl in H; [|inversion H].
  destruct (X509_VERIFY_PARAM_set1_host (param c) basedomain o1) as [[ok_h p2] o2].
  simpl in *. destruct ok_h; simpl in H; [|inversion H].
  destruct (alloc o2) as [ok_sk o3]. simpl in *.
  destruct ok_sk; simpl in H; inversion H; subst.
  repeat split. eexists. split; [reflexivity|]. simpl. auto.
Qed.


(** C4 (amended).  [SSL_dane_enable] fails whenever an inner step fails:
    it returns -1 when the SNI setter, the reference-identifier setter or
    the allocation of the record list fails, and 1 only when all three go
    through.  After such a failure the TLSA record list is still
    unallocated, so DANE is not enabled, and the auxiliary certificate
    list, the usage mask and the flags are what they were; but nothing is
    rolled back: the SNI hint is what the SNI setter left, and the
    verification parameters are what the reference-identifier setter left
    when it was reached.  A call rejected before any inner step (registry
    not enabled, already enabled) returns 0 and changes nothing at all. *)
Theorem dane_enable_failure_leaves_dane_disabled
    ctx_dane c basedomain o ret sc' errs o' :
  SSL_dane_enable ctx_dane (Some c) basedomain o = (ret, sc', errs, o') ->
  let sni := match ext_hostname c with
             | None => SSL_set_tlsext_host_name (ext_hostname c) basedomain o
             | Some _ => (true, ext_hostname c, o)
             end in
  let host := X509_VERIFY_PARAM_set1_host (param c) basedomain (snd sni) in
  let sk := alloc (snd host) in
  if (mdmax ctx_dane =? 0) || is_some (trecs (dane c))
  then ret = 0 /\ sc' = Some c /\ o' = o
       /\ errs = [if mdmax ctx_dane =? 0 then SSL_R_CONTEXT_NOT_DANE_ENABLED
                  else SSL_R_DANE_ALREADY_ENABLED]
  else if fst (fst sni) && fst (fst host) && fst sk
  then ret = 1
  else ret = -1
       /\ exists c',
            sc' = Some c'
            /\ trecs (dane c') = None
            /\ DANETLS_ENABLED (dane c') = false
            /\ certs (dane c') = certs (dane c)
            /\ umask (dane c') = umask (dane c)
            /\ flags (dane c') = flags (dane c)
            /\ ext_hostname c' = snd (fst sni)
            /\ param c' = (if fst (fst sni) then snd (fst host) else param c)
            /\ errs = [if fst (fst sni) && fst (fst host) then ERR_R_CRYPTO_LIB
                       else SSL_R_ERROR_SETTING_TLSA_BASE_DOMAIN]
            /\ o' = (if fst (fst sni)
                     then if fst (fst host) then snd sk else snd host
                     else snd sni).
Proof.
  intros H. cbv zeta. unfold SSL_dane_enable in H.
  destruct (mdmax ctx_dane =? 0); cbn [orb];
    [inversion H; subst; auto|].
  destruct (is_some (trecs (dane c))) eqn:Hen;
    [inversion H; subst; auto|].
  assert (trecs (dane c) = None) as Hnone
    by (destruct (trecs (dane c)); [discriminate | reflexivity]).
  destruct (match ext_hostname c with
            | None => SSL_set_tlsext_host_name (ext_hostname c) basedomain o
            | Some _ => (true, ext_hostname c, o)
            end) as [[ok_sni host1] o1].
  cbn [fst snd param] in *.
  destruct ok_sni; cbn [negb andb] in *.
  2:{ inversion H; subst. split; [reflexivity|]. eexists. split; [reflexivity|].
      unfold DANETLS_ENABLED. simpl. rewrite Hnone. auto 10. }
  destruct (X509_VERIFY_PARAM_set1_host (param c) basedomain o1) as [[ok_h p2] o2].
  cbn [fst snd] in *. destruct ok_h; cbn [negb andb] in *.
  2:{ inversion H; subst. split; [reflexivity|]. eexists. split; [reflexivity|].
      unfold DANETLS_ENABLED. simpl. rewrite Hnone. auto 10. }
  destruct (alloc o2) as [ok_sk o3]. cbn [fst snd] in *.
  destruct ok_sk; cbn [negb] in *; inversion H; subst; [reflexivity|].
  split; [reflexivity|]. eexists. split; [reflexivity|].
  unfold DANETLS_ENABLED. simpl. auto 10.
Qed.

End Engine.

Arguments usage {EVP_PKEY}.
Arguments selector {EVP_PKEY}.
Arguments mtype {EVP_PKEY}.
Arguments data {EVP_PKEY}.
Arguments dlen {EVP_PKEY}.
Arguments spki {EVP_PKEY}.
Arguments mdevp {EVP_MD}.
Arguments mdord {EVP_MD}.
Arguments mdmax {EVP_MD}.
Arguments ctx_flags {EVP_MD}.
Arguments dctx_set {X509 EVP_PKEY}.
Arguments trecs {X509 EVP_PKEY}.
Arguments certs {X509 EVP_PKEY}.
Arguments mtlsa {X509 EVP_PKEY}.
Arguments mcert {X509 EVP_PKEY}.
Arguments umask {X509 EVP_PKEY}.
Arguments mdpth {X509 EVP_PKEY}.
Arguments pdpth {X509 EVP_PKEY}.
Arguments flags {X509 EVP_PKEY}.
Arguments dane {X509 EVP_PKEY X509_VERIFY_PARAM}.
Arguments ext_hostname {X509 EVP_PKEY X509_VERIFY_PARAM}.
Arguments param {X509 EVP_PKEY X509_VERIFY_PARAM}.
Arguments mdord_at {EVP_MD}.
Arguments tlsa_md_get {EVP_MD}.
Arguments insertion_point {EVP_MD EVP_PKEY}.
Arguments tlsa_insert {EVP_MD EVP_PKEY}.
Arguments dane_tlsa_add {EVP_MD X509 EVP_PKEY}.
Arguments submit {EVP_MD X509 EVP_PKEY}.
Arguments add_all {EVP_MD X509 EVP_PKEY}.
Arguments stored_record {EVP_PKEY}.
Arguments valid_submission {EVP_MD X509 EVP_PKEY}.
Arguments sort_key {EVP_MD EVP_PKEY}.
Arguments has_key {EVP_MD EVP_PKEY}.
Arguments tlsa_ge {EVP_MD EVP_PKEY}.
Arguments tlsa_sorted {EVP_MD EVP_PKEY}.
Arguments dane_ctx_enable {EVP_MD}.
Arguments SSL_dane_enable {EVP_MD X509 EVP_PKEY X509_VERIFY_PARAM}.
Arguments DANETLS_ENABLED {X509 EVP_PKEY}.
Arguments dane_final {X509 EVP_PKEY}.
Arguments ssl_dane_dup {EVP_MD X509 EVP_PKEY}.

(** *** A provider to run the engine on

    Digest handles are the digest names, with the sizes of SHA2-256 and
    SHA2-512.  A DER blob decodes when it starts with the SEQUENCE tag
    (0x30) and is then consumed in full; certificates and keys are kept as
    their bytes.  The SNI setter rejects the empty name (see the comment at
    lines 1254-1258 of the source) and, like the reference-identifier
    setter, needs one allocation. *)

Definition demo_md_size (n : nid) : Z :=
  match n with NID_undef => 0 | NID_sha256 => 32 | NID_sha512 => 64 end.

Definition demo_d2i (bytes : list Z) (ilen : Z) : option (list Z * Z) :=
  match bytes with
  | 48 :: _ => Some (bytes, ilen)
  | _ => None
  end.

Definition demo_pubkey (cert : list Z) : option (list Z) :=
  match cert with
  | 48 :: 48 :: _ => Some cert
  | _ => None
  end.

Definition demo_digestbynid (n : nid) : option nid := Some n.

Definition demo_set_host_name (old : option string) (name : string)
    (o : alloc_oracle) : bool * option string * alloc_oracle :=
  if String.eqb name String.EmptyString then (false, None, o)
  else let (ok, o') := alloc o in
       if ok then (true, Some name, o') else (false, None, o').

Definition demo_set1_host (p : list string) (name : string)
    (o : alloc_oracle) : bool * list string * alloc_oracle :=
  let (ok, o') := alloc o in
  if ok then (true, [name], o') else (false, [], o').

(** The registry [SSL_CTX_dane_enable] builds on a fresh factory. *)
Definition demo_registry : dane_ctx_st nid :=
  snd (fst (dane_ctx_enable demo_digestbynid
              {| mdevp := None; mdord := []; mdmax := 0; ctx_flags := 0 |} [])).

(** A connection on which DANE was never enabled, and the same connection
    once [SSL_dane_enable] went through. *)
Definition demo_conn : dane_conn (list Z) (list Z) (list string) :=
  {| dane := {| dctx_set := false; trecs := None; certs := None; mtlsa := None;
                mcert := None; umask := 0; mdpth := -1; pdpth := -1; flags := 0 |};
     ext_hostname := None;
     param := [] |}.

Definition demo_enable (c : dane_conn (list Z) (list Z) (list string))
    (name : string) (o : alloc_oracle) :=
  SSL_dane_enable demo_set_host_name demo_set1_host demo_registry (Some c) name o.

Definition demo_enabled : SSL_DANE (list Z) (list Z) :=
  match demo_enable demo_conn "example.com"%string [] with
  | (_, Some c, _, _) => dane c
  | _ => dane demo_conn
  end.

Definition demo_add_all :=
  add_all demo_md_size demo_d2i demo_pubkey demo_d2i demo_registry.

Definition demo_submit :=
  submit demo_md_size demo_d2i demo_pubkey demo_d2i demo_registry.

(** Two DANE-EE / SPKI / SHA2-256 records that differ in their digest only,
    and a third with another usage. *)
Definition rec_A : submission := {| sub_usage := 3; sub_selector := 1; sub_mtype := 1;
  sub_data := Some (repeat 170 32); sub_dlen := 32 |}.
Definition rec_B : submission := {| sub_usage := 3; sub_selector := 1; sub_mtype := 1;
  sub_data := Some (repeat 187 32); sub_dlen := 32 |}.
Definition rec_C : submission := {| sub_usage := 2; sub_selector := 0; sub_mtype := 2;
  sub_data := Some (repeat 204 64); sub_dlen := 64 |}.

(** The digests of the stored records, in stored order. *)
Definition stored_data (r : option (SSL_DANE (list Z) (list Z) * alloc_oracle))
    : option (list (list Z)) :=
  match r with
  | Some (dn, _) => option_map (map data) (trecs dn)
  | None => None
  end.

(** What a call returned, the state it left, and
    [sk_danetls_record_num(dane->trecs)] on that state. *)
Definition ret_of {X P} (r : outcome X P) : Z := fst (fst (fst r)).
Definition dane_of {X P} (r : outcome X P) : SSL_DANE X P := snd (fst (fst r)).
Definition record_count {X P} (dn : SSL_DANE X P) : Z :=
  match trecs dn with
  | Some l => Z.of_nat (length l)
  | None => -1
  end.

(** *** The claims on concrete inputs *)

(** C1 as stated does not hold: two records with the same usage, selector
    and priority are stored newest first, so the record submitted first
    ends up last, and the two submission orders of the same two records
    end in different sequences. *)
Lemma tlsa_equal_keys_order_counterexample :
  stored_data (demo_add_all demo_enabled [rec_A; rec_B] [])
    = Some [repeat 187 32; repeat 170 32]
  /\ stored_data (demo_add_all demo_enabled [rec_B; rec_A] [])
    = Some [repeat 170 32; repeat 187 32]
  /\ Permutation [rec_A; rec_B] [rec_B; rec_A]
  /\ stored_data (demo_add_all demo_enabled [rec_A; rec_B] [])
     <> stored_data (demo_add_all demo_enabled [rec_B; rec_A] []).
Proof.
  split; [vm_compute; reflexivity|]. split; [vm_compute; reflexivity|].
  split; [apply perm_swap|]. vm_compute. discriminate.
Qed.

Lemma tlsa_add_sorted_newest_first_witness :
  exists dn' o',
    demo_add_all demo_enabled [rec_C; rec_A; rec_B] [] = Some (dn', o')
    /\ exists L,
         trecs dn' = Some L
         /\ tlsa_sorted demo_registry L
         /\ Permutation L (map (stored_record demo_d2i) [rec_C; rec_A; rec_B] ++ [])
         /\ (forall k, List.filter (has_key demo_registry k) L =
                       rev (List.filter (has_key demo_registry k)
                              (map (stored_record demo_d2i) [rec_C; rec_A; rec_B]))
                       ++ List.filter (has_key demo_registry k) [])
         /\ (forall xs2 o2 dn2 o2',
               Permutation [rec_C; rec_A; rec_B] xs2 ->
               List.NoDup (map (sort_key demo_registry)
                             (map (stored_record demo_d2i) [rec_C; rec_A; rec_B])) ->
               demo_add_all demo_enabled xs2 o2 = Some (dn2, o2') ->
               trecs dn2 = Some L).
Proof.
  eexists. eexists. split; [vm_compute; reflexivity|].
  eapply (tlsa_add_sorted_newest_first nid (list Z) (list Z) demo_md_size demo_d2i
            demo_pubkey demo_d2i demo_registry demo_enabled [] [rec_C; rec_A; rec_B] []).
  - reflexivity.
  - constructor.
  - vm_compute. reflexivity.
Defined.

(** C2 as stated does not hold: the second successful call on a connection
    returns 1 although two records are stored afterwards. *)
Lemma tlsa_add_return_value_counterexample :
  let r1 := demo_submit demo_enabled rec_A [] in
  let r2 := demo_submit (dane_of r1) rec_B [] in
  ret_of r1 = 1 /\ ret_of r2 = 1
  /\ record_count (dane_of r2) = 2
  /\ ret_of r2 <> record_count (dane_of r2).
Proof. vm_compute. repeat split; discriminate. Qed.

Lemma tlsa_add_returns_one_witness :
  valid_submission demo_md_size demo_d2i demo_pubkey demo_d2i
                   demo_registry demo_enabled rec_A
  /\ never_fails []
  /\ exists dn' o' l l',
       demo_submit demo_enabled rec_A [] = (1, dn', [], o')
       /\ trecs demo_enabled = Some l /\ trecs dn' = Some l'
       /\ length l' = S (length l).
Proof.
  assert (valid_submission demo_md_size demo_d2i demo_pubkey demo_d2i
            demo_registry demo_enabled rec_A) as Hv.
  { unfold valid_submission. simpl.
    repeat (split; [try reflexivity; vm_compute; intuition discriminate|]).
    exists (repeat 170 32). split; [reflexivity|]. split; [reflexivity|].
    exists NID_sha256. repeat split. }
  split; [exact Hv|]. split; [constructor|].
  apply (tlsa_add_returns_one nid (list Z) (list Z) demo_md_size demo_d2i
           demo_pubkey demo_d2i demo_registry demo_enabled rec_A [] Hv).
  constructor.
Defined.

(** A trust-anchor certificate is decoded and put on the auxiliary list,
    then the insertion into the record list cannot get memory: the call
    fails and the record list is as before. *)
Lemma tlsa_add_failure_keeps_records_witness :
  exists dn',
    dane_tlsa_add demo_md_size demo_d2i demo_pubkey demo_d2i demo_registry
                  (dane_of (demo_submit demo_enabled rec_A []))
                  2 0 0 (Some [48; 48; 1; 2]) 4 [true; true; true; true; false]
      = (-1, dn', [ERR_R_CRYPTO_LIB], [])
    /\ -1 <= 0
    /\ certs dn' = Some [[48; 48; 1; 2]]
    /\ trecs dn' = trecs (dane_of (demo_submit demo_enabled rec_A [])).
Proof.
  eexists. split; [vm_compute; reflexivity|]. split; [lia|].
  split; [reflexivity|].
  eapply (tlsa_add_failure_keeps_records nid (list Z) (list Z) demo_md_size demo_d2i
            demo_pubkey demo_d2i demo_registry
            (dane_of (demo_submit demo_enabled rec_A []))
            2 0 0 (Some [48; 48; 1; 2]) 4 [true; true; true; true; false] (-1)).
  - vm_compute. reflexivity.
  - lia.
Defined.

(** C4 as stated does not hold: the SNI hint is set, then the reference
    identifier cannot be stored; the call fails with -1 and the hint it set
    is still there. *)
Lemma dane_enable_partial_effect_counterexample :
  exists c',
    demo_enable demo_conn "example.com" [true; false]
      = (-1, Some c', [SSL_R_ERROR_SETTING_TLSA_BASE_DOMAIN], [])
    /\ ext_hostname demo_conn = None
    /\ ext_hostname c' = Some "example.com"%string
    /\ c' <> demo_conn.
Proof.
  eexists. split; [vm_compute; reflexivity|].
  split; [reflexivity|]. split; [reflexivity|]. discriminate.
Qed.

Lemma dane_enable_failure_leaves_dane_disabled_witness :
  exists c0,
    demo_enable demo_conn "example.com" [true; false]
      = (-1, Some c0, [SSL_R_ERROR_SETTING_TLSA_BASE_DOMAIN], [])
    /\ -1 = -1
    /\ exists c',
         Some c0 = Some c'
         /\ trecs (dane c') = None
         /\ DANETLS_ENABLED (dane c') = false
         /\ certs (dane c') = certs (dane demo_conn)
         /\ umask (dane c') = umask (dane demo_conn)
         /\ flags (dane c') = flags (dane demo_conn)
         /\ ext_hostname c' = Some "example.com"%string
         /\ param c' = []
         /\ [SSL_R_ERROR_SETTING_TLSA_BASE_DOMAIN]
            = [SSL_R_ERROR_SETTING_TLSA_BASE_DOMAIN]
         /\ @nil bool = [].
Proof.
  eexists. split; [vm_compute; reflexivity|].
  apply (dane_enable_failure_leaves_dane_disabled nid (list Z) (list Z)
           (list string) demo_set_host_name demo_set1_host demo_registry
           demo_conn "example.com" [true; false] (-1) _
           [SSL_R_ERROR_SETTING_TLSA_BASE_DOMAIN] []).
  vm_compute. reflexivity.
Defined.

End Dane.

(** ** Session cache *)

Module SessionCache.

(** Modelled from the spec: the size of the session-id field of a session,
    32 bytes ([sizeof(r.session_id)]); the header that declares the array is
    not among the sources. *)
Definition SSL_MAX_SSL_SESSION_ID_LENGTH : Z := 32.

(** The fields of [SSL_SESSION] the cache code reads. *)
Record SSL_SESSION : Type := {
  ssl_version : Z;
  session_id_length : Z;
  session_id : list Z;
  sid_ctx_length : Z;
  not_resumable : Z
}.

(** [a[i]] for a byte array; a slot outside the array reads as 0. *)
Definition byte_at (a : list Z) (i : nat) : Z := nth i a 0.

(** [memset(dst, 0, n)] on a fresh array of n bytes. *)
Definition zeroed (n : nat) : list Z := repeat 0 n.

(** [memcpy(dst, src, n)]: the first n bytes of dst become those of src. *)
Definition memcpy (dst src : list Z) (n : nat) : list Z :=
  map (fun i => if (i <? n)%nat then byte_at src i else byte_at dst i)
      (seq 0 (length dst)).

(** [memcmp(a, b, n)]: 0 when the first n bytes agree, else the difference
    of the first pair that differs. *)
Fixpoint memcmp (a b : list Z) (n : nat) : Z :=
  match n with
  | O => 0
  | S n' =>
      if hd 0 a =? hd 0 b then memcmp (tl a) (tl b) n' else hd 0 a - hd 0 b
  end.

(** [ssl_session_hash] (lines 3879-3897). *)
Definition ssl_session_hash (a : SSL_SESSION) : Z :=
  let sid :=
    if session_id_length a <? 4
    then memcpy (zeroed 4) (session_id a) (Z.to_nat (session_id_length a))
    else session_id a in
  Z.lor (Z.lor (Z.lor (byte_at sid 0)
                      (Z.shiftl (byte_at sid 1) 8))
               (Z.shiftl (byte_at sid 2) 16))
        (Z.shiftl (byte_at sid 3) 24).

(** [ssl_session_cmp] (lines 3906-3913). *)
Definition ssl_session_cmp (a b : SSL_SESSION) : Z :=
  if negb (ssl_version a =? ssl_version b) then 1
  else if negb (session_id_length a =? session_id_length b) then 1
  else memcmp (session_id a) (session_id b) (Z.to_nat (session_id_length a)).

(** Modelled from the spec: the keyed collection behind the cache
    ([lh_SSL_SESSION_retrieve] of the hash-table library, not among the
    sources).  A stored session answers a probe when it hashes like the
    probe and compares equal to it. *)
Definition lh_SSL_SESSION_retrieve (sessions : list SSL_SESSION) (r : SSL_SESSION)
    : option SSL_SESSION :=
  List.find (fun e => (ssl_session_hash e =? ssl_session_hash r)
                      && (ssl_session_cmp e r =? 0)) sessions.

(** What the cache code does to its surroundings, in order. *)
Inductive cache_event : Type :=
  | EvMemcpy (n : Z)
  | EvReadLock
  | EvRetrieve (probe : SSL_SESSION)
  | EvUnlock
  | EvAddSession (s : SSL_SESSION)
  | EvSessionUpRef (s : SSL_SESSION)
  | EvNewSessionCb (s : SSL_SESSION)
  | EvSessionFree (s : SSL_SESSION)
  | EvFlush (t : Z).

(** The factory fields the cache code reads: the mode bits, the cache, the
    two hooks and the two good-handshake counters. *)
Record SSL_CTX : Type := {
  session_cache_mode : Z;
  sessions : list SSL_SESSION;
  remove_session_cb : bool;
  new_session_cb : option (SSL_SESSION -> Z);
  sess_connect_good : Z;
  sess_accept_good : Z
}.

(** The connection fields the cache code reads.  [is_tls13] is the value of
    [SSL_CONNECTION_IS_TLS13(s)]. *)
Record SSL_CONNECTION : Type := {
  version : Z;
  server : Z;
  session : SSL_SESSION;
  hit : Z;
  verify_mode : Z;
  max_early_data : Z;
  options : Z;
  is_tls13 : bool;
  session_ctx : SSL_CTX
}.

Definition with_session_ctx (s : SSL_CONNECTION) (c : SSL_CTX) : SSL_CONNECTION :=
  {| version := version s; server := server s; session := session s;
     hit := hit s; verify_mode := verify_mode s;
     max_early_data := max_early_data s; options := options s;
     is_tls13 := is_tls13 s; session_ctx := c |}.

(** What the run-time environment answers during one call: whether the
    locks can be taken, whether the reference count can be raised, and the
    clock. *)
Record cache_env : Type := {
  read_lock_ok : bool;
  tsan_lock_ok : bool;
  up_ref_ok : bool;
  now : Z
}.

(** [SSL_has_matching_session_id] (lines 1087-1113).  [sc] is [None] when
    the handle is not backed by a connection; [r0] is the content of the
    uninitialised local [r]. *)
Definition SSL_has_matching_session_id (sc : option SSL_CONNECTION)
    (id : list Z) (id_len : Z) (r0 : SSL_SESSION) (env : cache_env)
    : Z * list cache_event :=
  match sc with
  | None => (0, [])
  | Some c =>
    if id_len >? SSL_MAX_SSL_SESSION_ID_LENGTH then (0, [])
    else
      let r := {| ssl_version := version c;
                  session_id_length := id_len;
                  session_id := memcpy (session_id r0) id (Z.to_nat id_len);
                  sid_ctx_length := sid_ctx_length r0;
                  not_resumable := not_resumable r0 |} in
      if negb (read_lock_ok env) then (0, [EvMemcpy id_len])
      else
        let p := lh_SSL_SESSION_retrieve (sessions (session_ctx c)) r in
        (if is_some p then 1 else 0,
         [EvMemcpy id_len; EvReadLock; EvRetrieve r; EvUnlock])
  end.

(** The i-th byte the hash reads from a session id that is shorter than
    four bytes: the id's own byte, or the zero padding. *)
Definition padded_byte (a : SSL_SESSION) (i : nat) : Z :=
  if Z.of_nat i <? session_id_length a then byte_at (session_id a) i else 0.

(** Four bytes put together, least significant first. *)
Definition le32 (b0 b1 b2 b3 : Z) : Z :=
  Z.lor (Z.lor (Z.lor b0 (Z.shiftl b1 8)) (Z.shiftl b2 16)) (Z.shiftl b3 24).

(** [ssl_tsan_load] (lines 3110-3119). *)
Definition ssl_tsan_load (env : cache_env) (stat : Z) : Z :=
  if tsan_lock_ok env then stat else 0.

Section UpdateCache.

(** The mode, verification and option bits, from the public header. *)
Variables SSL_SESS_CACHE_CLIENT SSL_SESS_CACHE_NO_AUTO_CLEAR
          SSL_SESS_CACHE_NO_INTERNAL_STORE SSL_VERIFY_PEER
          SSL_OP_NO_ANTI_REPLAY SSL_OP_NO_TICKET : Z.

(** [SSL_CTX_add_session] and [SSL_CTX_flush_sessions_ex], of the session
    translation unit. *)
Variable SSL_CTX_add_session : SSL_CTX -> SSL_SESSION -> SSL_CTX.
Variable SSL_CTX_flush_sessions_ex : SSL_CTX -> Z -> SSL_CTX.

(** Lines 4768-4796: the internal store and the external hook. *)
Definition cache_new_session (s : SSL_CONNECTION) (env : cache_env)
    : SSL_CTX * list cache_event :=
  let ctx := session_ctx s in
  let i := session_cache_mode ctx in
  let '(ctx1, ev1) :=
    if (Z.land i SSL_SESS_CACHE_NO_INTERNAL_STORE =? 0)
       && (negb (is_tls13 s)
           || (server s =? 0)
           || ((max_early_data s >? 0)
               && (Z.land (options s) SSL_OP_NO_ANTI_REPLAY =? 0))
           || remove_session_cb ctx
           || negb (Z.land (options s) SSL_OP_NO_TICKET =? 0))
    then (SSL_CTX_add_session ctx (session s), [EvAddSession (session s)])
    else (ctx, []) in
  match new_session_cb ctx1 with
  | Some cb =>
      if up_ref_ok env then
        if cb (session s) =? 0
        then (ctx1, ev1 ++ [EvSessionUpRef (session s); EvNewSessionCb (session s);
                            EvSessionFree (session s)])
        else (ctx1, ev1 ++ [EvSessionUpRef (session s); EvNewSessionCb (session s)])
      else (ctx1, ev1)
  | None => (ctx1, ev1)
  end.

(** [ssl_update_cache] (lines 4739-4810): the factory afterwards and what
    was done. *)
Definition ssl_update_cache (s : SSL_CONNECTION) (mode : Z) (env : cache_env)
    : SSL_CTX * list cache_event :=
  let ctx := session_ctx s in
  if (session_id_length (session s) =? 0) || negb (not_resumable (session s) =? 0)
  then (ctx, [])
  else if negb (server s =? 0) && (sid_ctx_length (session s) =? 0)
          && negb (Z.land (verify_mode s) SSL_VERIFY_PEER =? 0)
  then (ctx, [])
  else
    let i := session_cache_mode ctx in
    let '(ctx1, ev1) :=
      if negb (Z.land i mode =? 0) && ((hit s =? 0) || is_tls13 s)
      then cache_new_session s env
      else (ctx, []) in
    if (Z.land i SSL_SESS_CACHE_NO_AUTO_CLEAR =? 0) && (Z.land i mode =? mode)
    then
      let stat := if negb (Z.land mode SSL_SESS_CACHE_CLIENT =? 0)
                  then sess_connect_good ctx1 else sess_accept_good ctx1 in
      if Z.land (ssl_tsan_load env stat) 255 =? 255
      then (SSL_CTX_flush_sessions_ex ctx1 (now env), ev1 ++ [EvFlush (now env)])
      else (ctx1, ev1)
    else (ctx1, ev1).

(** [updateCache] followed by [lookupById] on the same connection. *)
Definition lookup_after_update (s : SSL_CONNECTION) (mode : Z)
    (id : list Z) (id_len : Z) (r0 : SSL_SESSION) (env : cache_env) : Z :=
  let ctx' := fst (ssl_update_cache s mode env) in
  fst (SSL_has_matching_session_id (Some (with_session_ctx s ctx')) id id_len r0 env).

(** How many expiry sweeps a call made. *)
Definition sweeps (r : SSL_CTX * list cache_event) : nat :=
  length (List.filter (fun e => match e with EvFlush _ => true | _ => false end) (snd r)).

(** *** Updating the cache *)

Lemma lookup_empty_cache s id id_len r0 env :
  sessions (session_ctx s) = [] ->
  fst (SSL_has_matching_session_id (Some s) id id_len r0 env) = 0.
Proof.
  intros H. unfold SSL_has_matching_session_id. rewrite H. simpl.
  destruct (id_len >? SSL_MAX_SSL_SESSION_ID_LENGTH); [reflexivity|].
  destruct (read_lock_ok env); reflexivity.
Qed.

(** C6.  For a session whose id is empty or that is flagged not
    resumable, [ssl_update_cache] never inserts it: it leaves the factory,
    cache included, exactly as it was and does nothing else.  The call
    therefore makes nothing retrievable: a lookup by id afterwards answers
    what it answered before the call, so it answers 0 for every id that
    was not found before, and for every id when the cache held no
    session. *)
Theorem uncacheable_session_not_inserted s mode env :
  session_id_length (session s) = 0 \/ not_resumable (session s) <> 0 ->
  ssl_update_cache s mode env = (session_ctx s, [])
  /\ (forall id id_len r0,
        lookup_after_update s mode id id_len r0 env
        = fst (SSL_has_matching_session_id (Some s) id id_len r0 env))
  /\ (sessions (session_ctx s) = [] ->
      forall id id_len r0, lookup_after_update s mode id id_len r0 env = 0)
  /\ (forall id id_len r0,
        fst (SSL_has_matching_session_id (Some s) id id_len r0 env) = 0 ->
        lookup_after_update s mode id id_len r0 env = 0).
Proof.
  intros H.
  assert (ssl_update_cache s mode env = (session_ctx s, [])) as E.
  { unfold ssl_update_cache.
    destruct H as [H|H].
    - rewrite H. reflexivity.
    - destruct (Z.eqb_spec (not_resumable (session s)) 0); [contradiction|].
      rewrite orb_true_r. reflexivity. }
  split; [exact E|]. split; [|split].
  - intros id id_len r0. unfold lookup_after_update. rewrite E. reflexivity.
  - intros Hempty id id_len r0. unfold lookup_after_update. rewrite E.
    apply lookup_empty_cache. exact Hempty.
  - intros id id_len r0 Hbefore. unfold lookup_after_update. rewrite E.
    exact Hbefore.
Qed.

Lemma cache_new_session_no_sweep s env :
  List.filter (fun e => match e with EvFlush _ => true | _ => false end)
              (snd (cache_new_session s env)) = [].
Proof.
  unfold cache_new_session.
  match goal with
  | |- context [if ?c then (SSL_CTX_add_session _ _, _) else _] => destruct c
  end;
    repeat match goal with
           | |- context [match ?x with _ => _ end] => destruct x
           end; reflexivity.
Qed.

(** When a call gets as far as the auto-flush test with the whole mode
    mask satisfied and auto-clear on, it sweeps exactly when the low eight
    bits of the good-handshake counter are all ones. *)
Lemma sweep_when_low_byte_is_ff s mode env :
  session_id_length (session s) <> 0 ->
  not_resumable (session s) = 0 ->
  server s = 0 \/ sid_ctx_length (session s) <> 0
    \/ Z.land (verify_mode s) SSL_VERIFY_PEER = 0 ->
  Z.land (session_cache_mode (session_ctx s)) SSL_SESS_CACHE_NO_AUTO_CLEAR = 0 ->
  Z.land (session_cache_mode (session_ctx s)) mode = mode ->
  let ctx1 := if negb (Z.land (session_cache_mode (session_ctx s)) mode =? 0)
                 && ((hit s =? 0) || is_tls13 s)
              then fst (cache_new_session s env) else session_ctx s in
  let stat := if negb (Z.land mode SSL_SESS_CACHE_CLIENT =? 0)
              then sess_connect_good ctx1 else sess_accept_good ctx1 in
  sweeps (ssl_update_cache s mode env) =
  if Z.land (ssl_tsan_load env stat) 255 =? 255 then 1%nat else 0%nat.
Proof.
  intros Hlen Hres Hctx Hauto Hmode. unfold sweeps, ssl_update_cache.
  destruct (Z.eqb_spec (session_id_length (session s)) 0); [contradiction|].
  rewrite Hres. simpl.
  replace (negb (server s =? 0) && (sid_ctx_length (session s) =? 0)
           && negb (Z.land (verify_mode s) SSL_VERIFY_PEER =? 0)) with false.
  2:{ symmetry. destruct Hctx as [H|[H|H]].
      - rewrite H. reflexivity.
      - destruct (Z.eqb_spec (sid_ctx_length (session s)) 0); [contradiction|].
        rewrite andb_false_r. reflexivity.
      - rewrite H. simpl. rewrite andb_false_r. reflexivity. }
  pose proof (cache_new_session_no_sweep s env) as Hns.
  set (b := negb (Z.land (session_cache_mode (session_ctx s)) mode =? 0)
            && ((hit s =? 0) || is_tls13 s)).
  rewrite Hauto. replace (Z.land (session_cache_mode (session_ctx s)) mode =? mode)
    with true by (symmetry; apply Z.eqb_eq, Hmode).
  simpl. destruct b.
  - destruct (cache_new_session s env) as [c1 e1]. simpl in *.
    destruct (Z.land (ssl_tsan_load env _) 255 =? 255); simpl.
    + rewrite List.filter_app, Hns. reflexivity.
    + rewrite Hns. reflexivity.
  - simpl. destruct (Z.land (ssl_tsan_load env _) 255 =? 255); reflexivity.
Qed.

End UpdateCache.

(** *** Hash and equality *)

Lemma nth_hd_tl (a : list Z) i :
  nth 0 a 0 = hd 0 a /\ nth (S i) a 0 = nth i (tl a) 0.
Proof. destruct a; simpl; [destruct i|]; auto. Qed.

Lemma memcmp_zero n : forall a b,
  memcmp a b n = 0 <-> (forall i, (i < n)%nat -> byte_at a i = byte_at b i).
Proof.
  unfold byte_at. induction n as [|n IH]; intros a b; simpl.
  - split; [intros _ i Hi; lia | reflexivity].
  - destruct (Z.eqb_spec (hd 0 a) (hd 0 b)) as [E|E].
    + rewrite IH. split.
      * intros H [|i] Hi.
        -- rewrite !(proj1 (nth_hd_tl _ 0%nat)). exact E.
        -- rewrite !(proj2 (nth_hd_tl _ i)). apply H. lia.
      * intros H i Hi. rewrite <- !(proj2 (nth_hd_tl _ i)). apply H. lia.
    + split; [lia|]. intros H. exfalso. apply E.
      rewrite <- !(proj1 (nth_hd_tl _ 0%nat)). apply H. lia.
Qed.

(** [ssl_session_cmp] returns 0 exactly for two sessions of the same
    protocol version whose ids have the same length and the same bytes. *)
Lemma ssl_session_cmp_zero a b :
  ssl_session_cmp a b = 0 <->
  ssl_version a = ssl_version b
  /\ session_id_length a = session_id_length b
  /\ forall i, (i < Z.to_nat (session_id_length a))%nat ->
               byte_at (session_id a) i = byte_at (session_id b) i.
Proof.
  unfold ssl_session_cmp.
  destruct (Z.eqb_spec (ssl_version a) (ssl_version b)) as [Ev|Ev]; simpl.
  - destruct (Z.eqb_spec (session_id_length a) (session_id_length b)) as [El|El]; simpl.
    + rewrite memcmp_zero. tauto.
    + split; [lia | tauto].
  - split; [lia | tauto].
Qed.

Lemma ltb_nat_Z (i : nat) (n : Z) : (i <? Z.to_nat n)%nat = (Z.of_nat i <? n).
Proof.
  destruct (Nat.ltb_spec i (Z.to_nat n)), (Z.ltb_spec (Z.of_nat i) n); try reflexivity; lia.
Qed.

(** The hash is made of the first four bytes of the id, zero where the id
    has fewer. *)
Lemma ssl_session_hash_padded a :
  ssl_session_hash a =
  le32 (padded_byte a 0) (padded_byte a 1) (padded_byte a 2) (padded_byte a 3).
Proof.
  unfold ssl_session_hash, le32, padded_byte.
  destruct (Z.ltb_spec (session_id_length a) 4) as [H|H].
  - unfold memcpy, zeroed. simpl. unfold byte_at at 1 3 5 7. simpl.
    rewrite !ltb_nat_Z. simpl Z.of_nat.
    repeat match goal with
           | |- context [if ?c then _ else _] => destruct c
           end; reflexivity.
  - repeat match goal with
           | |- context [Z.of_nat ?i <? session_id_length a] =>
               replace (Z.of_nat i <? session_id_length a) with true
                 by (symmetry; apply Z.ltb_lt; simpl; lia)
           end.
    reflexivity.
Qed.

Lemma padded_byte_eq a b i :
  ssl_session_cmp a b = 0 -> padded_byte a i = padded_byte b i.
Proof.
  intros H. apply ssl_session_cmp_zero in H. destruct H as (_ & El & Hb).
  unfold padded_byte. rewrite <- El.
  destruct (Z.ltb_spec (Z.of_nat i) (session_id_length a)); [|reflexivity].
  apply Hb. lia.
Qed.

(** C8.  Two sessions that the equality predicate identifies (same
    protocol version, same id length, same id bytes) have the same hash,
    and the hash is built from the first four bytes of the id, padded
    with zeros when the id is shorter. *)
Theorem equal_sessions_hash_equal a b :
  ssl_session_cmp a b = 0 ->
  (ssl_version a = ssl_version b
   /\ session_id_length a = session_id_length b
   /\ forall i, (i < Z.to_nat (session_id_length a))%nat ->
                byte_at (session_id a) i = byte_at (session_id b) i)
  /\ ssl_session_hash a = ssl_session_hash b
  /\ ssl_session_hash a =
     le32 (padded_byte a 0) (padded_byte a 1) (padded_byte a 2) (padded_byte a 3).
Proof.
  intros H. split; [apply ssl_session_cmp_zero, H|].
  split; [|apply ssl_session_hash_padded].
  rewrite !ssl_session_hash_padded.
  rewrite !(padded_byte_eq a b _ H). reflexivity.
Qed.

(** *** Lookup by id *)

(** C10.  An id longer than the session-id field is answered with 0 before
    anything is copied, locked or looked up; and whatever the length, a
    copy into the probe's 32-byte field is never longer than the field. *)
Theorem long_id_never_matches sc id id_len r0 env :
  id_len > SSL_MAX_SSL_SESSION_ID_LENGTH ->
  SSL_has_matching_session_id sc id id_len r0 env = (0, [])
  /\ forall id' n r env',
       In (EvMemcpy n) (snd (SSL_has_matching_session_id sc id' n r env')) ->
       n <= SSL_MAX_SSL_SESSION_ID_LENGTH.
Proof.
  intros H. split.
  - unfold SSL_has_matching_session_id. destruct sc as [c|]; [|reflexivity].
    replace (id_len >? SSL_MAX_SSL_SESSION_ID_LENGTH) with true
      by (symmetry; apply Z.gtb_lt; lia).
    reflexivity.
  - intros id' n r env'. unfold SSL_has_matching_session_id.
    destruct sc as [c|]; [|intros []].
    destruct (Z.gtb_spec n SSL_MAX_SSL_SESSION_ID_LENGTH) as [Hn|Hn]; [intros []|].
    intros _. lia.
Qed.

(** *** A factory to run the cache code on

    The mode, verification and option bits have the values of the public
    header.  Adding a session puts it in front unless an equal one is
    stored; the sessions here carry no expiry time, so a sweep removes
    nothing. *)

Definition demo_add_session (c : SSL_CTX) (x : SSL_SESSION) : SSL_CTX :=
  if is_some (lh_SSL_SESSION_retrieve (sessions c) x) then c
  else {| session_cache_mode := session_cache_mode c;
          sessions := x :: sessions c;
          remove_session_cb := remove_session_cb c;
          new_session_cb := new_session_cb c;
          sess_connect_good := sess_connect_good c;
          sess_accept_good := sess_accept_good c |}.

Definition demo_flush (c : SSL_CTX) (t : Z) : SSL_CTX := c.

Definition demo_update_cache : SSL_CONNECTION -> Z -> cache_env -> SSL_CTX * list cache_event :=
  ssl_update_cache 1 128 512 1 (2 ^ 24) (2 ^ 14) demo_add_session demo_flush.

Definition demo_lookup_after_update :=
  lookup_after_update 1 128 512 1 (2 ^ 24) (2 ^ 14) demo_add_session demo_flush.

Definition demo_env : cache_env :=
  {| read_lock_ok := true; tsan_lock_ok := true; up_ref_ok := true; now := 1000 |}.

(** A TLS 1.2 session with a 32-byte id, and one without an id. *)
Definition demo_session : SSL_SESSION :=
  {| ssl_version := 771; session_id_length := 32; session_id := repeat 7 32;
     sid_ctx_length := 4; not_resumable := 0 |}.

Definition demo_session_no_id : SSL_SESSION :=
  {| ssl_version := 771; session_id_length := 0; session_id := repeat 0 32;
     sid_ctx_length := 4; not_resumable := 0 |}.

(** A server factory caching server sessions, with auto-clear on, that has
    seen [good] good handshakes and holds the sessions [stored]. *)
Definition demo_ctx (stored : list SSL_SESSION) (good : Z) : SSL_CTX :=
  {| session_cache_mode := 2; sessions := stored; remove_session_cb := false;
     new_session_cb := None; sess_connect_good := 0; sess_accept_good := good |}.

Definition demo_server (x : SSL_SESSION) (c : SSL_CTX) : SSL_CONNECTION :=
  {| version := 771; server := 1; session := x; hit := 0; verify_mode := 0;
     max_early_data := 0; options := 0; is_tls13 := false; session_ctx := c |}.

(** The sweeps made by the call that ends the handshake during which the
    good-handshake counter reads [n], and the counter values below [upto]
    at which a sweep is made. *)
Definition sweeps_at (n : nat) : nat :=
  sweeps (demo_update_cache (demo_server demo_session (demo_ctx [] (Z.of_nat n))) 2 demo_env).

Definition sweep_counters (upto : nat) : list nat :=
  List.filter (fun n => (0 <? sweeps_at n)%nat) (seq 0 upto).

(** *** The claims on concrete inputs *)

(** A session without an id on a factory whose cache is empty: the call
    leaves the cache empty, and no id is found afterwards, the empty id of
    the session included. *)
Lemma uncacheable_session_not_inserted_witness :
  (session_id_length (session (demo_server demo_session_no_id (demo_ctx [] 0))) = 0
   \/ not_resumable (session (demo_server demo_session_no_id (demo_ctx [] 0))) <> 0)
  /\ demo_update_cache (demo_server demo_session_no_id (demo_ctx [] 0)) 2 demo_env
     = (demo_ctx [] 0, [])
  /\ demo_lookup_after_update (demo_server demo_session_no_id (demo_ctx [] 0)) 2
                              [] 0 demo_session_no_id demo_env = 0
  /\ demo_lookup_after_update (demo_server demo_session_no_id (demo_ctx [] 0)) 2
                              (repeat 7 32) 32 demo_session_no_id demo_env = 0.
Proof.
  split; [left; reflexivity|].
  destruct (uncacheable_session_not_inserted 1 128 512 1 (2 ^ 24) (2 ^ 14)
              demo_add_session demo_flush
              (demo_server demo_session_no_id (demo_ctx [] 0)) 2 demo_env
              (or_introl eq_refl)) as (Hsame & _ & Hempty & _).
  split; [exact Hsame|].
  split; apply (Hempty eq_refl).
Defined.

(** C7 on the code: with the whole mode mask satisfied and auto-clear on,
    the good-handshake counter running through 0, 1, 2, ... makes the call
    sweep at the counter values 255, 511 and 767 and at no other value
    below 768: once every 256 handshakes.  In particular no sweep is made
    during the first 255 handshakes, and a single one during the first 510. *)
Theorem sweep_every_256_handshakes :
  sweep_counters 768 = [255; 511; 767]%nat
  /\ length (sweep_counters 255) = 0%nat
  /\ length (sweep_counters 510) = 1%nat
  /\ sweeps_at 254 = 0%nat /\ sweeps_at 255 = 1%nat /\ sweeps_at 256 = 0%nat
  /\ sweeps_at 510 = 0%nat /\ sweeps_at 511 = 1%nat.
Proof. repeat split; vm_compute; reflexivity. Qed.

Lemma equal_sessions_hash_equal_witness :
  ssl_session_cmp demo_session
    {| ssl_version := 771; session_id_length := 32; session_id := repeat 7 32;
       sid_ctx_length := 0; not_resumable := 1 |} = 0
  /\ ssl_session_hash demo_session
     = ssl_session_hash
         {| ssl_version := 771; session_id_length := 32; session_id := repeat 7 32;
            sid_ctx_length := 0; not_resumable := 1 |}.
Proof.
  split; [reflexivity|].
  apply (equal_sessions_hash_equal demo_session
           {| ssl_version := 771; session_id_length := 32; session_id := repeat 7 32;
              sid_ctx_length := 0; not_resumable := 1 |}).
  reflexivity.
Defined.

Lemma long_id_never_matches_witness :
  33 > SSL_MAX_SSL_SESSION_ID_LENGTH
  /\ SSL_has_matching_session_id
       (Some (demo_server demo_session (demo_ctx [demo_session] 0)))
       (repeat 7 33) 33 demo_session_no_id demo_env = (0, []).
Proof.
  split; [reflexivity|].
  apply (long_id_never_matches
           (Some (demo_server demo_session (demo_ctx [demo_session] 0)))
           (repeat 7 33) 33 demo_session_no_id demo_env).
  reflexivity.
Defined.

End SessionCache.

(** ** Early data: the read entry point *)

Module EarlyData.

(** The values of the early-data state variable. *)
Inductive early_data_state_t : Type :=
  | SSL_EARLY_DATA_NONE
  | SSL_EARLY_DATA_CONNECT_RETRY
  | SSL_EARLY_DATA_ACCEPT_RETRY
  | SSL_EARLY_DATA_CONNECTING
  | SSL_EARLY_DATA_ACCEPTING
  | SSL_EARLY_DATA_WRITE_RETRY
  | SSL_EARLY_DATA_WRITING
  | SSL_EARLY_DATA_WRITE_FLUSH
  | SSL_EARLY_DATA_READ_RETRY
  | SSL_EARLY_DATA_READING
  | SSL_EARLY_DATA_FINISHED_READING
  | SSL_EARLY_DATA_UNAUTH_WRITING.

(** The three results of [SSL_read_early_data]. *)
Inductive read_result : Type :=
  | SSL_READ_EARLY_DATA_ERROR
  | SSL_READ_EARLY_DATA_SUCCESS
  | SSL_READ_EARLY_DATA_FINISH.

Section Read.

(** The state of the handshake and record layers, which belongs to the
    collaborators. *)
Variable handshake_state : Type.

(** The fields of the connection the entry point reads or writes. *)
Record SSL_CONNECTION : Type := {
  server : Z;
  early_data_state : early_data_state_t;
  ext_early_data : Z;
  hs : handshake_state
}.

Definition set_state (c : SSL_CONNECTION) (st : early_data_state_t) : SSL_CONNECTION :=
  {| server := server c; early_data_state := st;
     ext_early_data := ext_early_data c; hs := hs c |}.

(** The value [SSL_EARLY_DATA_ACCEPTED] of the extension status. *)
Variable SSL_EARLY_DATA_ACCEPTED : Z.
(** [SSL_in_before]. *)
Variable SSL_in_before : SSL_CONNECTION -> bool.
(** [SSL_accept]: its return value and the connection it leaves. *)
Variable SSL_accept : SSL_CONNECTION -> Z * SSL_CONNECTION.
(** [SSL_read_ex(s, buf, num, readbytes)]: its return value, what it stored
    in [*readbytes], and the connection it leaves. *)
Variable SSL_read_ex : SSL_CONNECTION -> Z -> Z -> Z * Z * SSL_CONNECTION.

(** The result, the connection afterwards, the content of [*readbytes]
    afterwards and the reasons raised. *)
Definition read_outcome : Type :=
  (read_result * option SSL_CONNECTION * Z * list reason)%type.

(** The case [SSL_EARLY_DATA_READ_RETRY] and what falls through to it
    (lines 2443-2462). *)
Definition read_retry (c : SSL_CONNECTION) (num rb : Z) : read_outcome :=
  if ext_early_data c =? SSL_EARLY_DATA_ACCEPTED then
    let '(ret, rb', c1) := SSL_read_ex (set_state c SSL_EARLY_DATA_READING) num rb in
    if (ret >? 0)
       || ((ret <=? 0)
           && negb (match early_data_state c1 with
                    | SSL_EARLY_DATA_FINISHED_READING => true
                    | _ => false
                    end))
    then (if ret >? 0 then SSL_READ_EARLY_DATA_SUCCESS else SSL_READ_EARLY_DATA_ERROR,
          Some (set_state c1 SSL_EARLY_DATA_READ_RETRY), rb', [])
    else (SSL_READ_EARLY_DATA_FINISH, Some c1, 0, [])
  else (SSL_READ_EARLY_DATA_FINISH,
        Some (set_state c SSL_EARLY_DATA_FINISHED_READING), 0, []).

(** The case [SSL_EARLY_DATA_ACCEPT_RETRY] and what falls through to it
    (lines 2433-2441). *)
Definition accept_retry (c : SSL_CONNECTION) (num rb : Z) : read_outcome :=
  let (ret, c1) := SSL_accept (set_state c SSL_EARLY_DATA_ACCEPTING) in
  if ret <=? 0
  then (SSL_READ_EARLY_DATA_ERROR,
        Some (set_state c1 SSL_EARLY_DATA_ACCEPT_RETRY), rb, [])
  else read_retry c1 num rb.

(** [SSL_read_early_data] (lines 2414-2468).  [s] is [None] when the
    handle is not backed by a TLS connection; [rb] is what [*readbytes]
    held before the call. *)
Definition SSL_read_early_data (s : option SSL_CONNECTION) (num rb : Z)
    : read_outcome :=
  match s with
  | None => (SSL_READ_EARLY_DATA_ERROR, None, rb, [ERR_R_SHOULD_NOT_HAVE_BEEN_CALLED])
  | Some c =>
    if server c =? 0
    then (SSL_READ_EARLY_DATA_ERROR, Some c, rb, [ERR_R_SHOULD_NOT_HAVE_BEEN_CALLED])
    else
      match early_data_state c with
      | SSL_EARLY_DATA_NONE =>
          if negb (SSL_in_before c)
          then (SSL_READ_EARLY_DATA_ERROR, Some c, rb,
                [ERR_R_SHOULD_NOT_HAVE_BEEN_CALLED])
          else accept_retry c num rb
      | SSL_EARLY_DATA_ACCEPT_RETRY => accept_retry c num rb
      | SSL_EARLY_DATA_READ_RETRY => read_retry c num rb
      | _ => (SSL_READ_EARLY_DATA_ERROR, Some c, rb,
              [ERR_R_SHOULD_NOT_HAVE_BEEN_CALLED])
      end
  end.

(** C9.  On a connection that is not a server, whatever the buffer size
    and whatever the early-data state, [SSL_read_early_data] returns the
    error result, raises "should not have been called", and leaves the
    connection, its early-data state included, as it was. *)
Theorem client_read_early_data_is_error c num rb :
  server c = 0 ->
  SSL_read_early_data (Some c) num rb
  = (SSL_READ_EARLY_DATA_ERROR, Some c, rb, [ERR_R_SHOULD_NOT_HAVE_BEEN_CALLED]).
Proof. intros H. unfold SSL_read_early_data. rewrite H. reflexivity. Qed.

End Read.

Arguments server {handshake_state}.
Arguments early_data_state {handshake_state}.
Arguments ext_early_data {handshake_state}.
Arguments hs {handshake_state}.
Arguments SSL_read_early_data {handshake_state}.

(** A handshake layer for the examples: it has no state of its own, the
    handshake step goes through, and a read delivers the bytes asked for. *)
Definition demo_read_early_data :=
  SSL_read_early_data 2 (fun _ => true) (fun c : SSL_CONNECTION unit => (1, c))
                      (fun c num _ => (1, num, c)).

Definition demo_client (st : early_data_state_t) : SSL_CONNECTION unit :=
  {| server := 0; early_data_state := st; ext_early_data := 2; hs := tt |}.

Lemma client_read_early_data_is_error_witness :
  server (demo_client SSL_EARLY_DATA_READ_RETRY) = 0
  /\ demo_read_early_data (Some (demo_client SSL_EARLY_DATA_READ_RETRY)) 16 0
     = (SSL_READ_EARLY_DATA_ERROR, Some (demo_client SSL_EARLY_DATA_READ_RETRY), 0,
        [ERR_R_SHOULD_NOT_HAVE_BEEN_CALLED]).
Proof.
  split; [reflexivity|].
  apply (client_read_early_data_is_error unit 2 (fun _ => true)
           (fun c : SSL_CONNECTION unit => (1, c)) (fun c num _ => (1, num, c))
           (demo_client SSL_EARLY_DATA_READ_RETRY) 16 0).
  reflexivity.
Defined.

End EarlyData.

(** ** Connection objects: reference counts and duplication *)

Module Conn.

(** [SSL_METHOD]: methods are compared by address, here by [method_id]. *)
Record SSL_METHOD : Type := {
  method_id : Z;
  method_version : Z;
  method_accepts : bool;
  method_is_quic : bool
}.

Definition method_eqb (a b : SSL_METHOD) : bool := method_id a =? method_id b.

(** What [handshake_func] points at once a role is chosen. *)
Inductive role : Type := role_accept | role_connect.

(** Modelled from the spec: the largest session-id context a connection
    takes ([SSL_MAX_SID_CTX_LENGTH], 32), from a header that is not among
    the sources. *)
Definition SSL_MAX_SID_CTX_LENGTH : Z := 32.

Section Objects.

(** The crypto provider the DANE engine is run with. *)
Variables EVP_MD X509 EVP_PKEY : Type.
Variable EVP_MD_get_size : EVP_MD -> Z.
Variable d2i_X509 : list Z -> Z -> option (X509 * Z).
Variable X509_get0_pubkey : X509 -> option EVP_PKEY.
Variable d2i_PUBKEY : list Z -> Z -> option (EVP_PKEY * Z).

(** The connection object.  Objects live in a store and are named by
    their address; [session], [cert] and [ctx] are addresses of counted
    objects.  [in_init] and [in_before] are what [SSL_in_init] and
    [SSL_in_before] answer for the connection. *)
Record SSL : Type := {
  references : Z;
  is_connection : bool;
  ctx : nat;
  method : SSL_METHOD;
  session : option nat;
  cert : option nat;
  sid_ctx_length : Z;
  sid_ctx : list Z;
  dane : Dane.SSL_DANE X509 EVP_PKEY;
  version : Z;
  options : Z;
  min_proto_version : Z;
  max_proto_version : Z;
  mode : Z;
  max_cert_list : Z;
  read_ahead : Z;
  verify_mode : Z;
  verify_depth : Z;
  server : Z;
  handshake_func : option role;
  shutdown : Z;
  hit : Z;
  cipher_list : option (list Z);
  cipher_list_by_id : option (list Z);
  ca_names : option (list (list Z));
  client_ca_names : option (list (list Z));
  in_init : bool;
  in_before : bool
}.

(** [CRYPTO_UP_REF] and [CRYPTO_DOWN_REF] store the new count. *)
Definition set_references (o : SSL) (n : Z) : SSL :=
  {| references := n; is_connection := is_connection o; ctx := ctx o;
     method := method o; session := session o; cert := cert o;
     sid_ctx_length := sid_ctx_length o; sid_ctx := sid_ctx o;
     dane := dane o; version := version o; options := options o;
     min_proto_version := min_proto_version o;
     max_proto_version := max_proto_version o; mode := mode o;
     max_cert_list := max_cert_list o; read_ahead := read_ahead o;
     verify_mode := verify_mode o; verify_depth := verify_depth o;
     server := server o; handshake_func := handshake_func o;
     shutdown := shutdown o; hit := hit o; cipher_list := cipher_list o;
     cipher_list_by_id := cipher_list_by_id o; ca_names := ca_names o;
     client_ca_names := client_ca_names o; in_init := in_init o;
     in_before := in_before o |}.

(** [s->method = meth]. *)
Definition set_method (o : SSL) (m : SSL_METHOD) : SSL :=
  {| references := references o; is_connection := is_connection o;
     ctx := ctx o; method := m; session := session o; cert := cert o;
     sid_ctx_length := sid_ctx_length o; sid_ctx := sid_ctx o;
     dane := dane o; version := version o; options := options o;
     min_proto_version := min_proto_version o;
     max_proto_version := max_proto_version o; mode := mode o;
     max_cert_list := max_cert_list o; read_ahead := read_ahead o;
     verify_mode := verify_mode o; verify_depth := verify_depth o;
     server := server o; handshake_func := handshake_func o;
     shutdown := shutdown o; hit := hit o; cipher_list := cipher_list o;
     cipher_list_by_id := cipher_list_by_id o; ca_names := ca_names o;
     client_ca_names := client_ca_names o; in_init := in_init o;
     in_before := in_before o |}.

(** [s->session = session]. *)
Definition set_session (o : SSL) (a : option nat) : SSL :=
  {| references := references o; is_connection := is_connection o;
     ctx := ctx o; method := method o; session := a; cert := cert o;
     sid_ctx_length := sid_ctx_length o; sid_ctx := sid_ctx o;
     dane := dane o; version := version o; options := options o;
     min_proto_version := min_proto_version o;
     max_proto_version := max_proto_version o; mode := mode o;
     max_cert_list := max_cert_list o; read_ahead := read_ahead o;
     verify_mode := verify_mode o; verify_depth := verify_depth o;
     server := server o; handshake_func := handshake_func o;
     shutdown := shutdown o; hit := hit o; cipher_list := cipher_list o;
     cipher_list_by_id := cipher_list_by_id o; ca_names := ca_names o;
     client_ca_names := client_ca_names o; in_init := in_init o;
     in_before := in_before o |}.

(** [sc->cert = c]. *)
Definition set_cert (o : SSL) (c : option nat) : SSL :=
  {| references := references o; is_connection := is_connection o;
     ctx := ctx o; method := method o; session := session o; cert := c;
     sid_ctx_length := sid_ctx_length o; sid_ctx := sid_ctx o;
     dane := dane o; version := version o; options := options o;
     min_proto_version := min_proto_version o;
     max_proto_version := max_proto_version o; mode := mode o;
     max_cert_list := max_cert_list o; read_ahead := read_ahead o;
     verify_mode := verify_mode o; verify_depth := verify_depth o;
     server := server o; handshake_func := handshake_func o;
     shutdown := shutdown o; hit := hit o; cipher_list := cipher_list o;
     cipher_list_by_id := cipher_list_by_id o; ca_names := ca_names o;
     client_ca_names := client_ca_names o; in_init := in_init o;
     in_before := in_before o |}.

(** The two assignments of [SSL_set_session_id_context]. *)
Definition set_sid_ctx (o : SSL) (b : list Z) (n : Z) : SSL :=
  {| references := references o; is_connection := is_connection o;
     ctx := ctx o; method := method o; session := session o; cert := cert o;
     sid_ctx_length := n; sid_ctx := firstn (Z.to_nat n) b; dane := dane o;
     version := version o; options := options o;
     min_proto_version := min_proto_version o;
     max_proto_version := max_proto_version o; mode := mode o;
     max_cert_list := max_cert_list o; read_ahead := read_ahead o;
     verify_mode := verify_mode o; verify_depth := verify_depth o;
     server := server o; handshake_func := handshake_func o;
     shutdown := shutdown o; hit := hit o; cipher_list := cipher_list o;
     cipher_list_by_id := cipher_list_by_id o; ca_names := ca_names o;
     client_ca_names := client_ca_names o; in_init := in_init o;
     in_before := in_before o |}.

(** [retsc->dane] after [ssl_dane_dup]. *)
Definition set_dane (o : SSL) (d : Dane.SSL_DANE X509 EVP_PKEY) : SSL :=
  {| references := references o; is_connection := is_connection o;
     ctx := ctx o; method := method o; session := session o; cert := cert o;
     sid_ctx_length := sid_ctx_length o; sid_ctx := sid_ctx o; dane := d;
     version := version o; options := options o;
     min_proto_version := min_proto_version o;
     max_proto_version := max_proto_version o; mode := mode o;
     max_cert_list := max_cert_list o; read_ahead := read_ahead o;
     verify_mode := verify_mode o; verify_depth := verify_depth o;
     server := server o; handshake_func := handshake_func o;
     shutdown := shutdown o; hit := hit o; cipher_list := cipher_list o;
     cipher_list_by_id := cipher_list_by_id o; ca_names := ca_names o;
     client_ca_names := client_ca_names o; in_init := in_init o;
     in_before := in_before o |}.

(** Lines 5215-5225: the plain settings copied from the source. *)
Definition copy_settings (o : SSL) (from : SSL) : SSL :=
  {| references := references o; is_connection := is_connection o;
     ctx := ctx o; method := method o; session := session o; cert := cert o;
     sid_ctx_length := sid_ctx_length o; sid_ctx := sid_ctx o;
     dane := dane o; version := version from; options := options from;
     min_proto_version := min_proto_version from;
     max_proto_version := max_proto_version from; mode := mode from;
     max_cert_list := max_cert_list from; read_ahead := read_ahead from;
     verify_mode := verify_mode from; verify_depth := verify_depth from;
     server := server o; handshake_func := handshake_func o;
     shutdown := shutdown o; hit := hit o; cipher_list := cipher_list o;
     cipher_list_by_id := cipher_list_by_id o; ca_names := ca_names o;
     client_ca_names := client_ca_names o; in_init := in_init o;
     in_before := in_before o |}.

(** [retsc->server = sc->server]. *)
Definition set_server (o : SSL) (v : Z) : SSL :=
  {| references := references o; is_connection := is_connection o;
     ctx := ctx o; method := method o; session := session o; cert := cert o;
     sid_ctx_length := sid_ctx_length o; sid_ctx := sid_ctx o;
     dane := dane o; version := version o; options := options o;
     min_proto_version := min_proto_version o;
     max_proto_version := max_proto_version o; mode := mode o;
     max_cert_list := max_cert_list o; read_ahead := read_ahead o;
     verify_mode := verify_mode o; verify_depth := verify_depth o;
     server := v; handshake_func := handshake_func o; shutdown := shutdown o;
     hit := hit o; cipher_list := cipher_list o;
     cipher_list_by_id := cipher_list_by_id o; ca_names := ca_names o;
     client_ca_names := client_ca_names o; in_init := in_init o;
     in_before := in_before o |}.

(** [SSL_set_accept_state] and [SSL_set_connect_state] (lines 5014-5052):
    the role, a cleared shutdown flag and a cleared state machine. *)
Definition set_role (o : SSL) (r : role) : SSL :=
  {| references := references o; is_connection := is_connection o;
     ctx := ctx o; method := method o; session := session o; cert := cert o;
     sid_ctx_length := sid_ctx_length o; sid_ctx := sid_ctx o;
     dane := dane o; version := version o; options := options o;
     min_proto_version := min_proto_version o;
     max_proto_version := max_proto_version o; mode := mode o;
     max_cert_list := max_cert_list o; read_ahead := read_ahead o;
     verify_mode := verify_mode o; verify_depth := verify_depth o;
     server := match r with role_accept => 1 | role_connect => 0 end;
     handshake_func := Some r; shutdown := 0; hit := hit o;
     cipher_list := cipher_list o; cipher_list_by_id := cipher_list_by_id o;
     ca_names := ca_names o; client_ca_names := client_ca_names o;
     in_init := true; in_before := true |}.

(** [retsc->shutdown = sc->shutdown; retsc->hit = sc->hit]. *)
Definition set_shutdown_hit (o : SSL) (sd h : Z) : SSL :=
  {| references := references o; is_connection := is_connection o;
     ctx := ctx o; method := method o; session := session o; cert := cert o;
     sid_ctx_length := sid_ctx_length o; sid_ctx := sid_ctx o;
     dane := dane o; version := version o; options := options o;
     min_proto_version := min_proto_version o;
     max_proto_version := max_proto_version o; mode := mode o;
     max_cert_list := max_cert_list o; read_ahead := read_ahead o;
     verify_mode := verify_mode o; verify_depth := verify_depth o;
     server := server o; handshake_func := handshake_func o; shutdown := sd;
     hit := h; cipher_list := cipher_list o;
     cipher_list_by_id := cipher_list_by_id o; ca_names := ca_names o;
     client_ca_names := client_ca_names o; in_init := in_init o;
     in_before := in_before o |}.

(** The duplicated cipher stacks and name lists. *)
Definition set_cipher_list (o : SSL) (l : option (list Z)) : SSL :=
  {| references := references o; is_connection := is_connection o;
     ctx := ctx o; method := method o; session := session o; cert := cert o;
     sid_ctx_length := sid_ctx_length o; sid_ctx := sid_ctx o;
     dane := dane o; version := version o; options := options o;
     min_proto_version := min_proto_version o;
     max_proto_version := max_proto_version o; mode := mode o;
     max_cert_list := max_cert_list o; read_ahead := read_ahead o;
     verify_mode := verify_mode o; verify_depth := verify_depth o;
     server := server o; handshake_func := handshake_func o;
     shutdown := shutdown o; hit := hit o; cipher_list := l;
     cipher_list_by_id := cipher_list_by_id o; ca_names := ca_names o;
     client_ca_names := client_ca_names o; in_init := in_init o;
     in_before := in_before o |}.

Definition set_cipher_list_by_id (o : SSL) (l : option (list Z)) : SSL :=
  {| references := references o; is_connection := is_connection o;
     ctx := ctx o; method := method o; session := session o; cert := cert o;
     sid_ctx_length := sid_ctx_length o; sid_ctx := sid_ctx o;
     dane := dane o; version := version o; options := options o;
     min_proto_version := min_proto_version o;
     max_proto_version := max_proto_version o; mode := mode o;
     max_cert_list := max_cert_list o; read_ahead := read_ahead o;
     verify_mode := verify_mode o; verify_depth := verify_depth o;
     server := server o; handshake_func := handshake_func o;
     shutdown := shutdown o; hit := hit o; cipher_list := cipher_list o;
     cipher_list_by_id := l; ca_names := ca_names o;
     client_ca_names := client_ca_names o; in_init := in_init o;
     in_before := in_before o |}.

Definition set_ca_names (o : SSL) (l : option (list (list Z))) : SSL :=
  {| references := references o; is_connection := is_connection o;
     ctx := ctx o; method := method o; session := session o; cert := cert o;
     sid_ctx_length := sid_ctx_length o; sid_ctx := sid_ctx o;
     dane := dane o; version := version o; options := options o;
     min_proto_version := min_proto_version o;
     max_proto_version := max_proto_version o; mode := mode o;
     max_cert_list := max_cert_list o; read_ahead := read_ahead o;
     verify_mode := verify_mode o; verify_depth := verify_depth o;
     server := server o; handshake_func := handshake_func o;
     shutdown := shutdown o; hit := hit o; cipher_list := cipher_list o;
     cipher_list_by_id := cipher_list_by_id o; ca_names := l;
     client_ca_names := client_ca_names o; in_init := in_init o;
     in_before := in_before o |}.

Definition set_client_ca_names (o : SSL) (l : option (list (list Z))) : SSL :=
  {| references := references o; is_connection := is_connection o;
     ctx := ctx o; method := method o; session := session o; cert := cert o;
     sid_ctx_length := sid_ctx_length o; sid_ctx := sid_ctx o;
     dane := dane o; version := version o; options := options o;
     min_proto_version := min_proto_version o;
     max_proto_version := max_proto_version o; mode := mode o;
     max_cert_list := max_cert_list o; read_ahead := read_ahead o;
     verify_mode := verify_mode o; verify_depth := verify_depth o;
     server := server o; handshake_func := handshake_func o;
     shutdown := shutdown o; hit := hit o; cipher_list := cipher_list o;
     cipher_list_by_id := cipher_list_by_id o; ca_names := ca_names o;
     client_ca_names := l; in_init := in_init o; in_before := in_before o |}.

(** The factory fields a new connection is built from. *)
Record SSL_CTX : Type := {
  ctx_references : Z;
  ctx_method : option SSL_METHOD;
  ctx_cert : nat;
  ctx_dane : Dane.dane_ctx_st EVP_MD;
  ctx_options : Z;
  ctx_min_proto_version : Z;
  ctx_max_proto_version : Z;
  ctx_mode : Z;
  ctx_max_cert_list : Z;
  ctx_read_ahead : Z;
  ctx_verify_mode : Z;
  ctx_verify_depth : Z;
  ctx_sid_ctx_length : Z;
  ctx_sid_ctx : list Z
}.

Definition set_ctx_references (c : SSL_CTX) (n : Z) : SSL_CTX :=
  {| ctx_references := n; ctx_method := ctx_method c; ctx_cert := ctx_cert c;
     ctx_dane := ctx_dane c; ctx_options := ctx_options c;
     ctx_min_proto_version := ctx_min_proto_version c;
     ctx_max_proto_version := ctx_max_proto_version c; ctx_mode := ctx_mode c;
     ctx_max_cert_list := ctx_max_cert_list c; ctx_read_ahead := ctx_read_ahead c;
     ctx_verify_mode := ctx_verify_mode c; ctx_verify_depth := ctx_verify_depth c;
     ctx_sid_ctx_length := ctx_sid_ctx_length c; ctx_sid_ctx := ctx_sid_ctx c |}.

(** The store: connection objects and factories by address, the reference
    counts of sessions and of certificate bundles by address, and the
    allocation oracle. *)
Record world : Type := {
  objs : gmap nat SSL;
  ctxs : gmap nat SSL_CTX;
  session_refs : gmap nat Z;
  cert_refs : gmap nat Z;
  oracle : alloc_oracle
}.

Definition set_objs (w : world) (m : gmap nat SSL) : world :=
  {| objs := m; ctxs := ctxs w; session_refs := session_refs w;
     cert_refs := cert_refs w; oracle := oracle w |}.
Definition set_ctxs (w : world) (m : gmap nat SSL_CTX) : world :=
  {| objs := objs w; ctxs := m; session_refs := session_refs w;
     cert_refs := cert_refs w; oracle := oracle w |}.
Definition set_session_refs (w : world) (m : gmap nat Z) : world :=
  {| objs := objs w; ctxs := ctxs w; session_refs := m;
     cert_refs := cert_refs w; oracle := oracle w |}.
Definition set_cert_refs (w : world) (m : gmap nat Z) : world :=
  {| objs := objs w; ctxs := ctxs w; session_refs := session_refs w;
     cert_refs := m; oracle := oracle w |}.
Definition set_oracle (w : world) (o : alloc_oracle) : world :=
  {| objs := objs w; ctxs := ctxs w; session_refs := session_refs w;
     cert_refs := cert_refs w; oracle := o |}.

(** A count goes up by one, or down by one with the object released when
    it reaches zero. *)
Definition count_up (m : gmap nat Z) (a : nat) : gmap nat Z :=
  match m !! a with
  | Some n => <[a := n + 1]> m
  | None => m
  end.

Definition count_down (m : gmap nat Z) (a : nat) : gmap nat Z :=
  match m !! a with
  | Some n => if n - 1 >? 0 then <[a := n - 1]> m else delete a m
  | None => m
  end.

(** *** Steps that can fail

    A step runs on the store and either yields a value or fails; the store
    it leaves is kept in both cases, so that the caller's error exit can
    release what was built. *)
Definition M (A : Type) : Type := world -> option A * world.

Definition ret {A} (x : A) : M A := fun w => (Some x, w).
Definition fail {A} : M A := fun w => (None, w).
Definition bind {A B} (m : M A) (k : A -> M B) : M B :=
  fun w => match m w with
           | (Some x, w') => k x w'
           | (None, w') => (None, w')
           end.

Notation "x <- m ;; k" := (bind m (fun x => k))
  (at level 100, m at next level, right associativity).
Notation "m ;;; k" := (bind m (fun _ => k))
  (at level 100, right associativity).

(** One allocating call: it takes its outcome from the oracle. *)
Definition draw : M unit :=
  fun w => let (ok, o') := alloc (oracle w) in
           (if ok then Some tt else None, set_oracle w o').

Definition get_obj (a : nat) : M SSL :=
  fun w => (objs w !! a, w).

Definition modify_obj (a : nat) (f : SSL -> SSL) : M unit :=
  fun w => match objs w !! a with
           | Some o => (Some tt, set_objs w (<[a := f o]> (objs w)))
           | None => (None, w)
           end.

(** Modelled from the spec: sessions and certificate bundles are shared
    through their reference counts ([SSL_SESSION_up_ref],
    [SSL_SESSION_free], [ssl_cert_free], [ssl_cert_dup] of translation
    units that are not among the sources). *)
Definition SSL_SESSION_up_ref (a : nat) : M unit :=
  fun w => (Some tt, set_session_refs w (count_up (session_refs w) a)).

Definition SSL_SESSION_free (a : option nat) : M unit :=
  fun w => match a with
           | Some x => (Some tt, set_session_refs w (count_down (session_refs w) x))
           | None => (Some tt, w)
           end.

Definition ssl_cert_free (c : option nat) : M unit :=
  fun w => match c with
           | Some x => (Some tt, set_cert_refs w (count_down (cert_refs w) x))
           | None => (Some tt, w)
           end.

Definition ssl_cert_dup (c : nat) : M nat :=
  draw ;;;
  fun w => let a := fresh (dom (cert_refs w)) in
           (Some a, set_cert_refs w (<[a := 1]> (cert_refs w))).

(** Modelled from the spec: [SSL_set_session], of the session translation
    unit: the target drops the session it had and shares the given one
    through a reference increment. *)
Definition SSL_set_session (t : nat) (sess : option nat) : M unit :=
  o <- get_obj t ;;
  (match sess with
   | Some a => SSL_SESSION_up_ref a
   | None => ret tt
   end) ;;;
  SSL_SESSION_free (session o) ;;;
  modify_obj t (fun o => set_session o sess).

(** [SSL_set_session_id_context] (lines 1054-1070). *)
Definition SSL_set_session_id_context (t : nat) (b : list Z) (n : Z) : M unit :=
  if n >? SSL_MAX_SID_CTX_LENGTH then fail
  else modify_obj t (fun o => set_sid_ctx o b n).

(** [SSL_set_ssl_method] (lines 4822-4850) on a TLS connection object. *)
Definition SSL_set_ssl_method (t : nat) (meth : SSL_METHOD) : M unit :=
  o <- get_obj t ;;
  if negb (is_connection o) || method_is_quic meth then fail
  else if negb (method_eqb (method o) meth) then
    modify_obj t (fun o => set_method o meth) ;;;
    (if method_version (method o) =? method_version meth then ret tt else draw)
  else ret tt.

(** [SSL_copy_session_id] (lines 2046-2078). *)
Definition SSL_copy_session_id (t : nat) (f : SSL) : M unit :=
  SSL_set_session t (session f) ;;;
  o <- get_obj t ;;
  (if negb (method_eqb (method o) (method f))
   then modify_obj t (fun o => set_method o (method f)) ;;; draw
   else ret tt) ;;;
  (fun w => match cert f with
            | Some c => (Some tt, set_cert_refs w (count_up (cert_refs w) c))
            | None => (Some tt, w)
            end) ;;;
  o1 <- get_obj t ;;
  ssl_cert_free (cert o1) ;;;
  modify_obj t (fun o => set_cert o (cert f)) ;;;
  SSL_set_session_id_context t (sid_ctx f) (sid_ctx_length f).

(** [dup_ca_names] (lines 5130-5157): a new stack, then a copy and an
    insertion for every name. *)
Fixpoint dup_names (src : list (list Z)) : M (list (list Z)) :=
  match src with
  | [] => ret []
  | xn :: rest =>
      draw ;;; draw ;;;
      l <- dup_names rest ;;
      ret (xn :: l)
  end.

Definition dup_ca_names (src : option (list (list Z))) : M (option (list (list Z))) :=
  match src with
  | None => ret None
  | Some names => draw ;;; l <- dup_names names ;; ret (Some l)
  end.

(** [sk_SSL_CIPHER_dup] on a stack that may be absent. *)
Definition dup_cipher_stack (src : option (list Z)) : M (option (list Z)) :=
  match src with
  | None => ret None
  | Some l => draw ;;; ret (Some l)
  end.

(** The call of [ssl_dane_dup] at line 5213, run with the registry of the
    target's factory. *)
Definition dane_dup_step (t : nat) (from : SSL) : M unit :=
  fun w =>
    match objs w !! t with
    | None => (None, w)
    | Some o =>
        match ctxs w !! ctx o with
        | None => (None, w)
        | Some cx =>
            match Dane.ssl_dane_dup EVP_MD_get_size d2i_X509 X509_get0_pubkey
                    d2i_PUBKEY (ctx_dane cx) (dane o) (dane from) (oracle w) with
            | (r, d, _, o') =>
                let w' := set_oracle (set_objs w (<[t := set_dane o d]> (objs w))) o' in
                (if r =? 0 then None else Some tt, w')
            end
        end
    end.

(** The connection [ossl_ssl_connection_new_int] (lines 739-983) hands
    out: one reference, no session, its own copy of the factory's
    certificate bundle, the factory's settings, and a cleared state
    machine. *)
Definition new_connection (c : nat) (cx : SSL_CTX) (m : SSL_METHOD) (crt : nat) : SSL :=
  {| references := 1; is_connection := true; ctx := c; method := m;
     session := None; cert := Some crt;
     sid_ctx_length := ctx_sid_ctx_length cx; sid_ctx := ctx_sid_ctx cx;
     dane := {| Dane.dctx_set := false; Dane.trecs := None; Dane.certs := None;
                Dane.mtlsa := None; Dane.mcert := None; Dane.umask := 0;
                Dane.mdpth := -1; Dane.pdpth := -1;
                Dane.flags := Dane.ctx_flags (ctx_dane cx) |};
     version := method_version m; options := ctx_options cx;
     min_proto_version := ctx_min_proto_version cx;
     max_proto_version := ctx_max_proto_version cx; mode := ctx_mode cx;
     max_cert_list := ctx_max_cert_list cx; read_ahead := ctx_read_ahead cx;
     verify_mode := ctx_verify_mode cx; verify_depth := ctx_verify_depth cx;
     server := if method_accepts m then 1 else 0; handshake_func := None;
     shutdown := 0; hit := 0; cipher_list := None; cipher_list_by_id := None;
     ca_names := None; client_ca_names := None;
     in_init := true; in_before := true |}.

(** The allocating steps of the constructor: the object, [ossl_ssl_init],
    the TLS 1.3 cipher stack, the certificate bundle, the verification
    parameters, and the method's [ssl_init] and [ssl_reset]. *)
Definition constructor_steps (cx : SSL_CTX) : M nat :=
  draw ;;; draw ;;; draw ;;;
  crt <- ssl_cert_dup (ctx_cert cx) ;;
  draw ;;; draw ;;; draw ;;;
  ret crt.

(** [SSL_new] (lines 698-709) for a factory with a TLS method.  The
    constructor releases whatever it built when one of its steps fails,
    the two references it took on the factory included. *)
Definition SSL_new (c : nat) : M nat :=
  fun w =>
    match ctxs w !! c with
    | None => (None, w)
    | Some cx =>
        match ctx_method cx with
        | None => (None, w)
        | Some m =>
            match constructor_steps cx w with
            | (None, w1) => (None, set_oracle w (oracle w1))
            | (Some crt, w1) =>
                let a := fresh (dom (objs w1)) in
                (Some a,
                 set_ctxs (set_objs w1 (<[a := new_connection c cx m crt]> (objs w1)))
                          (<[c := set_ctx_references cx (ctx_references cx + 2)]> (ctxs w1)))
            end
        end
    end.

(** [SSL_free] (lines 1429-1450) with the connection's own teardown: the
    count goes down, and at zero the session, the certificate bundle and
    the two factory references are released and the object is gone. *)
Definition SSL_free (a : nat) (w : world) : world :=
  match objs w !! a with
  | None => w
  | Some o =>
      let i := references o - 1 in
      if i >? 0 then set_objs w (<[a := set_references o i]> (objs w))
      else
        let w1 := snd (SSL_SESSION_free (session o) w) in
        let w2 := snd (ssl_cert_free (cert o) w1) in
        let w3 := match ctxs w2 !! ctx o with
                  | Some cx =>
                      set_ctxs w2 (<[ctx o := set_ctx_references cx (ctx_references cx - 2)]>
                                     (ctxs w2))
                  | None => w2
                  end in
        set_objs w3 (delete a (objs w3))
  end.

(** Lines 5183-5257 of [SSL_dup]: everything between the allocation of the
    copy and [return ret]; a failing step is a [goto err]. *)
Definition dup_body (r : nat) (sc : SSL) : M unit :=
  (match session sc with
   | Some _ => SSL_copy_session_id r sc
   | None =>
       SSL_set_ssl_method r (method sc) ;;;
       (match cert sc with
        | Some c =>
            o <- get_obj r ;;
            ssl_cert_free (cert o) ;;;
            modify_obj r (fun o => set_cert o None) ;;;
            c' <- ssl_cert_dup c ;;
            modify_obj r (fun o => set_cert o (Some c'))
        | None => ret tt
        end) ;;;
       SSL_set_session_id_context r (sid_ctx sc) (sid_ctx_length sc)
   end) ;;;
  dane_dup_step r sc ;;;
  modify_obj r (fun o => copy_settings o sc) ;;;
  draw ;;;
  modify_obj r (fun o => set_server o (server sc)) ;;;
  (match handshake_func sc with
   | Some _ =>
       modify_obj r (fun o => set_role o (if server sc =? 0 then role_connect
                                          else role_accept))
   | None => ret tt
   end) ;;;
  modify_obj r (fun o => set_shutdown_hit o (shutdown sc) (hit sc)) ;;;
  cl <- dup_cipher_stack (cipher_list sc) ;;
  (match cl with
   | Some _ => modify_obj r (fun o => set_cipher_list o cl)
   | None => ret tt
   end) ;;;
  cli <- dup_cipher_stack (cipher_list_by_id sc) ;;
  (match cli with
   | Some _ => modify_obj r (fun o => set_cipher_list_by_id o cli)
   | None => ret tt
   end) ;;;
  ca <- dup_ca_names (ca_names sc) ;;
  modify_obj r (fun o => set_ca_names o ca) ;;;
  cca <- dup_ca_names (client_ca_names sc) ;;
  modify_obj r (fun o => set_client_ca_names o cca).

(** [SSL_dup] (lines 5159-5263): the handle returned, [None] for NULL, and
    the store afterwards. *)
Definition SSL_dup (s : nat) (w : world) : option nat * world :=
  match objs w !! s with
  | None => (None, w)
  | Some sc =>
      if negb (is_connection sc) then (None, w)
      else if negb (in_init sc) || negb (in_before sc)
      then (Some s, set_objs w (<[s := set_references sc (references sc + 1)]> (objs w)))
      else
        match SSL_new (ctx sc) w with
        | (None, w1) => (None, w1)
        | (Some r, w1) =>
            match dup_body r sc w1 with
            | (Some _, w2) => (Some r, w2)
            | (None, w2) => (None, SSL_free r w2)
            end
        end
  end.

(** *** Reasoning about steps *)

(** [triple P m Q]: when [m] runs from a store satisfying [P] and yields
    [x], the store it leaves satisfies [Q x]. *)
Definition triple {A} (P : world -> Prop) (m : M A) (Q : A -> world -> Prop) : Prop :=
  forall w x w', m w = (Some x, w') -> P w -> Q x w'.

Lemma triple_ret {A} (P : world -> Prop) (x : A) : triple P (ret x) (fun _ => P).
Proof. intros w0 y0 w0' H HP. inversion H; subst. exact HP. Qed.

Lemma triple_fail {A} (P : world -> Prop) (Q : A -> world -> Prop) : triple P fail Q.
Proof. intros w0 y0 w0' H. discriminate. Qed.

Lemma triple_bind {A B} (P : world -> Prop) (Q : A -> world -> Prop)
    (R : B -> world -> Prop) (m : M A) (k : A -> M B) :
  triple P m Q -> (forall x, triple (Q x) (k x) R) -> triple P (bind m k) R.
Proof.
  intros Hm Hk w y w' H HP. unfold bind in H.
  destruct (m w) as [[x|] w1] eqn:E; [|discriminate].
  eapply Hk; [exact H|]. eapply Hm; eassumption.
Qed.

Lemma triple_weaken {A} (P P' : world -> Prop) (Q Q' : A -> world -> Prop) (m : M A) :
  triple P' m Q' -> (forall w, P w -> P' w) -> (forall x w, Q' x w -> Q x w) ->
  triple P m Q.
Proof. intros Hm HP HQ w x w' H Hw. apply HQ. eapply Hm; eauto. Qed.

Section Copy.

(** The copy under construction at [r], made from the source [sc] stored at
    [s], for the factory [c]. *)
Variables (r s c : nat) (sc : SSL).

(** The copy holds one reference, belongs to the factory, and points at
    the session [sess]; the source is untouched and the session counts
    are [refs]. *)
Definition copying (sess : option nat) (refs : gmap nat Z) (w : world) : Prop :=
  objs w !! s = Some sc
  /\ (exists o, objs w !! r = Some o /\ references o = 1 /\ ctx o = c
                /\ session o = sess)
  /\ session_refs w = refs.

(** An update of the copy that leaves its count, factory and session. *)
Definition keeps_links (f : SSL -> SSL) : Prop :=
  forall o, references (f o) = references o /\ ctx (f o) = ctx o
            /\ session (f o) = session o.

Hypothesis r_not_s : r <> s.

Lemma copying_frame sess refs w w' :
  objs w' = objs w -> session_refs w' = session_refs w ->
  copying sess refs w -> copying sess refs w'.
Proof. unfold copying. intros -> ->. tauto. Qed.

Lemma triple_draw sess refs :
  triple (copying sess refs) draw (fun _ => copying sess refs).
Proof.
  intros w0 y0 w0' H HP. unfold draw in H. destruct (alloc (oracle w0)) as [ok o'].
  destruct ok; inversion H; subst. eapply copying_frame; [| |exact HP]; reflexivity.
Qed.

Lemma triple_get_obj sess refs :
  triple (copying sess refs) (get_obj r)
         (fun o w => copying sess refs w /\ session o = sess).
Proof.
  intros w0 y0 w0' H HP. unfold get_obj in H. inversion H; subst.
  split; [exact HP|]. destruct HP as (_ & (o & Ho & _ & _ & Hs) & _).
  rewrite Ho in H1. congruence.
Qed.

Lemma triple_modify sess refs f :
  keeps_links f ->
  triple (copying sess refs) (modify_obj r f) (fun _ => copying sess refs).
Proof.
  intros Hf w x w' H (Hs & (o & Ho & Hr & Hc & Hse) & Hrefs).
  unfold modify_obj in H. rewrite Ho in H. inversion H; subst. unfold copying. simpl.
  split; [rewrite lookup_insert_ne by exact r_not_s; exact Hs|].
  split; [|reflexivity].
  exists (f o). rewrite lookup_insert_eq. destruct (Hf o) as (-> & -> & ->). auto.
Qed.

Lemma triple_set_session sess refs a :
  triple (copying sess refs) (modify_obj r (fun o => set_session o a))
         (fun _ => copying a refs).
Proof.
  intros w0 y0 w0' H (Hs & (o & Ho & Hr & Hc & Hse) & Hrefs).
  unfold modify_obj in H. rewrite Ho in H. inversion H; subst. unfold copying. simpl.
  split; [rewrite lookup_insert_ne by exact r_not_s; exact Hs|].
  split; [|reflexivity].
  exists (set_session o a). rewrite lookup_insert_eq. auto.
Qed.

Lemma triple_cert_free sess refs x :
  triple (copying sess refs) (ssl_cert_free x) (fun _ => copying sess refs).
Proof.
  intros w0 y0 w0' H HP. unfold ssl_cert_free in H.
  destruct x; inversion H; subst; [|exact HP].
  eapply copying_frame; [| |exact HP]; reflexivity.
Qed.

Lemma triple_cert_up sess refs (x : option nat) :
  triple (copying sess refs)
         (fun w => match x with
                   | Some a => (Some tt, set_cert_refs w (count_up (cert_refs w) a))
                   | None => (Some tt, w)
                   end)
         (fun _ => copying sess refs).
Proof.
  intros w0 y0 w0' H HP. destruct x; inversion H; subst; [|exact HP].
  eapply copying_frame; [| |exact HP]; reflexivity.
Qed.

Lemma triple_cert_dup sess refs x :
  triple (copying sess refs) (ssl_cert_dup x) (fun _ => copying sess refs).
Proof.
  unfold ssl_cert_dup. eapply triple_bind; [apply triple_draw|]. intros ?.
  intros w0 y0 w0' H HP. inversion H; subst.
  eapply copying_frame; [| |exact HP]; reflexivity.
Qed.

Lemma triple_dup_names sess refs l :
  triple (copying sess refs) (dup_names l) (fun _ => copying sess refs).
Proof.
  induction l as [|xn rest IH]; simpl; [apply triple_ret|].
  eapply triple_bind; [apply triple_draw|]. intros ?.
  eapply triple_bind; [apply triple_draw|]. intros ?.
  eapply triple_bind; [apply IH|]. intros l'. apply triple_ret.
Qed.

Lemma triple_dup_ca_names sess refs l :
  triple (copying sess refs) (dup_ca_names l) (fun _ => copying sess refs).
Proof.
  destruct l as [names|]; simpl; [|apply triple_ret].
  eapply triple_bind; [apply triple_draw|]. intros ?.
  eapply triple_bind; [apply triple_dup_names|]. intros l'. apply triple_ret.
Qed.

Lemma triple_dup_cipher_stack sess refs l :
  triple (copying sess refs) (dup_cipher_stack l) (fun _ => copying sess refs).
Proof.
  destruct l as [l|]; simpl; [|apply triple_ret].
  eapply triple_bind; [apply triple_draw|]. intros ?. apply triple_ret.
Qed.

Lemma triple_dane_dup sess refs from :
  triple (copying sess refs) (dane_dup_step r from) (fun _ => copying sess refs).
Proof.
  intros w0 y0 w0' H (Hs & (o & Ho & Hr & Hc & Hse) & Hrefs).
  unfold dane_dup_step in H. rewrite Ho in H.
  destruct (ctxs w0 !! ctx o) as [cx|]; [|discriminate].
  destruct (Dane.ssl_dane_dup _ _ _ _ _ _ _ _) as [[[ret0 d] e] o'].
  destruct (ret0 =? 0); inversion H; subst. unfold copying. simpl.
  split; [rewrite lookup_insert_ne by exact r_not_s; exact Hs|].
  split; [|reflexivity].
  exists (set_dane o d). rewrite lookup_insert_eq. auto.
Qed.

Lemma triple_set_sid sess refs b n :
  triple (copying sess refs) (SSL_set_session_id_context r b n)
         (fun _ => copying sess refs).
Proof.
  unfold SSL_set_session_id_context.
  destruct (n >? SSL_MAX_SID_CTX_LENGTH); [apply triple_fail|].
  apply triple_modify. intros o. auto.
Qed.

Lemma triple_set_method sess refs m :
  triple (copying sess refs) (SSL_set_ssl_method r m) (fun _ => copying sess refs).
Proof.
  unfold SSL_set_ssl_method.
  eapply triple_bind; [apply triple_get_obj|]. intros o. simpl.
  eapply triple_weaken with (P' := copying sess refs) (Q' := fun _ => copying sess refs);
    [|tauto|auto].
  destruct (negb (is_connection o) || method_is_quic m); [apply triple_fail|].
  destruct (negb (method_eqb (method o) m)); [|apply triple_ret].
  eapply triple_bind; [apply triple_modify; intros o'; auto|]. intros ?.
  destruct (_ =? _); [apply triple_ret | apply triple_draw].
Qed.

(** Sharing the source's session: the copy, which had none, now points at
    it, and its count went up by one. *)
Lemma triple_set_session_shared refs a :
  triple (copying None refs) (SSL_set_session r (Some a))
         (fun _ => copying (Some a) (count_up refs a)).
Proof.
  unfold SSL_set_session.
  eapply triple_bind; [apply triple_get_obj|]. intros o.
  eapply triple_bind with (Q := fun _ w => copying None (count_up refs a) w
                                           /\ session o = None).
  { intros w0 y0 w0' H ((Hs & Hr & Hrefs) & Ho). inversion H; subst.
    split; [|exact Ho]. unfold copying. simpl. auto. }
  intros ?.
  eapply triple_bind with (Q := fun _ => copying None (count_up refs a)).
  { intros w0 y0 w0' H (HP & Ho). rewrite Ho in H. inversion H; subst. exact HP. }
  intros ?. apply triple_set_session.
Qed.

Lemma triple_copy_session_id refs a :
  session sc = Some a ->
  triple (copying None refs) (SSL_copy_session_id r sc)
         (fun _ => copying (Some a) (count_up refs a)).
Proof.
  intros Ha. unfold SSL_copy_session_id. rewrite Ha.
  eapply triple_bind; [apply triple_set_session_shared|]. intros ?.
  eapply triple_bind; [apply triple_get_obj|]. intros o.
  eapply triple_weaken with (P' := copying (Some a) (count_up refs a))
                            (Q' := fun _ => copying (Some a) (count_up refs a));
    [|tauto|auto].
  eapply triple_bind with (Q := fun _ => copying (Some a) (count_up refs a)).
  { destruct (negb (method_eqb (method o) (method sc))); [|apply triple_ret].
    eapply triple_bind; [apply triple_modify; intros o'; auto|]. intros ?.
    apply triple_draw. }
  intros ?. eapply triple_bind; [apply triple_cert_up|]. intros ?.
  eapply triple_bind; [apply triple_get_obj|]. intros o1.
  eapply triple_weaken with (P' := copying (Some a) (count_up refs a))
                            (Q' := fun _ => copying (Some a) (count_up refs a));
    [|tauto|auto].
  eapply triple_bind; [apply triple_cert_free|]. intros ?.
  eapply triple_bind; [apply triple_modify; intros o'; auto|]. intros ?.
  apply triple_set_sid.
Qed.

(** The whole body: from a fresh copy without session to a copy that
    shares the source's session, if there is one. *)
Lemma triple_dup_body refs :
  triple (copying None refs) (dup_body r sc)
         (fun _ => copying (session sc)
                     (match session sc with
                      | Some a => count_up refs a
                      | None => refs
                      end)).
Proof.
  unfold dup_body.
  set (refs' := match session sc with Some a => count_up refs a | None => refs end).
  eapply triple_bind with (Q := fun _ => copying (session sc) refs').
  { subst refs'. destruct (session sc) as [a|] eqn:Hs.
    - apply triple_copy_session_id. exact Hs.
    - eapply triple_bind; [apply triple_set_method|]. intros ?.
      eapply triple_bind with (Q := fun _ => copying None refs);
        [|intros ?; apply triple_set_sid].
      destruct (cert sc) as [crt|]; [|apply triple_ret].
      eapply triple_bind; [apply triple_get_obj|]. intros o.
      eapply triple_weaken with (P' := copying None refs)
                                (Q' := fun _ => copying None refs); [|tauto|auto].
      eapply triple_bind; [apply triple_cert_free|]. intros ?.
      eapply triple_bind; [apply triple_modify; intros o'; auto|]. intros ?.
      eapply triple_bind; [apply triple_cert_dup|]. intros c'.
      apply triple_modify. intros o'; auto. }
  intros ?. eapply triple_bind; [apply triple_dane_dup|]. intros ?.
  eapply triple_bind; [apply triple_modify; intros o'; auto|]. intros ?.
  eapply triple_bind; [apply triple_draw|]. intros ?.
  eapply triple_bind; [apply triple_modify; intros o'; auto|]. intros ?.
  eapply triple_bind with (Q := fun _ => copying (session sc) refs').
  { destruct (handshake_func sc); [apply triple_modify; intros o'; auto | apply triple_ret]. }
  intros ?. eapply triple_bind; [apply triple_modify; intros o'; auto|]. intros ?.
  eapply triple_bind; [apply triple_dup_cipher_stack|]. intros cl.
  eapply triple_bind with (Q := fun _ => copying (session sc) refs').
  { destruct cl; [apply triple_modify; intros o'; auto | apply triple_ret]. }
  intros ?. eapply triple_bind; [apply triple_dup_cipher_stack|]. intros cli.
  eapply triple_bind with (Q := fun _ => copying (session sc) refs').
  { destruct cli; [apply triple_modify; intros o'; auto | apply triple_ret]. }
  intros ?. eapply triple_bind; [apply triple_dup_ca_names|]. intros ca.
  eapply triple_bind; [apply triple_modify; intros o'; auto|]. intros ?.
  eapply triple_bind; [apply triple_dup_ca_names|]. intros cca.
  apply triple_modify. intros o'; auto.
Qed.

End Copy.

(** *** Steps that go through

    [runs P m Q]: from a store satisfying [P] the step [m] does not fail,
    and the store it leaves satisfies [Q]. *)
Definition runs {A} (P : world -> Prop) (m : M A) (Q : A -> world -> Prop) : Prop :=
  forall w, P w -> exists x w', m w = (Some x, w') /\ Q x w'.

Lemma runs_ret {A} (P : world -> Prop) (x : A) : runs P (ret x) (fun _ => P).
Proof. intros w HP. exists x, w. auto. Qed.

Lemma runs_bind {A B} (P : world -> Prop) (Q : A -> world -> Prop)
    (R : B -> world -> Prop) (m : M A) (k : A -> M B) :
  runs P m Q -> (forall x, runs (Q x) (k x) R) -> runs P (bind m k) R.
Proof.
  intros Hm Hk w HP. destruct (Hm w HP) as (x & w1 & E & HQ).
  destruct (Hk x w1 HQ) as (y & w2 & E2 & HR).
  exists y, w2. unfold bind. rewrite E. auto.
Qed.

Lemma runs_weaken {A} (P P' : world -> Prop) (Q Q' : A -> world -> Prop) (m : M A) :
  runs P' m Q' -> (forall w, P w -> P' w) -> (forall x w, Q' x w -> Q x w) ->
  runs P m Q.
Proof.
  intros Hm HP HQ w Hw. destruct (Hm w (HP w Hw)) as (x & w' & E & H).
  exists x, w'. auto.
Qed.

Section Through.

(** The copy under construction at [r], for the factory [c]. *)
Variables (r c : nat).

(** No allocation will fail, the copy is a TLS connection of the factory,
    and the factory is in the store. *)
Definition ready (w : world) : Prop :=
  never_fails (oracle w)
  /\ (exists o, objs w !! r = Some o /\ is_connection o = true /\ ctx o = c)
  /\ is_Some (ctxs w !! c).

Definition keeps_kind (f : SSL -> SSL) : Prop :=
  forall o, is_connection (f o) = is_connection o /\ ctx (f o) = ctx o.

Lemma ready_frame w w' :
  oracle w' = oracle w -> objs w' = objs w -> ctxs w' = ctxs w ->
  ready w -> ready w'.
Proof. unfold ready. intros -> -> ->. tauto. Qed.

Lemma runs_draw : runs ready draw (fun _ => ready).
Proof.
  intros w (Ho & Hr & Hc). unfold draw.
  destruct (Dane.alloc_ok _ Ho) as (o1 & -> & Ho1).
  eexists tt, _. split; [reflexivity|]. unfold ready. simpl. auto.
Qed.

Lemma runs_get_obj :
  runs ready (get_obj r) (fun o w => ready w /\ is_connection o = true).
Proof.
  intros w HP. destruct HP as (Ho & (o & Hr & Hk & Hc) & Hx).
  exists o, w. unfold get_obj. rewrite Hr. split; [reflexivity|].
  split; [|exact Hk]. unfold ready. eauto 8.
Qed.

Lemma runs_modify f : keeps_kind f -> runs ready (modify_obj r f) (fun _ => ready).
Proof.
  intros Hf w (Ho & (o & Hr & Hk & Hc) & Hx). unfold modify_obj. rewrite Hr.
  eexists tt, _. split; [reflexivity|]. unfold ready. simpl.
  split; [exact Ho|]. split; [|exact Hx].
  exists (f o). rewrite lookup_insert_eq. destruct (Hf o) as (-> & ->). auto.
Qed.

Lemma runs_session_free x : runs ready (SSL_SESSION_free x) (fun _ => ready).
Proof.
  intros w HP. unfold SSL_SESSION_free. destruct x; eexists tt, _;
    (split; [reflexivity|]); [|exact HP].
  eapply ready_frame; [| | |exact HP]; reflexivity.
Qed.

Lemma runs_cert_free x : runs ready (ssl_cert_free x) (fun _ => ready).
Proof.
  intros w HP. unfold ssl_cert_free. destruct x; eexists tt, _;
    (split; [reflexivity|]); [|exact HP].
  eapply ready_frame; [| | |exact HP]; reflexivity.
Qed.

Lemma runs_cert_up (x : option nat) :
  runs ready
       (fun w => match x with
                 | Some a => (Some tt, set_cert_refs w (count_up (cert_refs w) a))
                 | None => (Some tt, w)
                 end)
       (fun _ => ready).
Proof.
  intros w HP. destruct x; eexists tt, _; (split; [reflexivity|]); [|exact HP].
  eapply ready_frame; [| | |exact HP]; reflexivity.
Qed.

Lemma runs_cert_dup x : runs ready (ssl_cert_dup x) (fun _ => ready).
Proof.
  unfold ssl_cert_dup. eapply runs_bind; [apply runs_draw|]. intros ?.
  intros w HP. eexists _, _. split; [reflexivity|].
  eapply ready_frame; [| | |exact HP]; reflexivity.
Qed.

Lemma runs_dup_names l : runs ready (dup_names l) (fun _ => ready).
Proof.
  induction l as [|xn rest IH]; simpl; [apply runs_ret|].
  eapply runs_bind; [apply runs_draw|]. intros ?.
  eapply runs_bind; [apply runs_draw|]. intros ?.
  eapply runs_bind; [apply IH|]. intros l'. apply runs_ret.
Qed.

Lemma runs_dup_ca_names l : runs ready (dup_ca_names l) (fun _ => ready).
Proof.
  destruct l as [names|]; simpl; [|apply runs_ret].
  eapply runs_bind; [apply runs_draw|]. intros ?.
  eapply runs_bind; [apply runs_dup_names|]. intros l'. apply runs_ret.
Qed.

Lemma runs_dup_cipher_stack l : runs ready (dup_cipher_stack l) (fun _ => ready).
Proof.
  destruct l as [l|]; simpl; [|apply runs_ret].
  eapply runs_bind; [apply runs_draw|]. intros ?. apply runs_ret.
Qed.

(** A source without TLSA records leaves nothing to duplicate. *)
Lemma runs_dane_dup from :
  Dane.DANETLS_ENABLED (dane from) = false ->
  runs ready (dane_dup_step r from) (fun _ => ready).
Proof.
  intros Hd w (Ho & (o & Hr & Hk & Hc) & [cx Hx]). unfold dane_dup_step.
  rewrite Hr, Hc, Hx. unfold Dane.ssl_dane_dup. rewrite Hd. simpl.
  eexists tt, _. split; [reflexivity|]. unfold ready. simpl.
  split; [exact Ho|]. split; [|eauto].
  exists (set_dane o (dane o)). rewrite lookup_insert_eq. auto.
Qed.

Lemma runs_set_sid b n :
  n <= SSL_MAX_SID_CTX_LENGTH ->
  runs ready (SSL_set_session_id_context r b n) (fun _ => ready).
Proof.
  intros Hn. unfold SSL_set_session_id_context.
  replace (n >? SSL_MAX_SID_CTX_LENGTH) with false
    by (symmetry; rewrite Z.gtb_ltb; apply Z.ltb_ge; lia).
  apply runs_modify. intros o. auto.
Qed.

Lemma runs_set_method m :
  method_is_quic m = false ->
  runs ready (SSL_set_ssl_method r m) (fun _ => ready).
Proof.
  intros Hq. unfold SSL_set_ssl_method.
  eapply runs_bind; [apply runs_get_obj|]. intros o.
  intros w (HP & Hk). rewrite Hk, Hq. simpl. revert w HP.
  change (runs ready
            (if negb (method_eqb (method o) m)
             then bind (modify_obj r (fun o0 => set_method o0 m))
                       (fun _ => if method_version (method o) =? method_version m
                                 then ret tt else draw)
             else ret tt) (fun _ => ready)).
  destruct (negb (method_eqb (method o) m)); [|apply runs_ret].
  eapply runs_bind; [apply runs_modify; intros o'; auto|]. intros ?.
  destruct (_ =? _); [apply runs_ret | apply runs_draw].
Qed.

Lemma runs_set_session sess : runs ready (SSL_set_session r sess) (fun _ => ready).
Proof.
  unfold SSL_set_session.
  eapply runs_bind; [apply runs_get_obj|]. intros o.
  eapply runs_weaken with (P' := ready) (Q' := fun _ => ready); [|tauto|auto].
  eapply runs_bind with (Q := fun _ => ready).
  { destruct sess as [a|]; [|apply runs_ret].
    intros w HP. eexists tt, _. split; [reflexivity|].
    eapply ready_frame; [| | |exact HP]; reflexivity. }
  intros ?. eapply runs_bind; [apply runs_session_free|]. intros ?.
  apply runs_modify. intros o'; auto.
Qed.

Lemma runs_copy_session_id from :
  sid_ctx_length from <= SSL_MAX_SID_CTX_LENGTH ->
  runs ready (SSL_copy_session_id r from) (fun _ => ready).
Proof.
  intros Hn. unfold SSL_copy_session_id.
  eapply runs_bind; [apply runs_set_session|]. intros ?.
  eapply runs_bind; [apply runs_get_obj|]. intros o.
  eapply runs_weaken with (P' := ready) (Q' := fun _ => ready); [|tauto|auto].
  eapply runs_bind with (Q := fun _ => ready).
  { destruct (negb (method_eqb (method o) (method from))); [|apply runs_ret].
    eapply runs_bind; [apply runs_modify; intros o'; auto|]. intros ?.
    apply runs_draw. }
  intros ?. eapply runs_bind; [apply runs_cert_up|]. intros ?.
  eapply runs_bind; [apply runs_get_obj|]. intros o1.
  eapply runs_weaken with (P' := ready) (Q' := fun _ => ready); [|tauto|auto].
  eapply runs_bind; [apply runs_cert_free|]. intros ?.
  eapply runs_bind; [apply runs_modify; intros o'; auto|]. intros ?.
  apply runs_set_sid, Hn.
Qed.

Lemma runs_dup_body from :
  method_is_quic (method from) = false ->
  sid_ctx_length from <= SSL_MAX_SID_CTX_LENGTH ->
  Dane.DANETLS_ENABLED (dane from) = false ->
  runs ready (dup_body r from) (fun _ => ready).
Proof.
  intros Hq Hn Hd. unfold dup_body.
  eapply runs_bind with (Q := fun _ => ready).
  { destruct (session from) as [a|].
    - apply runs_copy_session_id, Hn.
    - eapply runs_bind; [apply runs_set_method, Hq|]. intros ?.
      eapply runs_bind with (Q := fun _ => ready);
        [|intros ?; apply runs_set_sid, Hn].
      destruct (cert from) as [crt|]; [|apply runs_ret].
      eapply runs_bind; [apply runs_get_obj|]. intros o.
      eapply runs_weaken with (P' := ready) (Q' := fun _ => ready); [|tauto|auto].
      eapply runs_bind; [apply runs_cert_free|]. intros ?.
      eapply runs_bind; [apply runs_modify; intros o'; auto|]. intros ?.
      eapply runs_bind; [apply runs_cert_dup|]. intros c'.
      apply runs_modify. intros o'; auto. }
  intros ?. eapply runs_bind; [apply runs_dane_dup, Hd|]. intros ?.
  eapply runs_bind; [apply runs_modify; intros o'; auto|]. intros ?.
  eapply runs_bind; [apply runs_draw|]. intros ?.
  eapply runs_bind; [apply runs_modify; intros o'; auto|]. intros ?.
  eapply runs_bind with (Q := fun _ => ready).
  { destruct (handshake_func from); [apply runs_modify; intros o'; auto | apply runs_ret]. }
  intros ?. eapply runs_bind; [apply runs_modify; intros o'; auto|]. intros ?.
  eapply runs_bind; [apply runs_dup_cipher_stack|]. intros cl.
  eapply runs_bind with (Q := fun _ => ready).
  { destruct cl; [apply runs_modify; intros o'; auto | apply runs_ret]. }
  intros ?. eapply runs_bind; [apply runs_dup_cipher_stack|]. intros cli.
  eapply runs_bind with (Q := fun _ => ready).
  { destruct cli; [apply runs_modify; intros o'; auto | apply runs_ret]. }
  intros ?. eapply runs_bind; [apply runs_dup_ca_names|]. intros ca.
  eapply runs_bind; [apply runs_modify; intros o'; auto|]. intros ?.
  eapply runs_bind; [apply runs_dup_ca_names|]. intros cca.
  apply runs_modify. intros o'; auto.
Qed.

End Through.

(** *** Allocation and duplication *)

Lemma count_up_lookup (m : gmap nat Z) a n :
  m !! a = Some n -> count_up m a !! a = Some (n + 1).
Proof. intros H. unfold count_up. rewrite H. apply lookup_insert_eq. Qed.

Lemma constructor_steps_frame cx w crt w1 :
  constructor_steps cx w = (Some crt, w1) ->
  objs w1 = objs w /\ ctxs w1 = ctxs w /\ session_refs w1 = session_refs w.
Proof.
  unfold constructor_steps, ssl_cert_dup, bind, draw, ret. intros H.
  repeat match type of H with
         | context [alloc ?o] => destruct (alloc o) as [[|] ?]; simpl in H;
                                 try discriminate
         end.
  inversion H; subst. simpl. auto.
Qed.

(** A connection handed out by [SSL_new] sits at an address that was free,
    holds one reference and no session, and belongs to the factory asked;
    nothing else in the store of connections or in the session counts
    changed. *)
Lemma SSL_new_spec c w r w1 :
  SSL_new c w = (Some r, w1) ->
  objs w !! r = None
  /\ session_refs w1 = session_refs w
  /\ (forall a, a <> r -> objs w1 !! a = objs w !! a)
  /\ exists o, objs w1 !! r = Some o /\ references o = 1 /\ ctx o = c
               /\ session o = None.
Proof.
  unfold SSL_new. intros H.
  destruct (ctxs w !! c) as [cx|]; [|discriminate].
  destruct (ctx_method cx) as [m|]; [|discriminate].
  destruct (constructor_steps cx w) as [[crt|] w0] eqn:E; [|discriminate].
  destruct (constructor_steps_frame _ _ _ _ E) as (Ho & _ & Hs).
  inversion H; subst. simpl. rewrite Ho.
  split; [apply not_elem_of_dom, is_fresh|]. split; [exact Hs|].
  split; [intros a Ha; apply lookup_insert_ne; auto|].
  eexists. rewrite lookup_insert_eq. split; [reflexivity|]. simpl. auto.
Qed.

Lemma constructor_steps_runs cx w :
  never_fails (oracle w) ->
  exists crt w1, constructor_steps cx w = (Some crt, w1)
                 /\ never_fails (oracle w1)
                 /\ objs w1 = objs w /\ ctxs w1 = ctxs w.
Proof.
  unfold constructor_steps, ssl_cert_dup, bind, draw, ret. intros Ho.
  repeat match goal with
         | H : never_fails ?o |- context [alloc ?o] =>
             let o1 := fresh "o" in let Ho1 := fresh "Ho" in
             destruct (Dane.alloc_ok o H) as (o1 & -> & Ho1); clear H; simpl
         end.
  eexists _, _. split; [reflexivity|]. simpl. auto.
Qed.

(** A quiescent connection is duplicated, and a handle returned, when no
    allocation fails, its factory is in the store and has a method, the
    method is a TLS one, the session-id context fits, and the source holds
    no TLSA record. *)
Lemma dup_quiescent_returns w s sc cx m :
  objs w !! s = Some sc ->
  is_connection sc = true ->
  in_init sc && in_before sc = true ->
  never_fails (oracle w) ->
  ctxs w !! ctx sc = Some cx ->
  ctx_method cx = Some m ->
  method_is_quic (method sc) = false ->
  sid_ctx_length sc <= SSL_MAX_SID_CTX_LENGTH ->
  Dane.DANETLS_ENABLED (dane sc) = false ->
  exists r w', SSL_dup s w = (Some r, w').
Proof.
  intros Hs Hc Hq Ho Hx Hm Hquic Hn Hd. unfold SSL_dup. rewrite Hs, Hc. simpl.
  replace (negb (in_init sc) || negb (in_before sc)) with false
    by (destruct (in_init sc), (in_before sc); simpl in *; congruence).
  unfold SSL_new. rewrite Hx, Hm.
  destruct (constructor_steps_runs cx w Ho) as (crt & w1 & -> & Ho1 & Hobjs & Hctxs).
  set (r := fresh (dom (objs w1))).
  match goal with
  | |- context [dup_body r sc ?w2] =>
      destruct (runs_dup_body r (ctx sc) sc Hquic Hn Hd w2) as (u & w' & -> & _)
  end.
  - unfold ready. simpl. split; [exact Ho1|]. split.
    + eexists. rewrite lookup_insert_eq. split; [reflexivity|]. simpl. auto.
    + rewrite lookup_insert_eq. eauto.
  - eauto.
Qed.

(** C3 (amended).  [SSL_dup] on a connection that is not quiescent in the
    code's sense (it is no longer in init, or no longer in the before
    state: a handshake has begun or is over) returns the same handle with
    its reference count raised by exactly one, allocates nothing and draws
    on no allocation.  On a quiescent connection (in init and still in the
    before state) a handle it returns names a new object at an address
    that was free, from the same factory, holding one reference and
    pointing at the source's session, whose count went up by one when
    there is one; the source is untouched. *)
Theorem dup_up_ref_unless_quiescent w s sc :
  objs w !! s = Some sc ->
  is_connection sc = true ->
  (in_init sc && in_before sc = false ->
   exists w',
     SSL_dup s w = (Some s, w')
     /\ objs w' !! s = Some (set_references sc (references sc + 1))
     /\ dom (objs w') = dom (objs w)
     /\ (forall a, a <> s -> objs w' !! a = objs w !! a)
     /\ session_refs w' = session_refs w
     /\ oracle w' = oracle w)
  /\ (in_init sc && in_before sc = true ->
      forall r w',
        SSL_dup s w = (Some r, w') ->
        r <> s
        /\ objs w !! r = None
        /\ objs w' !! s = Some sc
        /\ (exists o, objs w' !! r = Some o /\ references o = 1
                      /\ ctx o = ctx sc /\ session o = session sc)
        /\ session_refs w' = match session sc with
                             | Some a => count_up (session_refs w) a
                             | None => session_refs w
                             end).
Proof.
  intros Hs Hc. unfold SSL_dup. rewrite Hs, Hc. simpl. split.
  - intros Hq. replace (negb (in_init sc) || negb (in_before sc)) with true
      by (destruct (in_init sc), (in_before sc); simpl in *; congruence).
    eexists. split; [reflexivity|]. simpl.
    split; [apply lookup_insert_eq|].
    split; [apply dom_insert_lookup_L; rewrite Hs; eauto|].
    split; [intros a Ha; apply lookup_insert_ne; auto | auto].
  - intros Hq r w' H.
    replace (negb (in_init sc) || negb (in_before sc)) with false in H
      by (destruct (in_init sc), (in_before sc); simpl in *; congruence).
    destruct (SSL_new (ctx sc) w) as [[r0|] w1] eqn:En; [|discriminate].
    destruct (dup_body r0 sc w1) as [[u|] w2] eqn:Eb; [|discriminate].
    inversion H; subst r0 w2. clear H.
    destruct (SSL_new_spec _ _ _ _ En) as (Hfree & Hrefs & Hother & o & Ho & Hr1 & Hctx & Hsess).
    assert (r <> s) as Hne by (intros ->; congruence).
    split; [exact Hne|]. split; [exact Hfree|].
    destruct (triple_dup_body r s (ctx sc) sc Hne (session_refs w) w1 u w' Eb)
      as (Hs' & Hcopy & Hrefs').
    { split; [rewrite Hother by auto; exact Hs|]. split; [eauto | exact Hrefs]. }
    auto.
Qed.

End Objects.

Arguments references {X509 EVP_PKEY}.
Arguments is_connection {X509 EVP_PKEY}.
Arguments ctx {X509 EVP_PKEY}.
Arguments session {X509 EVP_PKEY}.
Arguments in_init {X509 EVP_PKEY}.
Arguments in_before {X509 EVP_PKEY}.
Arguments set_references {X509 EVP_PKEY}.
Arguments objs {EVP_MD X509 EVP_PKEY}.
Arguments ctxs {EVP_MD X509 EVP_PKEY}.
Arguments session_refs {EVP_MD X509 EVP_PKEY}.
Arguments cert_refs {EVP_MD X509 EVP_PKEY}.
Arguments oracle {EVP_MD X509 EVP_PKEY}.
Arguments SSL_dup {EVP_MD X509 EVP_PKEY}.

(** *** A store to run the duplication on

    One factory with a TLS method and the registry of the DANE examples,
    one session, and a connection built from the factory that points at
    the session; the provider is the one of the DANE examples. *)

Definition demo_method : SSL_METHOD :=
  {| method_id := 1; method_version := 772; method_accepts := true;
     method_is_quic := false |}.

Definition demo_ctx : SSL_CTX Dane.nid :=
  {| ctx_references := 2; ctx_method := Some demo_method; ctx_cert := 0%nat;
     ctx_dane := Dane.demo_registry; ctx_options := 0;
     ctx_min_proto_version := 0; ctx_max_proto_version := 0; ctx_mode := 0;
     ctx_max_cert_list := 102400; ctx_read_ahead := 0; ctx_verify_mode := 0;
     ctx_verify_depth := -1; ctx_sid_ctx_length := 0; ctx_sid_ctx := [] |}.

(** The connection, with what [SSL_in_init] and [SSL_in_before] answer for
    it and the session it points at. *)
Definition demo_conn (init before : bool) (sess : option nat) : SSL (list Z) (list Z) :=
  {| references := 1; is_connection := true; ctx := 0%nat; method := demo_method;
     session := sess; cert := Some 1%nat; sid_ctx_length := 0; sid_ctx := [];
     dane := Dane.dane Dane.demo_conn;
     version := 772; options := 0; min_proto_version := 0;
     max_proto_version := 0; mode := 0; max_cert_list := 102400;
     read_ahead := 0; verify_mode := 0; verify_depth := -1;
     server := 1; handshake_func := Some role_accept; shutdown := 0; hit := 0;
     cipher_list := Some [4865; 4866]; cipher_list_by_id := Some [4865; 4866];
     ca_names := Some [[1; 2; 3]]; client_ca_names := None;
     in_init := init; in_before := before |}.

(** The store holding that connection at address 0, with every allocation
    going through. *)
Definition demo_world (init before : bool) (sess : option nat)
    : world Dane.nid (list Z) (list Z) :=
  {| objs := {[ 0%nat := demo_conn init before sess ]};
     ctxs := {[ 0%nat := demo_ctx ]};
     session_refs := {[ 7%nat := 1 ]};
     cert_refs := {[ 0%nat := 1; 1%nat := 1 ]};
     oracle := [] |}.

Definition demo_dup (w : world Dane.nid (list Z) (list Z)) :=
  SSL_dup Dane.demo_md_size Dane.demo_d2i Dane.demo_pubkey Dane.demo_d2i 0%nat w.

(** The handle a duplication returned, and the count of a connection and
    of a session in the store it left. *)
Definition handle_of (r : option nat * world Dane.nid (list Z) (list Z)) : option nat :=
  fst r.
Definition refs_of (r : option nat * world Dane.nid (list Z) (list Z)) (a : nat)
    : option Z :=
  option_map references (objs (snd r) !! a).
Definition session_count_of (r : option nat * world Dane.nid (list Z) (list Z)) (a : nat)
    : option Z :=
  session_refs (snd r) !! a.
Definition objects_of (r : option nat * world Dane.nid (list Z) (list Z)) : nat :=
  size (objs (snd r)).

(** *** The claim on concrete inputs *)

(** C3 as stated does not hold.  A connection that never started a
    handshake (in init, still in the before state) is not mid-handshake,
    yet its duplicate is a new object at address 1: the store holds two
    objects and the source still has one reference.  A connection in the
    middle of a handshake (in init, past the before state) gets its own
    handle back with the count raised to two, and no object is allocated. *)
Lemma dup_quiescent_copies_counterexample :
  handle_of (demo_dup (demo_world true true (Some 7%nat))) = Some 1%nat
  /\ refs_of (demo_dup (demo_world true true (Some 7%nat))) 0 = Some 1
  /\ refs_of (demo_dup (demo_world true true (Some 7%nat))) 1 = Some 1
  /\ objects_of (demo_dup (demo_world true true (Some 7%nat))) = 2%nat
  /\ session_count_of (demo_dup (demo_world true true (Some 7%nat))) 7 = Some 2
  /\ handle_of (demo_dup (demo_world true false (Some 7%nat))) = Some 0%nat
  /\ refs_of (demo_dup (demo_world true false (Some 7%nat))) 0 = Some 2
  /\ objects_of (demo_dup (demo_world true false (Some 7%nat))) = 1%nat.
Proof. repeat split; vm_compute; reflexivity. Qed.

Lemma dup_up_ref_unless_quiescent_witness :
  objs (demo_world true false (Some 7%nat)) !! 0%nat
    = Some (demo_conn true false (Some 7%nat))
  /\ is_connection (demo_conn true false (Some 7%nat)) = true
  /\ (exists w',
        demo_dup (demo_world true false (Some 7%nat)) = (Some 0%nat, w')
        /\ objs w' !! 0%nat
           = Some (set_references (demo_conn true false (Some 7%nat)) (1 + 1))
        /\ dom (objs w') = dom (objs (demo_world true false (Some 7%nat)))
        /\ (forall a, a <> 0%nat ->
                      objs w' !! a = objs (demo_world true false (Some 7%nat)) !! a)
        /\ session_refs w' = session_refs (demo_world true false (Some 7%nat))
        /\ oracle w' = oracle (demo_world true false (Some 7%nat)))
  /\ (forall r w',
        demo_dup (demo_world true true (Some 7%nat)) = (Some r, w') ->
        r <> 0%nat
        /\ objs (demo_world true true (Some 7%nat)) !! r = None
        /\ objs w' !! 0%nat = Some (demo_conn true true (Some 7%nat))
        /\ (exists o, objs w' !! r = Some o /\ references o = 1
                      /\ ctx o = 0%nat /\ session o = Some 7%nat)
        /\ session_refs w'
           = count_up (session_refs (demo_world true true (Some 7%nat))) 7).
Proof.
  split; [reflexivity|]. split; [reflexivity|]. split.
  - apply (proj1 (dup_up_ref_unless_quiescent Dane.nid (list Z) (list Z)
                    Dane.demo_md_size Dane.demo_d2i Dane.demo_pubkey Dane.demo_d2i
                    (demo_world true false (Some 7%nat)) 0%nat
                    (demo_conn true false (Some 7%nat)) eq_refl eq_refl)).
    reflexivity.
  - apply (proj2 (dup_up_ref_unless_quiescent Dane.nid (list Z) (list Z)
                    Dane.demo_md_size Dane.demo_d2i Dane.demo_pubkey Dane.demo_d2i
                    (demo_world true true (Some 7%nat)) 0%nat
                    (demo_conn true true (Some 7%nat)) eq_refl eq_refl)).
    reflexivity.
Defined.

End Conn.

(** ** The matching-type registry *)

Module DaneRegistry.

Import Dane.

(** [OPENSSL_realloc(old, n * sizeof(...))]: the first slots keep what the
    old array held, the slots that are new hold whatever the allocator
    left there. *)
Definition realloc {A} (old : list A) (n : nat) (junk : nat -> A) : list A :=
  firstn n old ++ map junk (seq (length old) (n - length old)).

(** The loop of lines 246-249: the slots from [a] up to, not including,
    [b] are set to [v]. *)
Definition fill {A} (l : list A) (a b : nat) (v : A) : list A :=
  fold_left (fun acc i => <[i := v]> acc) (seq a (b - a)) l.

Section Registry.

Variable EVP_MD : Type.

Definition with_tables (d : dane_ctx_st EVP_MD) (evp : option (list (option EVP_MD)))
    (ord : list Z) (max : Z) : dane_ctx_st EVP_MD :=
  {| mdevp := evp; mdord := ord; mdmax := max; ctx_flags := ctx_flags d |}.

(** Lines 254-258: the slot of the matching type takes the digest, and the
    ordinal given, or 0 when the digest is NULL. *)
Definition store_mtype (d : dane_ctx_st EVP_MD) (md : option EVP_MD) (mt ord : Z)
    : dane_ctx_st EVP_MD :=
  with_tables d
    (match mdevp d with
     | Some tbl => Some (<[Z.to_nat mt := md]> tbl)
     | None => None
     end)
    (<[Z.to_nat mt := if is_some md then ord else 0]> (mdord d))
    (mdmax d).

(** [dane_mtype_set] (lines 220-259) on a registry whose tables exist.
    [junk_md] and [junk_ord] are what the allocator leaves in new slots. *)
Definition dane_mtype_set (d : dane_ctx_st EVP_MD) (md : option EVP_MD) (mt ord : Z)
    (junk_md : nat -> option EVP_MD) (junk_ord : nat -> Z) (o : alloc_oracle)
    : Z * dane_ctx_st EVP_MD * list reason * alloc_oracle :=
  if (mt =? DANETLS_MATCHING_FULL) && is_some md
  then (0, d, [SSL_R_DANE_CANNOT_OVERRIDE_MTYPE_FULL], o)
  else if mt >? mdmax d then
    let n := Z.to_nat (mt + 1) in
    let (ok_evp, o1) := alloc o in
    if negb ok_evp then (-1, d, [], o1)
    else
      let evp1 := realloc (match mdevp d with Some t => t | None => [] end) n junk_md in
      let d1 := with_tables d (Some evp1) (mdord d) (mdmax d) in
      let (ok_ord, o2) := alloc o1 in
      if negb ok_ord then (-1, d1, [], o2)
      else
        let ord1 := realloc (mdord d) n junk_ord in
        let a := Z.to_nat (mdmax d + 1) in
        let b := Z.to_nat mt in
        let d2 := with_tables d (Some (fill evp1 a b None)) (fill ord1 a b 0) mt in
        (1, store_mtype d2 md mt ord, [], o2)
  else (1, store_mtype d md mt ord, [], o).

(** The tables are there and reach up to [mdmax]. *)
Definition tables_cover (d : dane_ctx_st EVP_MD) : Prop :=
  0 <= mdmax d <= 255
  /\ (exists tbl, mdevp d = Some tbl /\ (Z.to_nat (mdmax d + 1) <= length tbl)%nat)
  /\ (Z.to_nat (mdmax d + 1) <= length (mdord d))%nat.

(** What the registry keeps: the matching type "full" has no digest, and a
    type without digest has ordinal 0. *)
Definition registry_ok (d : dane_ctx_st EVP_MD) : Prop :=
  tables_cover d
  /\ tlsa_md_get d DANETLS_MATCHING_FULL = None
  /\ forall i, 0 <= i <= mdmax d -> tlsa_md_get d i = None -> mdord_at d i = 0.

(** *** Reading the tables *)

Lemma nth_insert_eq {A} (l : list A) i v d :
  (i < length l)%nat -> nth i (<[i := v]> l) d = v.
Proof. intros H. rewrite nth_lookup, list_lookup_insert_eq by exact H. reflexivity. Qed.

Lemma nth_insert_ne {A} (l : list A) i j v d :
  i <> j -> nth j (<[i := v]> l) d = nth j l d.
Proof. intros H. rewrite !nth_lookup, list_lookup_insert_ne by exact H. reflexivity. Qed.

Lemma fill_length {A} (l : list A) a b v : length (fill l a b v) = length l.
Proof.
  unfold fill. generalize (b - a)%nat as k. intros k. revert a l.
  induction k as [|k IH]; intros a l; simpl; [reflexivity|].
  rewrite IH. apply length_insert.
Qed.

Ltac nat_tests :=
  repeat match goal with
         | |- context [(?a <=? ?b)%nat] => destruct (Nat.leb_spec a b)
         | |- context [(?a <? ?b)%nat] => destruct (Nat.ltb_spec a b)
         end;
  cbn [andb orb negb]; try lia.

Lemma nth_fill {A} (l : list A) a b v d j :
  nth j (fill l a b v) d =
  if (a <=? j)%nat && (j <? b)%nat && (j <? length l)%nat then v else nth j l d.
Proof.
  unfold fill.
  destruct (Nat.le_gt_cases b a) as [Hba|Hab].
  { replace (b - a)%nat with 0%nat by lia. cbn [seq fold_left]. nat_tests; reflexivity. }
  assert (exists k, b = a + k)%nat as [k ->] by (exists (b - a)%nat; lia).
  replace (a + k - a)%nat with k by lia. clear Hab. revert a l.
  induction k as [|k IH]; intros a l; cbn [seq fold_left].
  - nat_tests; reflexivity.
  - replace (a + S k)%nat with (S a + k)%nat by lia. rewrite IH, length_insert.
    destruct (Nat.eq_dec a j) as [->|Hne].
    + nat_tests; try reflexivity.
      * apply nth_insert_eq; assumption.
      * rewrite list_insert_ge by lia. reflexivity.
    + rewrite nth_insert_ne by exact Hne. nat_tests; reflexivity.
Qed.

Lemma realloc_length {A} (old : list A) n junk : length (realloc old n junk) = n.
Proof.
  unfold realloc. rewrite length_app, length_firstn, length_map, length_seq. lia.
Qed.

Lemma nth_realloc {A} (old : list A) n junk d j :
  (j < length old)%nat -> (j < n)%nat ->
  nth j (realloc old n junk) d = nth j old d.
Proof.
  intros Hj Hn. unfold realloc.
  rewrite app_nth1 by (rewrite length_firstn; lia).
  rewrite !nth_lookup, lookup_take_lt by exact Hn. reflexivity.
Qed.

Lemma tlsa_md_get_in (d : dane_ctx_st EVP_MD) i :
  0 <= i <= mdmax d ->
  tlsa_md_get d i = match mdevp d with
                    | Some tbl => nth (Z.to_nat i) tbl None
                    | None => None
                    end.
Proof.
  intros H. unfold tlsa_md_get, Dane.mdevp_at.
  replace (i >? mdmax d) with false by (symmetry; rewrite Z.gtb_ltb; apply Z.ltb_ge; lia).
  reflexivity.
Qed.

Lemma tlsa_md_get_beyond (d : dane_ctx_st EVP_MD) i :
  mdmax d < i -> tlsa_md_get d i = None.
Proof.
  intros H. unfold tlsa_md_get.
  replace (i >? mdmax d) with true by (symmetry; apply Z.gtb_lt; lia). reflexivity.
Qed.

Lemma mdord_at_with (d : dane_ctx_st EVP_MD) evp ord max i :
  mdord_at (with_tables d evp ord max) i = nth (Z.to_nat i) ord 0.
Proof. reflexivity. Qed.

(** *** What a successful [dane_mtype_set] leaves *)

(** The tables after a successful call, slot by slot. *)
Lemma dane_mtype_set_reads (d : dane_ctx_st EVP_MD) md mt ord jm jo o d' errs o' :
  tables_cover d ->
  0 <= mt <= 255 ->
  dane_mtype_set d md mt ord jm jo o = (1, d', errs, o') ->
  mdmax d' = Z.max (mdmax d) mt
  /\ tables_cover d'
  /\ forall j, 0 <= j <= mdmax d' ->
       tlsa_md_get d' j =
         (if j =? mt then md
          else if j <=? mdmax d then tlsa_md_get d j else None)
       /\ mdord_at d' j =
         (if j =? mt then (if is_some md then ord else 0)
          else if j <=? mdmax d then mdord_at d j else 0).
Proof.
  intros (Hmax & (tbl & Htbl & Hlen) & Hlen') Hmt H. unfold dane_mtype_set in H.
  destruct ((mt =? DANETLS_MATCHING_FULL) && is_some md); [inversion H|].
  destruct (Z.gtb_spec mt (mdmax d)) as [Hgt|Hle].
  - destruct (alloc o) as [[|] o1]; simpl in H; [|inversion H].
    destruct (alloc o1) as [[|] o2]; simpl in H; inversion H; subst; clear H.
    rewrite Htbl. simpl. split; [lia|].
    set (n := Z.to_nat (mt + 1)). set (a := Z.to_nat (mdmax d + 1)).
    set (b := Z.to_nat mt).
    assert (b < n)%nat as Hbn by (subst b n; lia).
    split.
    { unfold tables_cover, store_mtype. simpl. split; [lia|]. split.
      - eexists. split; [reflexivity|].
        rewrite length_insert, fill_length, realloc_length. reflexivity.
      - rewrite length_insert, fill_length, realloc_length. reflexivity. }
    intros j Hj. simpl in Hj.
    rewrite tlsa_md_get_in by (simpl; lia). unfold store_mtype, mdord_at. simpl.
    destruct (Z.eqb_spec j mt) as [->|Hne].
    + fold b. split; apply nth_insert_eq; rewrite fill_length, realloc_length; exact Hbn.
    + assert (b <> Z.to_nat j) as Hbj by (subst b; lia).
      rewrite !nth_insert_ne by exact Hbj. rewrite !nth_fill, !realloc_length.
      destruct (Z.leb_spec j (mdmax d)) as [Hold|Hnew].
      * assert (Z.to_nat j < a)%nat by (subst a; lia).
        replace (a <=? Z.to_nat j)%nat with false
          by (symmetry; apply Nat.leb_gt; assumption).
        cbn [andb]. rewrite !nth_realloc by (subst a n; lia).
        rewrite tlsa_md_get_in, Htbl by lia. auto.
      * replace (a <=? Z.to_nat j)%nat with true
          by (symmetry; apply Nat.leb_le; subst a; lia).
        replace (Z.to_nat j <? b)%nat with true
          by (symmetry; apply Nat.ltb_lt; subst b; lia).
        replace (Z.to_nat j <? n)%nat with true
          by (symmetry; apply Nat.ltb_lt; subst n; lia).
        auto.
  - inversion H; subst; clear H. unfold store_mtype. rewrite Htbl. simpl.
    split; [lia|]. split.
    { unfold tables_cover. simpl. split; [lia|]. split.
      - eexists. split; [reflexivity|]. rewrite length_insert. exact Hlen.
      - rewrite length_insert. exact Hlen'. }
    intros j Hj. simpl in Hj.
    rewrite tlsa_md_get_in by (simpl; lia). unfold mdord_at. simpl.
    replace (j <=? mdmax d) with true by (symmetry; apply Z.leb_le; lia).
    destruct (Z.eqb_spec j mt) as [->|Hne].
    + split; apply nth_insert_eq; lia.
    + rewrite !nth_insert_ne by lia. rewrite tlsa_md_get_in, Htbl by lia. auto.
Qed.

(** X2.  After a successful call the matching type reads back as it was set
    (with ordinal 0 when the digest is NULL), every other type the registry
    already had reads as before, the types in a gap the call opened have no
    digest and ordinal 0 whatever the allocator left in the new slots, and
    the table reaches the larger of the old bound and the type. *)
Theorem mtype_set_then_get (d : dane_ctx_st EVP_MD) md mt ord jm jo o d' errs o' :
  tables_cover d ->
  0 <= mt <= 255 ->
  dane_mtype_set d md mt ord jm jo o = (1, d', errs, o') ->
  mdmax d' = Z.max (mdmax d) mt
  /\ tlsa_md_get d' mt = md
  /\ mdord_at d' mt = (if is_some md then ord else 0)
  /\ (forall j, 0 <= j <= mdmax d -> j <> mt ->
        tlsa_md_get d' j = tlsa_md_get d j /\ mdord_at d' j = mdord_at d j)
  /\ (forall j, mdmax d < j < mt ->
        tlsa_md_get d' j = None /\ mdord_at d' j = 0).
Proof.
  intros Hcov Hmt H.
  assert (0 <= mdmax d) as Hd by (destruct Hcov; lia).
  destruct (dane_mtype_set_reads d md mt ord jm jo o d' errs o' Hcov Hmt H)
    as (Hmax & _ & Hread).
  split; [exact Hmax|]. rewrite Hmax in Hread.
  destruct (Hread mt ltac:(lia)) as [Hg Ho]. rewrite Z.eqb_refl in Hg, Ho.
  split; [exact Hg|]. split; [exact Ho|]. split.
  - intros j Hj Hne. destruct (Hread j ltac:(lia)) as [Hg' Ho'].
    replace (j =? mt) with false in * by (symmetry; apply Z.eqb_neq; exact Hne).
    replace (j <=? mdmax d) with true in * by (symmetry; apply Z.leb_le; lia).
    auto.
  - intros j Hj. destruct (Hread j ltac:(lia)) as [Hg' Ho'].
    replace (j =? mt) with false in * by (symmetry; apply Z.eqb_neq; lia).
    replace (j <=? mdmax d) with false in * by (symmetry; apply Z.leb_gt; lia).
    auto.
Qed.

(** X3.  Whatever a call of [dane_mtype_set] returns, the registry still has no
    digest for the matching type "full" and ordinal 0 for every type
    without digest. *)
Theorem mtype_set_keeps_registry_ok (d : dane_ctx_st EVP_MD) md mt ord jm jo o
    ret d' errs o' :
  registry_ok d ->
  0 <= mt <= 255 ->
  dane_mtype_set d md mt ord jm jo o = (ret, d', errs, o') ->
  registry_ok d'.
Proof.
  intros (Hcov & Hfull & Hord) Hmt H.
  destruct (Z.eq_dec ret 1) as [->|Hret].
  - pose proof H as H0. unfold dane_mtype_set in H0.
    destruct ((mt =? DANETLS_MATCHING_FULL) && is_some md) eqn:Hrej; [inversion H0|].
    clear H0.
    destruct (dane_mtype_set_reads d md mt ord jm jo o d' errs o' Hcov Hmt H)
      as (Hmax & Hcov' & Hread).
    assert (0 <= mdmax d) as Hd by (destruct Hcov; lia).
    split; [exact Hcov'|]. split.
    + unfold DANETLS_MATCHING_FULL in *.
      destruct (Hread 0) as [-> _]; [lia|].
      destruct (Z.eqb_spec 0 mt) as [<-|Hne].
      * simpl in Hrej. destruct md; [discriminate | reflexivity].
      * replace (0 <=? mdmax d) with true by (symmetry; apply Z.leb_le; lia).
        exact Hfull.
    + intros i Hi Hnone. destruct (Hread i Hi) as [Hg Ho]. rewrite Ho. rewrite Hg in Hnone.
      destruct (i =? mt); [rewrite Hnone; reflexivity|].
      destruct (Z.leb_spec i (mdmax d)); [apply Hord; [lia | exact Hnone] | reflexivity].
  - pose proof (conj Hcov (conj Hfull Hord)) as Hok. unfold dane_mtype_set in H.
    destruct ((mt =? DANETLS_MATCHING_FULL) && is_some md);
      [inversion H; subst; exact Hok|].
    destruct (Z.gtb_spec mt (mdmax d)) as [Hgt|Hle]; [|inversion H; subst; congruence].
    destruct (alloc o) as [[|] o1]; simpl in H;
      [|inversion H; subst; exact Hok].
    destruct (alloc o1) as [[|] o2]; simpl in H; inversion H; subst; [congruence|].
    destruct Hcov as (Hmax & (tbl & Htbl & Hlen) & Hlen').
    assert (forall i, 0 <= i <= mdmax d ->
              tlsa_md_get (with_tables d (Some (realloc
                  (match mdevp d with Some t => t | None => [] end)
                  (Z.to_nat (mt + 1)) jm)) (mdord d) (mdmax d)) i
              = tlsa_md_get d i) as Hsame.
    { intros i Hi. rewrite !tlsa_md_get_in by (simpl; lia). simpl. rewrite Htbl.
      apply nth_realloc; lia. }
    split.
    { split; [exact Hmax|]. split; [|exact Hlen'].
      eexists. split; [reflexivity|]. rewrite realloc_length. simpl. lia. }
    split; [rewrite Hsame by (unfold DANETLS_MATCHING_FULL; lia); exact Hfull|].
    intros i Hi Hnone. simpl in Hi. rewrite Hsame in Hnone by exact Hi.
    apply (Hord i Hi Hnone).
Qed.

(** *** What [dane_ctx_enable] builds *)

Lemma three_slots_ok (a b : option EVP_MD) oa ob fl :
  (a = None -> oa = 0) -> (b = None -> ob = 0) ->
  registry_ok {| mdevp := Some [None; a; b]; mdord := [0; oa; ob]; mdmax := 2;
                 ctx_flags := fl |}.
Proof.
  intros Ha Hb. split; [|split].
  - unfold tables_cover. simpl. split; [lia|]. split; [|lia].
    eexists. split; [reflexivity|]. simpl. lia.
  - reflexivity.
  - intros i Hi Hg. simpl in Hi.
    assert (i = 0 \/ i = 1 \/ i = 2) as [ -> | [ -> | -> ] ] by lia.
    + reflexivity.
    + apply Ha. exact Hg.
    + apply Hb. exact Hg.
Qed.


End Registry.

Arguments dane_mtype_set {EVP_MD}.
Arguments registry_ok {EVP_MD}.
Arguments tables_cover {EVP_MD}.
Arguments store_mtype {EVP_MD}.

(** *** On the registry of the examples *)


Lemma demo_registry_ok : registry_ok demo_registry.
Proof. apply (three_slots_ok nid); discriminate. Qed.


(** The type 5 is given SHA2-512 with ordinal 3 on a table that ends at 2;
    the allocator leaves SHA2-256 and 9 in the new slots. *)
Lemma mtype_set_then_get_witness :
  exists d',
    dane_mtype_set demo_registry (Some NID_sha512) 5 3
                   (fun _ => Some NID_sha256) (fun _ => 9) [] = (1, d', [], [])
    /\ mdmax d' = 5
    /\ tlsa_md_get d' 5 = Some NID_sha512 /\ mdord_at d' 5 = 3
    /\ tlsa_md_get d' 4 = None /\ mdord_at d' 4 = 0
    /\ tlsa_md_get d' 1 = Some NID_sha256 /\ mdord_at d' 1 = 1.
Proof.
  eexists. split; [reflexivity|].
  destruct (mtype_set_then_get nid demo_registry (Some NID_sha512) 5 3
              (fun _ => Some NID_sha256) (fun _ => 9) [] _ [] []
              (proj1 demo_registry_ok) ltac:(lia) eq_refl)
    as (Hmax & Hg & Ho & Hold & Hgap).
  split; [exact Hmax|]. split; [exact Hg|]. split; [exact Ho|].
  destruct (Hgap 4 ltac:(vm_compute; auto)) as [-> ->].
  destruct (Hold 1 ltac:(vm_compute; intuition discriminate) ltac:(lia)) as [-> ->].
  repeat split.
Defined.

Lemma mtype_set_keeps_registry_ok_witness :
  registry_ok demo_registry
  /\ registry_ok
       (snd (fst (fst (dane_mtype_set demo_registry (Some NID_sha512) 0 3
                         (fun _ => None) (fun _ => 0) []))))
  /\ registry_ok
       (snd (fst (fst (dane_mtype_set demo_registry None 9 3
                         (fun _ => Some NID_sha256) (fun _ => 9) [true; false])))).
Proof.
  split; [exact demo_registry_ok|]. split.
  - eapply (mtype_set_keeps_registry_ok nid demo_registry (Some NID_sha512) 0 3
              (fun _ => None) (fun _ => 0) []);
      [exact demo_registry_ok | lia | reflexivity].
  - eapply (mtype_set_keeps_registry_ok nid demo_registry None 9 3
              (fun _ => Some NID_sha256) (fun _ => 9) [true; false]);
      [exact demo_registry_ok | lia | reflexivity].
Defined.

End DaneRegistry.

(** ** More about the DANE engine *)

Module DaneMore.

Import Dane.

Section Engine.

Variables EVP_MD X509 EVP_PKEY : Type.
Variable EVP_MD_get_size : EVP_MD -> Z.
Variable d2i_X509 : list Z -> Z -> option (X509 * Z).
Variable X509_get0_pubkey : X509 -> option EVP_PKEY.
Variable d2i_PUBKEY : list Z -> Z -> option (EVP_PKEY * Z).

Local Notation "'tlsa_add'" :=
  (dane_tlsa_add EVP_MD_get_size d2i_X509 X509_get0_pubkey d2i_PUBKEY) (only parsing).
Local Notation "'dane_dup'" :=
  (ssl_dane_dup EVP_MD_get_size d2i_X509 X509_get0_pubkey d2i_PUBKEY) (only parsing).

(** The arguments [ssl_dane_dup] passes for a stored record (line 213). *)
Definition resubmit (t : danetls_record EVP_PKEY) : submission :=
  {| sub_usage := usage t; sub_selector := selector t; sub_mtype := mtype t;
     sub_data := Some (data t); sub_dlen := dlen t |}.

(** A stored record that is stored again unchanged when its fields are
    submitted anew: its data has the recorded length and its cached key is
    the one its data decodes to. *)
Definition stands (t : danetls_record EVP_PKEY) : Prop :=
  stored_record d2i_PUBKEY (resubmit t) = t.

(** Every stored record has its usage in the usage mask. *)
Definition mask_covers (dn : SSL_DANE X509 EVP_PKEY) : Prop :=
  forall l t, trecs dn = Some l -> In t l -> Z.testbit (umask dn) (usage t) = true.

(** Whether a usage is one of the two trust-anchor usages. *)
Definition is_ta_usage (u : Z) : bool :=
  negb (Z.land (DANETLS_USAGE_BIT u) DANETLS_TA_MASK =? 0).

(** Calls made one after the other, whatever each returns. *)
Fixpoint add_each (dctx : dane_ctx_st EVP_MD) (dn : SSL_DANE X509 EVP_PKEY)
    (xs : list submission) (o : alloc_oracle) : SSL_DANE X509 EVP_PKEY * alloc_oracle :=
  match xs with
  | [] => (dn, o)
  | x :: rest =>
      match tlsa_add dctx dn (sub_usage x) (sub_selector x) (sub_mtype x)
                     (sub_data x) (sub_dlen x) o with
      | (_, dn', _, o') => add_each dctx dn' rest o'
      end
  end.

(** The verification result a connection exposes.  [X509_V_OK] is 0. *)
Definition X509_V_OK : Z := 0.

(** [SSL_get0_dane_authority] (lines 1313-1332) with both output pointers
    given: the return value and what is stored through [mcert] and
    [mspki], [None] where nothing is stored. *)
Definition SSL_get0_dane_authority (sc : option (SSL_DANE X509 EVP_PKEY * Z))
    : Z * option (option X509) * option (option EVP_PKEY) :=
  match sc with
  | None => (-1, None, None)
  | Some (dn, verify_result) =>
      if negb (DANETLS_ENABLED dn) || negb (verify_result =? X509_V_OK)
      then (-1, None, None)
      else
        match mtlsa dn with
        | Some t =>
            (mdpth dn, Some (mcert dn),
             Some (match mcert dn with None => spki t | Some _ => None end))
        | None => (mdpth dn, None, None)
        end
  end.

(** *** What one call touches *)

Ltac case_split H :=
  repeat match type of H with
         | context [match ?x with _ => _ end] => destruct x eqn:?
         end.

(** A call leaves the verification result, the flags and the registry
    link alone; it keeps the record list allocated or not as it was; and it
    changes the usage mask only when it succeeds, by adding the bit of the
    usage, which is then at most 3 with a selector at most 1. *)
Lemma tlsa_add_effects dctx dn u s m d n o ret dn' errs o' :
  tlsa_add dctx dn u s m d n o = (ret, dn', errs, o') ->
  mtlsa dn' = mtlsa dn /\ mcert dn' = mcert dn
  /\ mdpth dn' = mdpth dn /\ pdpth dn' = pdpth dn
  /\ flags dn' = flags dn /\ dctx_set dn' = dctx_set dn
  /\ is_some (trecs dn') = is_some (trecs dn)
  /\ (ret = 1 -> umask dn' = Z.lor (umask dn) (DANETLS_USAGE_BIT u)
                 /\ u <= DANETLS_USAGE_LAST /\ s <= DANETLS_SELECTOR_LAST)
  /\ (ret <> 1 -> umask dn' = umask dn).
Proof.
  unfold dane_tlsa_add, tlsa_add_tail. intros H.
  case_split H; inversion H; subst; simpl;
    repeat match goal with
           | E : (_ >? _) = false |- _ => rewrite Z.gtb_ltb in E; apply Z.ltb_ge in E
           end;
    repeat split; auto; try congruence; try lia;
    try (match goal with E : trecs _ = _ |- _ => rewrite E; reflexivity end).
Qed.

(** *** Rejections *)

(** X4.  A digest matching type with a registered digest and data of another
    length is rejected with "bad digest length" before the data pointer is
    even looked at; nothing changes and no memory is asked for. *)
Theorem tlsa_add_wrong_digest_length dctx dn l u s m md d n o :
  trecs dn = Some l ->
  0 <= n <= INT_MAX ->
  u <= DANETLS_USAGE_LAST ->
  s <= DANETLS_SELECTOR_LAST ->
  m <> DANETLS_MATCHING_FULL ->
  tlsa_md_get dctx m = Some md ->
  EVP_MD_get_size md <= INT_MAX ->
  EVP_MD_get_size md <> n ->
  tlsa_add dctx dn u s m d n o = (0, dn, [SSL_R_DANE_TLSA_BAD_DIGEST_LENGTH], o).
Proof.
  intros Hl Hn Hu Hs Hm Hmd Hint Hsz. unfold dane_tlsa_add. rewrite Hl.
  rewrite (int_of_size_t_small n Hn), (size_t_of_int_small n Hn), Z.eqb_refl.
  replace (n <? 0) with false by (symmetry; apply Z.ltb_ge; lia).
  replace (u >? DANETLS_USAGE_LAST) with false
    by (symmetry; rewrite Z.gtb_ltb; apply Z.ltb_ge; lia).
  replace (s >? DANETLS_SELECTOR_LAST) with false
    by (symmetry; rewrite Z.gtb_ltb; apply Z.ltb_ge; lia).
  replace (m =? DANETLS_MATCHING_FULL) with false
    by (symmetry; apply Z.eqb_neq; exact Hm).
  simpl. rewrite Hmd. simpl.
  destruct (Z.leb_spec (EVP_MD_get_size md) 0) as [Hle|Hpos]; [reflexivity|].
  rewrite size_t_of_int_small by lia.
  replace (n =? EVP_MD_get_size md) with false
    by (symmetry; apply Z.eqb_neq; congruence).
  reflexivity.
Qed.

(** A matching type that has no digest in the registry, whether it lies
    beyond the table or was disabled, is rejected with "bad matching type";
    nothing changes. *)
Theorem tlsa_add_unregistered_type dctx dn l u s m d n o :
  trecs dn = Some l ->
  0 <= n <= INT_MAX ->
  u <= DANETLS_USAGE_LAST ->
  s <= DANETLS_SELECTOR_LAST ->
  m <> DANETLS_MATCHING_FULL ->
  tlsa_md_get dctx m = None ->
  tlsa_add dctx dn u s m d n o = (0, dn, [SSL_R_DANE_TLSA_BAD_MATCHING_TYPE], o).
Proof.
  intros Hl Hn Hu Hs Hm Hmd. unfold dane_tlsa_add. rewrite Hl.
  rewrite (int_of_size_t_small n Hn), (size_t_of_int_small n Hn), Z.eqb_refl.
  replace (n <? 0) with false by (symmetry; apply Z.ltb_ge; lia).
  replace (u >? DANETLS_USAGE_LAST) with false
    by (symmetry; rewrite Z.gtb_ltb; apply Z.ltb_ge; lia).
  replace (s >? DANETLS_SELECTOR_LAST) with false
    by (symmetry; rewrite Z.gtb_ltb; apply Z.ltb_ge; lia).
  replace (m =? DANETLS_MATCHING_FULL) with false
    by (symmetry; apply Z.eqb_neq; exact Hm).
  simpl. rewrite Hmd. reflexivity.
Qed.

(** X5.  A full certificate that decodes but carries no public key is rejected
    with "bad certificate" once the record's memory was obtained; the
    whole DANE state, record list and auxiliary certificate list included,
    is as before. *)
Theorem tlsa_add_certificate_without_key dctx dn l u bytes cert o :
  trecs dn = Some l ->
  0 <= Z.of_nat (length bytes) <= INT_MAX ->
  u <= DANETLS_USAGE_LAST ->
  d2i_X509 bytes (Z.of_nat (length bytes)) = Some (cert, Z.of_nat (length bytes)) ->
  X509_get0_pubkey cert = None ->
  fst (alloc o) = true ->
  fst (alloc (snd (alloc o))) = true ->
  tlsa_add dctx dn u DANETLS_SELECTOR_CERT DANETLS_MATCHING_FULL (Some bytes)
           (Z.of_nat (length bytes)) o
  = (0, dn, [SSL_R_DANE_TLSA_BAD_CERTIFICATE], snd (alloc (snd (alloc o)))).
Proof.
  intros Hl Hn Hu Hd Hk Ha1 Ha2. unfold dane_tlsa_add. rewrite Hl.
  set (n := Z.of_nat (length bytes)) in *.
  rewrite (int_of_size_t_small n Hn), (size_t_of_int_small n Hn), Z.eqb_refl.
  replace (n <? 0) with false by (symmetry; apply Z.ltb_ge; lia).
  replace (u >? DANETLS_USAGE_LAST) with false
    by (symmetry; rewrite Z.gtb_ltb; apply Z.ltb_ge; lia).
  simpl. destruct (alloc o) as [ok1 o1]. simpl in *. subst ok1.
  destruct (alloc o1) as [ok2 o2]. simpl in *. subst ok2. simpl.
  rewrite Hd, Hk. rewrite Z.eqb_refl.
  replace (n <? 0) with false by (symmetry; apply Z.ltb_ge; lia).
  reflexivity.
Qed.

(** *** The usage mask *)

Lemma usage_bit_testbit u :
  0 <= u <= DANETLS_USAGE_LAST -> Z.testbit (DANETLS_USAGE_BIT u) u = true.
Proof.
  unfold DANETLS_USAGE_LAST, DANETLS_USAGE_DANE_EE. intros H.
  assert (u = 0 \/ u = 1 \/ u = 2 \/ u = 3) as [ -> | [ -> | [ -> | -> ] ] ] by lia;
    reflexivity.
Qed.

Lemma tlsa_add_keeps_mask dctx dn u s m d n o ret dn' errs o' :
  0 <= u -> mask_covers dn ->
  tlsa_add dctx dn u s m d n o = (ret, dn', errs, o') ->
  mask_covers dn'.
Proof.
  intros Hu Hcov H.
  destruct (tlsa_add_effects _ _ _ _ _ _ _ _ _ _ _ _ H)
    as (_ & _ & _ & _ & _ & _ & _ & Hone & Hnot).
  change (submit EVP_MD_get_size d2i_X509 X509_get0_pubkey d2i_PUBKEY dctx dn
            {| sub_usage := u; sub_selector := s; sub_mtype := m;
               sub_data := d; sub_dlen := n |} o = (ret, dn', errs, o')) in H.
  apply dane_tlsa_add_spec in H.
  destruct H as [(-> & _ & l & Hl & Hl') | (Hret & Hsame)].
  - destruct (Hone eq_refl) as (Hmask & Hlast & _).
    intros l' t Hl2 Hin. rewrite Hl' in Hl2. inversion Hl2; subst l'. clear Hl2.
    rewrite Hmask, Z.lor_spec. rewrite tlsa_insert_ins in Hin.
    apply ins_In in Hin. destruct Hin as [-> | Hin].
    + simpl. rewrite usage_bit_testbit by lia. apply orb_true_r.
    + rewrite (Hcov l t Hl Hin). reflexivity.
  - intros l t Hl Hin. rewrite Hnot by (destruct Hret; lia).
    rewrite Hsame in Hl. exact (Hcov l t Hl Hin).
Qed.

(** X6.  Whatever calls are made and whatever each of them returns, the usage
    mask has the bit of the usage of every stored record. *)
Theorem usage_mask_covers_stored_records dctx xs : forall dn o,
  mask_covers dn ->
  List.Forall (fun x => 0 <= sub_usage x) xs ->
  mask_covers (fst (add_each dctx dn xs o)).
Proof.
  induction xs as [|x rest IH]; simpl; intros dn o Hcov Hxs; [exact Hcov|].
  inversion Hxs as [|? ? Hx Hrest]; subst.
  destruct (tlsa_add dctx dn (sub_usage x) (sub_selector x) (sub_mtype x)
                     (sub_data x) (sub_dlen x) o) as [[[ret dn1] e1] o1] eqn:E.
  apply IH; [|exact Hrest].
  eapply tlsa_add_keeps_mask; eassumption.
Qed.

(** *** The auxiliary certificates *)

(** X7.  A successful call with a full certificate for one of the two
    trust-anchor usages puts the decoded certificate at the end of the
    auxiliary list, which it creates when there is none; every other
    successful call leaves that list alone. *)
Theorem tlsa_add_trust_anchor_certificate dctx dn u s m d n o dn' errs o' :
  tlsa_add dctx dn u s m d n o = (1, dn', errs, o') ->
  if (m =? DANETLS_MATCHING_FULL) && (s =? DANETLS_SELECTOR_CERT) && is_ta_usage u
  then exists bytes cert,
         d = Some bytes
         /\ d2i_X509 bytes (int_of_size_t n) = Some (cert, n)
         /\ certs dn' = Some (match certs dn with Some cs => cs | None => [] end
                              ++ [cert])
  else certs dn' = certs dn.
Proof.
  unfold dane_tlsa_add, is_ta_usage. intros H.
  case_split H; try discriminate H;
    apply tlsa_add_tail_spec in H;
    (destruct H as [(_ & _ & _ & Hc) | (Hneg & _)]; [|discriminate Hneg]);
    repeat match goal with
           | E : ?b = _ |- context [?b] => rewrite E
           end; simpl; try reflexivity.
  all: match goal with
       | E : (_ <? 0) || negb (_ =? ?used) = false |- _ =>
           apply orb_false_elim in E; destruct E as [_ E];
           apply negb_false_iff, Z.eqb_eq in E; subst used
       end.
  all: eexists _, _; split; [reflexivity|]; split; [eassumption|]; reflexivity.
Qed.

(** *** Copying the records to another connection *)

(** What a successful call stored from data of the announced length
    stands. *)
Lemma stored_record_stands x bytes :
  sub_data x = Some bytes -> Z.of_nat (length bytes) = sub_dlen x ->
  stands (stored_record d2i_PUBKEY x).
Proof.
  unfold stands, stored_record, resubmit. simpl. intros -> Hlen.
  rewrite <- Hlen, Nat2Z.id, !firstn_all. reflexivity.
Qed.

Lemma map_stands l :
  List.Forall stands l ->
  map (fun t => stored_record d2i_PUBKEY (resubmit t)) l = l.
Proof.
  induction 1 as [|t l Ht _ IH]; simpl; [reflexivity|]. rewrite Ht, IH. reflexivity.
Qed.

Lemma dup_records_spec dctx recs : forall to o to' errs o' l0,
  dup_records _ _ _ EVP_MD_get_size d2i_X509 X509_get0_pubkey d2i_PUBKEY
              dctx to recs o = (1, to', errs, o') ->
  trecs to = Some l0 ->
  trecs to' = Some (fold_left (ins _ _ dctx)
                      (map (fun t => stored_record d2i_PUBKEY (resubmit t)) recs) l0)
  /\ flags to' = flags to /\ mtlsa to' = mtlsa to /\ mcert to' = mcert to
  /\ mdpth to' = mdpth to /\ pdpth to' = pdpth to.
Proof.
  induction recs as [|t rest IH]; simpl; intros to o to' errs o' l0 H Hl0.
  - inversion H; subst. auto 10.
  - destruct (tlsa_add dctx to (usage t) (selector t) (mtype t) (Some (data t))
                       (dlen t) o) as [[[ret to1] e1] o1] eqn:E.
    destruct (ret <=? 0) eqn:Hr; [discriminate H|]. apply Z.leb_gt in Hr.
    destruct (tlsa_add_effects _ _ _ _ _ _ _ _ _ _ _ _ E)
      as (Hm & Hc & Hmd & Hpd & Hf & _).
    change (submit EVP_MD_get_size d2i_X509 X509_get0_pubkey d2i_PUBKEY dctx to
              (resubmit t) o = (ret, to1, e1, o1)) in E.
    apply dane_tlsa_add_spec in E.
    destruct E as [(_ & _ & l & Hl & Hl1) | ([?|?] & _)]; try lia.
    rewrite Hl0 in Hl. inversion Hl; subst l. rewrite tlsa_insert_ins in Hl1.
    destruct (IH _ _ _ _ _ _ H Hl1) as (-> & -> & -> & -> & -> & ->).
    repeat split; congruence.
Qed.

Lemma ssl_dane_dup_spec dctx to from l o to' errs o' :
  trecs from = Some l -> l <> [] ->
  dane_dup dctx to from o = (1, to', errs, o') ->
  trecs to' = Some (fold_left (ins _ _ dctx)
                      (map (fun t => stored_record d2i_PUBKEY (resubmit t)) l) [])
  /\ flags to' = flags from /\ mtlsa to' = None /\ mcert to' = None
  /\ mdpth to' = -1 /\ pdpth to' = -1.
Proof.
  intros Hl Hne. unfold ssl_dane_dup, DANETLS_ENABLED. rewrite Hl.
  replace (0 <? length l)%nat with true by (destruct l; [congruence|reflexivity]).
  cbn [negb]. destruct (alloc o) as [ok o1]. destruct ok; cbn [negb]; [|discriminate].
  intros H. eapply dup_records_spec in H; [|reflexivity]. exact H.
Qed.

(** X8.  A copy that succeeds leaves the target with the records of the source
    and with its flags, sorted by descending key under the target's
    registry, the records of equal key in the reverse of their order in
    the source, and without any verification state. *)
Theorem dane_dup_copies_configuration dctx to from l o to' errs o' :
  trecs from = Some l -> l <> [] ->
  List.Forall stands l ->
  dane_dup dctx to from o = (1, to', errs, o') ->
  exists l',
    trecs to' = Some l'
    /\ tlsa_sorted dctx l'
    /\ Permutation l' l
    /\ (forall k, List.filter (has_key dctx k) l'
                  = rev (List.filter (has_key dctx k) l))
    /\ flags to' = flags from
    /\ mtlsa to' = None /\ mcert to' = None /\ mdpth to' = -1 /\ pdpth to' = -1.
Proof.
  intros Hl Hne Hst H.
  destruct (ssl_dane_dup_spec _ _ _ _ _ _ _ _ Hl Hne H) as (Ht & Hrest).
  rewrite (map_stands _ Hst) in Ht.
  eexists. split; [exact Ht|]. split; [|split; [|split; [|exact Hrest]]].
  - apply fold_ins_sorted. constructor.
  - rewrite fold_ins_perm, app_nil_r. reflexivity.
  - intros k. rewrite fold_ins_filter. simpl. apply app_nil_r.
Qed.

(** X9.  When the source's records are sorted under the target's registry and
    no two of them have the same key, a copy that succeeds leaves the
    target with exactly the source's record sequence. *)
Theorem dane_dup_same_sequence dctx to from l o to' errs o' :
  trecs from = Some l -> l <> [] ->
  List.Forall stands l ->
  tlsa_sorted dctx l ->
  List.NoDup (map (sort_key dctx) l) ->
  dane_dup dctx to from o = (1, to', errs, o') ->
  trecs to' = trecs from.
Proof.
  intros Hl Hne Hst Hsorted Hnd H.
  destruct (ssl_dane_dup_spec _ _ _ _ _ _ _ _ Hl Hne H) as (Ht & _).
  rewrite (map_stands _ Hst) in Ht. rewrite Ht, Hl. f_equal.
  apply (sorted_unique _ _ dctx).
  - apply fold_ins_sorted. constructor.
  - exact Hsorted.
  - intros k. symmetry. apply perm_filter_key; [|exact Hnd].
    symmetry. rewrite fold_ins_perm, app_nil_r. reflexivity.
Qed.

(** *** Enabling once *)

Variable X509_VERIFY_PARAM : Type.
Variable SSL_set_tlsext_host_name :
  option string -> string -> alloc_oracle -> bool * option string * alloc_oracle.
Variable X509_VERIFY_PARAM_set1_host :
  X509_VERIFY_PARAM -> string -> alloc_oracle ->
  bool * X509_VERIFY_PARAM * alloc_oracle.

Local Notation "'dane_enable'" :=
  (SSL_dane_enable SSL_set_tlsext_host_name X509_VERIFY_PARAM_set1_host)
  (only parsing).

(** A connection whose DANE state was worked on. *)
Definition with_dane (c : dane_conn X509 EVP_PKEY X509_VERIFY_PARAM)
    (dn : SSL_DANE X509 EVP_PKEY) : dane_conn X509 EVP_PKEY X509_VERIFY_PARAM :=
  {| dane := dn; ext_hostname := ext_hostname c; param := param c |}.

Lemma add_each_keeps_list dctx xs : forall dn o,
  is_some (trecs (fst (add_each dctx dn xs o))) = is_some (trecs dn).
Proof.
  induction xs as [|x rest IH]; simpl; intros dn o; [reflexivity|].
  destruct (tlsa_add dctx dn (sub_usage x) (sub_selector x) (sub_mtype x)
                     (sub_data x) (sub_dlen x) o) as [[[ret dn1] e1] o1] eqn:E.
  rewrite IH.
  destruct (tlsa_add_effects _ _ _ _ _ _ _ _ _ _ _ _ E)
    as (_ & _ & _ & _ & _ & _ & Hs & _).
  exact Hs.
Qed.

(** X10.  Once a connection was enabled, enabling it again is refused with
    "already enabled" and changes nothing, whatever record calls were made
    in between and whatever they returned. *)
Theorem dane_enable_only_once ctx c name o c1 errs o1 xs o2 name2 o3 :
  dane_enable ctx (Some c) name o = (1, Some c1, errs, o1) ->
  let c2 := with_dane c1 (fst (add_each ctx (dane c1) xs o2)) in
  dane_enable ctx (Some c2) name2 o3
  = (0, Some c2, [SSL_R_DANE_ALREADY_ENABLED], o3).
Proof.
  intros H c2.
  assert ((mdmax ctx =? 0) = false) as Hmax.
  { unfold SSL_dane_enable in H. destruct (mdmax ctx =? 0); [discriminate H|reflexivity]. }
  apply dane_enable_success_needs_every_step in H.
  destruct H as (_ & _ & _ & c' & Hc' & Hl & _). inversion Hc'; subst c'.
  unfold SSL_dane_enable. rewrite Hmax. subst c2. simpl.
  rewrite add_each_keeps_list, Hl. reflexivity.
Qed.

(** *** What verification matched *)

(** X11.  The call answers -1 unless the connection holds records and
    verification succeeded; otherwise it answers the depth at which the
    match was found.  It never hands out both a matched certificate and a
    bare public key, and it hands out nothing when it answers -1 for want
    of records or of a successful verification. *)
Theorem dane_authority_certificate_or_key sc r mc mk :
  SSL_get0_dane_authority sc = (r, mc, mk) ->
  (forall cert key, mc = Some (Some cert) -> mk = Some (Some key) -> False)
  /\ (forall dn v, sc = Some (dn, v) ->
        if DANETLS_ENABLED dn && (v =? X509_V_OK)
        then r = mdpth dn /\ (is_some (mtlsa dn) = false -> mc = None /\ mk = None)
        else r = -1 /\ mc = None /\ mk = None).
Proof.
  unfold SSL_get0_dane_authority. intros H. split.
  - intros cert key -> ->. case_split H; inversion H; subst; congruence.
  - intros dn v ->.
    destruct (DANETLS_ENABLED dn), (v =? X509_V_OK); simpl in *;
      try (inversion H; subst; auto; fail).
    destruct (mtlsa dn); inversion H; subst; simpl; split; auto; discriminate.
Qed.

(** *** The flags *)

(** The width of [unsigned long]. *)
Definition ULONG_BITS : Z := 64.

Definition set_flags (d : SSL_DANE X509 EVP_PKEY) (f : Z) : SSL_DANE X509 EVP_PKEY :=
  {| dctx_set := dctx_set d; trecs := trecs d; certs := certs d; mtlsa := mtlsa d;
     mcert := mcert d; umask := umask d; mdpth := mdpth d; pdpth := pdpth d;
     flags := f |}.

(** [SSL_dane_set_flags] (lines 1285-1297): the former flags, and the
    state afterwards. *)
Definition SSL_dane_set_flags (sc : option (SSL_DANE X509 EVP_PKEY)) (f : Z)
    : Z * option (SSL_DANE X509 EVP_PKEY) :=
  match sc with
  | None => (0, None)
  | Some dn => (flags dn, Some (set_flags dn (Z.lor (flags dn) f)))
  end.

(** [SSL_dane_clear_flags] (lines 1299-1311). *)
Definition SSL_dane_clear_flags (sc : option (SSL_DANE X509 EVP_PKEY)) (f : Z)
    : Z * option (SSL_DANE X509 EVP_PKEY) :=
  match sc with
  | None => (0, None)
  | Some dn =>
      (flags dn, Some (set_flags dn (Z.land (flags dn) (Z.lnot f mod 2 ^ ULONG_BITS))))
  end.

Lemma testbit_above a i :
  0 <= a < 2 ^ ULONG_BITS -> ULONG_BITS <= i -> Z.testbit a i = false.
Proof.
  intros Ha Hi. rewrite <- (Z.mod_small a (2 ^ ULONG_BITS)) by exact Ha.
  apply Z.mod_pow2_bits_high. unfold ULONG_BITS in *. lia.
Qed.

(** Setting flags and then clearing other flags: the second call returns
    the union the first one left, and afterwards a flag is set exactly when
    it was set before or set by the first call, and not cleared by the
    second; the record list and the rest of the state are untouched. *)
Theorem dane_flags_set_then_clear dn f g :
  0 <= flags dn < 2 ^ ULONG_BITS ->
  0 <= f < 2 ^ ULONG_BITS ->
  exists dn1 dn2,
    SSL_dane_set_flags (Some dn) f = (flags dn, Some dn1)
    /\ SSL_dane_clear_flags (Some dn1) g = (Z.lor (flags dn) f, Some dn2)
    /\ (forall i, 0 <= i ->
          Z.testbit (flags dn2) i
          = (Z.testbit (flags dn) i || Z.testbit f i) && negb (Z.testbit g i))
    /\ 0 <= flags dn2 < 2 ^ ULONG_BITS
    /\ trecs dn2 = trecs dn /\ umask dn2 = umask dn /\ certs dn2 = certs dn.
Proof.
  intros Hd Hf. eexists _, _. split; [reflexivity|]. split; [reflexivity|].
  simpl.
  assert (forall i, 0 <= i ->
            Z.testbit (Z.land (Z.lor (flags dn) f) (Z.lnot g mod 2 ^ ULONG_BITS)) i
            = (Z.testbit (flags dn) i || Z.testbit f i) && negb (Z.testbit g i)) as Hbits.
  { intros i Hi. rewrite Z.land_spec, Z.lor_spec.
    destruct (Z.lt_ge_cases i ULONG_BITS) as [Hlt|Hge].
    - rewrite Z.mod_pow2_bits_low by exact Hlt.
      rewrite Z.lnot_spec by exact Hi. reflexivity.
    - rewrite (testbit_above (flags dn)), (testbit_above f) by assumption.
      reflexivity. }
  split; [exact Hbits|]. split; [|auto].
  split; [apply Z.land_nonneg; left; apply Z.lor_nonneg; lia|].
  assert (0 <= Z.lnot g mod 2 ^ ULONG_BITS < 2 ^ ULONG_BITS) as Hm
    by (apply Z.mod_pos_bound; unfold ULONG_BITS; lia).
  destruct (Z.eq_dec (Z.land (Z.lor (flags dn) f) (Z.lnot g mod 2 ^ ULONG_BITS)) 0)
    as [->|Hnz]; [unfold ULONG_BITS; lia|].
  apply Z.log2_lt_pow2.
  - assert (0 <= Z.land (Z.lor (flags dn) f) (Z.lnot g mod 2 ^ ULONG_BITS))
      by (apply Z.land_nonneg; right; lia). lia.
  - eapply Z.le_lt_trans; [apply Z.log2_land; [apply Z.lor_nonneg|]; lia|].
    apply Z.min_lt_iff. right.
    destruct (Z.eq_dec (Z.lnot g mod 2 ^ ULONG_BITS) 0) as [E|E].
    + rewrite E. simpl. unfold ULONG_BITS. lia.
    + apply Z.log2_lt_pow2; lia.
Qed.

End Engine.

Arguments resubmit {EVP_PKEY}.
Arguments stands {EVP_PKEY}.
Arguments mask_covers {X509 EVP_PKEY}.
Arguments add_each {EVP_MD X509 EVP_PKEY}.
Arguments SSL_get0_dane_authority {X509 EVP_PKEY}.
Arguments with_dane {X509 EVP_PKEY X509_VERIFY_PARAM}.
Arguments set_flags {X509 EVP_PKEY}.
Arguments SSL_dane_set_flags {X509 EVP_PKEY}.
Arguments SSL_dane_clear_flags {X509 EVP_PKEY}.

(** *** The properties on the provider of [Dane] *)

Definition demo_add := dane_tlsa_add demo_md_size demo_d2i demo_pubkey demo_d2i.
Definition demo_add_each := add_each demo_md_size demo_d2i demo_pubkey demo_d2i.
Definition demo_dane_dup := ssl_dane_dup demo_md_size demo_d2i demo_pubkey demo_d2i.

(** The registry once the application disabled SHA2-256
    ([SSL_CTX_dane_mtype_set] with a null digest). *)
Definition registry_without_sha256 : dane_ctx_st nid :=
  snd (fst (fst (DaneRegistry.dane_mtype_set demo_registry None 1 0
                   (fun _ => None) (fun _ => 0) []))).

(** Two records of the same key, and two of different keys. *)
Definition demo_ties : SSL_DANE (list Z) (list Z) :=
  fst (demo_add_each demo_registry demo_enabled [rec_A; rec_B] []).
Definition demo_distinct : SSL_DANE (list Z) (list Z) :=
  fst (demo_add_each demo_registry demo_enabled [rec_C; rec_A] []).

Definition stored (dn : SSL_DANE (list Z) (list Z)) : list (danetls_record (list Z)) :=
  match trecs dn with Some l => l | None => [] end.

Ltac by_computation :=
  vm_compute; first [reflexivity | intuition discriminate].

Lemma tlsa_add_wrong_digest_length_witness :
  demo_add demo_registry demo_enabled 3 1 1 (Some (repeat 170 31)) 31 []
  = (0, demo_enabled, [SSL_R_DANE_TLSA_BAD_DIGEST_LENGTH], []).
Proof.
  apply (tlsa_add_wrong_digest_length nid (list Z) (list Z) demo_md_size demo_d2i
           demo_pubkey demo_d2i demo_registry demo_enabled [] 3 1 1 NID_sha256);
    by_computation.
Defined.

Lemma tlsa_add_unregistered_type_witness :
  tlsa_md_get demo_registry 1 = Some NID_sha256
  /\ demo_add registry_without_sha256 demo_enabled 3 1 1 (Some (repeat 170 32)) 32 []
     = (0, demo_enabled, [SSL_R_DANE_TLSA_BAD_MATCHING_TYPE], []).
Proof.
  split; [reflexivity|].
  apply (tlsa_add_unregistered_type nid (list Z) (list Z) demo_md_size demo_d2i
           demo_pubkey demo_d2i registry_without_sha256 demo_enabled [] 3 1 1);
    by_computation.
Defined.

Lemma tlsa_add_certificate_without_key_witness :
  demo_add demo_registry demo_enabled 2 0 0 (Some [48; 1; 2]) 3 []
  = (0, demo_enabled, [SSL_R_DANE_TLSA_BAD_CERTIFICATE], []).
Proof.
  apply (tlsa_add_certificate_without_key nid (list Z) (list Z) demo_md_size
           demo_d2i demo_pubkey demo_d2i demo_registry demo_enabled [] 2
           [48; 1; 2] [48; 1; 2] []);
    by_computation.
Defined.

Lemma usage_mask_covers_stored_records_witness :
  mask_covers (fst (demo_add_each demo_registry demo_enabled
                      [rec_A; rec_C; rec_B] [true; true; true; true; true; true; false]))
  /\ umask (fst (demo_add_each demo_registry demo_enabled
                   [rec_A; rec_C; rec_B] [true; true; true; true; true; true; false])) = 12.
Proof.
  split; [|reflexivity].
  apply (usage_mask_covers_stored_records nid (list Z) (list Z) demo_md_size
           demo_d2i demo_pubkey demo_d2i).
  - intros l t Hl Hin. vm_compute in Hl. inversion Hl; subst. destruct Hin.
  - repeat constructor; by_computation.
Defined.

Lemma tlsa_add_trust_anchor_certificate_witness :
  exists dn',
    demo_add demo_registry demo_enabled 2 0 0 (Some [48; 48; 1; 2]) 4 []
    = (1, dn', [], [])
    /\ certs demo_enabled = None
    /\ certs dn' = Some [[48; 48; 1; 2]]
    /\ exists bytes cert,
         Some [48; 48; 1; 2] = Some bytes
         /\ demo_d2i bytes (int_of_size_t 4) = Some (cert, 4)
         /\ certs dn' = Some (match certs demo_enabled with
                              | Some cs => cs
                              | None => []
                              end ++ [cert]).
Proof.
  eexists. split; [vm_compute; reflexivity|]. split; [reflexivity|].
  split; [reflexivity|].
  apply (tlsa_add_trust_anchor_certificate nid (list Z) (list Z) demo_md_size
           demo_d2i demo_pubkey demo_d2i demo_registry demo_enabled 2 0 0
           (Some [48; 48; 1; 2]) 4 [] _ [] []).
  vm_compute. reflexivity.
Defined.

(** The two records of equal key change places in the copy. *)
Lemma dane_dup_copies_configuration_witness :
  exists to',
    demo_dane_dup demo_registry (dane demo_conn) demo_ties [] = (1, to', [], [])
    /\ map data (stored demo_ties) = [repeat 187 32; repeat 170 32]
    /\ map data (stored to') = [repeat 170 32; repeat 187 32]
    /\ exists l',
         trecs to' = Some l'
         /\ tlsa_sorted demo_registry l'
         /\ Permutation l' (stored demo_ties)
         /\ (forall k, List.filter (has_key demo_registry k) l'
                       = rev (List.filter (has_key demo_registry k) (stored demo_ties)))
         /\ flags to' = flags demo_ties
         /\ mtlsa to' = None /\ mcert to' = None /\ mdpth to' = -1 /\ pdpth to' = -1.
Proof.
  eexists. split; [vm_compute; reflexivity|].
  split; [reflexivity|]. split; [reflexivity|].
  eapply (dane_dup_copies_configuration nid (list Z) (list Z) demo_md_size
            demo_d2i demo_pubkey demo_d2i demo_registry (dane demo_conn)
            demo_ties (stored demo_ties) []).
  - reflexivity.
  - discriminate.
  - repeat constructor.
  - vm_compute. reflexivity.
Defined.

Lemma dane_dup_same_sequence_witness :
  exists to',
    demo_dane_dup demo_registry (dane demo_conn) demo_distinct [] = (1, to', [], [])
    /\ map data (stored demo_distinct) = [repeat 170 32; repeat 204 64]
    /\ trecs to' = trecs demo_distinct.
Proof.
  eexists. split; [vm_compute; reflexivity|]. split; [reflexivity|].
  eapply (dane_dup_same_sequence nid (list Z) (list Z) demo_md_size
            demo_d2i demo_pubkey demo_d2i demo_registry (dane demo_conn)
            demo_distinct (stored demo_distinct) []).
  - reflexivity.
  - discriminate.
  - repeat constructor.
  - repeat constructor; vm_compute; left; reflexivity.
  - repeat constructor; vm_compute; intuition discriminate.
  - vm_compute. reflexivity.
Defined.

Lemma dane_enable_only_once_witness :
  exists c1,
    demo_enable demo_conn "example.com" [] = (1, Some c1, [], [])
    /\ let c2 := with_dane c1 (fst (demo_add_each demo_registry (dane c1)
                                      [rec_A; rec_C] [])) in
       demo_enable c2 "example.org" []
       = (0, Some c2, [SSL_R_DANE_ALREADY_ENABLED], []).
Proof.
  eexists. split; [vm_compute; reflexivity|].
  apply (dane_enable_only_once nid (list Z) (list Z) demo_md_size demo_d2i
           demo_pubkey demo_d2i (list string) demo_set_host_name demo_set1_host
           demo_registry demo_conn "example.com" [] _ [] []).
  vm_compute. reflexivity.
Defined.

(** A connection on which verification matched a bare-key record at depth
    0, and the same one when the match was a certificate. *)
Definition matched_key : SSL_DANE (list Z) (list Z) :=
  {| dctx_set := true;
     trecs := Some [{| usage := 2; selector := 1; mtype := 0; data := [48; 7];
                       dlen := 2; spki := Some [48; 7] |}];
     certs := None;
     mtlsa := Some {| usage := 2; selector := 1; mtype := 0; data := [48; 7];
                      dlen := 2; spki := Some [48; 7] |};
     mcert := None; umask := 4; mdpth := 0; pdpth := -1; flags := 0 |}.

Lemma dane_authority_certificate_or_key_witness :
  SSL_get0_dane_authority (Some (matched_key, 0)) = (0, Some None, Some (Some [48; 7]))
  /\ SSL_get0_dane_authority (Some (matched_key, 18)) = (-1, None, None)
  /\ (forall cert key : list Z,
        Some (@None (list Z)) = Some (Some cert) ->
        Some (Some [48; 7]) = Some (Some key) -> False).
Proof.
  split; [reflexivity|]. split; [reflexivity|].
  apply (dane_authority_certificate_or_key (list Z) (list Z)
           (Some (matched_key, 0)) 0 (Some None) (Some (Some [48; 7])) eq_refl).
Defined.

Lemma dane_flags_set_then_clear_witness :
  exists dn1 dn2,
    SSL_dane_set_flags (Some demo_enabled) 5 = (flags demo_enabled, Some dn1)
    /\ SSL_dane_clear_flags (Some dn1) 4 = (Z.lor (flags demo_enabled) 5, Some dn2)
    /\ (forall i, 0 <= i ->
          Z.testbit (flags dn2) i
          = (Z.testbit (flags demo_enabled) i || Z.testbit 5 i) && negb (Z.testbit 4 i))
    /\ 0 <= flags dn2 < 2 ^ ULONG_BITS
    /\ trecs dn2 = trecs demo_enabled /\ umask dn2 = umask demo_enabled
    /\ certs dn2 = certs demo_enabled.
Proof.
  apply (dane_flags_set_then_clear (list Z) (list Z) demo_enabled 5 4);
    by_computation.
Defined.

End DaneMore.

(** ** More about the session cache *)

Module SessionCacheMore.

Import SessionCache.

(** *** The equality predicate and the lookup *)

Lemma ssl_session_cmp_refl a : ssl_session_cmp a a = 0.
Proof. apply ssl_session_cmp_zero. auto. Qed.

Lemma ssl_session_cmp_sym a b : ssl_session_cmp a b = 0 -> ssl_session_cmp b a = 0.
Proof.
  intros H. apply ssl_session_cmp_zero in H. destruct H as (Hv & Hl & Hb).
  apply ssl_session_cmp_zero. repeat split; auto.
  intros i Hi. symmetry. apply Hb. rewrite Hl. exact Hi.
Qed.

Lemma ssl_session_cmp_trans a b c :
  ssl_session_cmp a b = 0 -> ssl_session_cmp b c = 0 -> ssl_session_cmp a c = 0.
Proof.
  intros H1 H2. apply ssl_session_cmp_zero in H1, H2.
  destruct H1 as (Hv1 & Hl1 & Hb1), H2 as (Hv2 & Hl2 & Hb2).
  apply ssl_session_cmp_zero. repeat split; try congruence.
  intros i Hi. rewrite Hb1 by exact Hi. apply Hb2. rewrite <- Hl1. exact Hi.
Qed.

(** X12.  [ssl_session_cmp] answering 0 is an equivalence on sessions, as a hash
    table needs of its comparison, and it does not look at anything but
    the protocol version and the id. *)
Theorem ssl_session_cmp_equivalence :
  (forall a, ssl_session_cmp a a = 0)
  /\ (forall a b, ssl_session_cmp a b = 0 -> ssl_session_cmp b a = 0)
  /\ (forall a b c, ssl_session_cmp a b = 0 -> ssl_session_cmp b c = 0 ->
                    ssl_session_cmp a c = 0)
  /\ (forall a ctx_len flag,
        ssl_session_cmp a {| ssl_version := ssl_version a;
                             session_id_length := session_id_length a;
                             session_id := session_id a;
                             sid_ctx_length := ctx_len;
                             not_resumable := flag |} = 0).
Proof.
  split; [exact ssl_session_cmp_refl|].
  split; [exact ssl_session_cmp_sym|].
  split; [exact ssl_session_cmp_trans|].
  intros a ctx_len flag. apply ssl_session_cmp_zero. simpl. auto.
Qed.

Lemma memcpy_byte dst src n i :
  (i < length dst)%nat ->
  byte_at (memcpy dst src n) i = if (i <? n)%nat then byte_at src i else byte_at dst i.
Proof.
  intros Hi. unfold byte_at at 1. unfold memcpy.
  set (f := fun j : nat => if (j <? n)%nat then byte_at src j else byte_at dst j).
  rewrite (nth_indep (map f (seq 0 (length dst))) 0 (f 0%nat))
    by (rewrite length_map, length_seq; exact Hi).
  rewrite (map_nth f), seq_nth by exact Hi. reflexivity.
Qed.

(** The table finds a session for a probe exactly when it stores one that
    compares equal to the probe. *)
Lemma retrieve_finds l r :
  is_some (lh_SSL_SESSION_retrieve l r) = true
  <-> exists e, In e l /\ ssl_session_cmp e r = 0.
Proof.
  unfold lh_SSL_SESSION_retrieve. split.
  - destruct (List.find _ l) as [e|] eqn:E; [|discriminate]. intros _.
    apply find_some in E. destruct E as [Hin Hp].
    apply andb_true_iff in Hp. destruct Hp as [_ Hc].
    exists e. split; [exact Hin | apply Z.eqb_eq, Hc].
  - intros (e & Hin & Hc).
    destruct (List.find _ l) as [e'|] eqn:E; [reflexivity|]. exfalso.
    pose proof (find_none _ _ E e Hin) as Hn. simpl in Hn.
    rewrite Hc in Hn. rewrite !ssl_session_hash_padded in Hn.
    rewrite !(padded_byte_eq e r _ Hc), Z.eqb_refl in Hn. discriminate Hn.
Qed.

(** X13.  With the lock taken and an id that fits the field, the lookup answers
    1 exactly when the cache holds a session of the connection's protocol
    version whose id has the given length and the given bytes, and 0
    otherwise; what the uninitialised probe held does not matter. *)
Theorem has_matching_session_id_exact c id id_len r0 env :
  read_lock_ok env = true ->
  0 <= id_len <= SSL_MAX_SSL_SESSION_ID_LENGTH ->
  Z.of_nat (length (session_id r0)) = SSL_MAX_SSL_SESSION_ID_LENGTH ->
  let r := fst (SSL_has_matching_session_id (Some c) id id_len r0 env) in
  (r = 0 \/ r = 1)
  /\ (r = 1 <->
      exists e, In e (sessions (session_ctx c))
                /\ ssl_version e = version c
                /\ session_id_length e = id_len
                /\ forall i, (i < Z.to_nat id_len)%nat ->
                             byte_at (session_id e) i = byte_at id i).
Proof.
  intros Hlock Hlen Hbuf. unfold SSL_has_matching_session_id.
  replace (id_len >? SSL_MAX_SSL_SESSION_ID_LENGTH) with false
    by (symmetry; rewrite Z.gtb_ltb; apply Z.ltb_ge; lia).
  rewrite Hlock. cbn [negb fst].
  match goal with
  | |- context [is_some (lh_SSL_SESSION_retrieve ?l ?p)] =>
      pose proof (retrieve_finds l p) as Hfind;
      destruct (is_some (lh_SSL_SESSION_retrieve l p))
  end.
  - split; [right; reflexivity|]. split; [intros _|reflexivity].
    destruct (proj1 Hfind eq_refl) as (e & Hin & Hc).
    apply ssl_session_cmp_zero in Hc. simpl in Hc. destruct Hc as (Hv & Hl & Hb).
    exists e. repeat split; auto. intros i Hi.
    rewrite Hb by (rewrite Hl; exact Hi).
    rewrite memcpy_byte by (unfold SSL_MAX_SSL_SESSION_ID_LENGTH in *; lia).
    replace (i <? Z.to_nat id_len)%nat with true
      by (symmetry; apply Nat.ltb_lt; exact Hi).
    reflexivity.
  - split; [left; reflexivity|]. split; [discriminate|].
    intros (e & Hin & Hv & Hl & Hb). exfalso.
    assert (false = true); [|discriminate]. apply Hfind.
    exists e. split; [exact Hin|]. apply ssl_session_cmp_zero. simpl.
    repeat split; auto. intros i Hi. rewrite Hl in Hi. rewrite Hb by exact Hi.
    rewrite memcpy_byte by (unfold SSL_MAX_SSL_SESSION_ID_LENGTH in *; lia).
    replace (i <? Z.to_nat id_len)%nat with true
      by (symmetry; apply Nat.ltb_lt; exact Hi).
    reflexivity.
Qed.

(** *** What [ssl_update_cache] does and does not do *)

Definition is_add (e : cache_event) : bool :=
  match e with EvAddSession _ => true | _ => false end.

Definition is_hook (e : cache_event) : bool :=
  match e with
  | EvSessionUpRef _ | EvNewSessionCb _ | EvSessionFree _ => true
  | _ => false
  end.

Definition is_flush (e : cache_event) : bool :=
  match e with EvFlush _ => true | _ => false end.

Section UpdateCache.

Variables SSL_SESS_CACHE_CLIENT SSL_SESS_CACHE_NO_AUTO_CLEAR
          SSL_SESS_CACHE_NO_INTERNAL_STORE SSL_VERIFY_PEER
          SSL_OP_NO_ANTI_REPLAY SSL_OP_NO_TICKET : Z.
Variable SSL_CTX_add_session : SSL_CTX -> SSL_SESSION -> SSL_CTX.
Variable SSL_CTX_flush_sessions_ex : SSL_CTX -> Z -> SSL_CTX.

Local Notation "'update_cache'" :=
  (ssl_update_cache SSL_SESS_CACHE_CLIENT SSL_SESS_CACHE_NO_AUTO_CLEAR
     SSL_SESS_CACHE_NO_INTERNAL_STORE SSL_VERIFY_PEER SSL_OP_NO_ANTI_REPLAY
     SSL_OP_NO_TICKET SSL_CTX_add_session SSL_CTX_flush_sessions_ex) (only parsing).
Local Notation "'new_session'" :=
  (cache_new_session SSL_SESS_CACHE_NO_INTERNAL_STORE SSL_OP_NO_ANTI_REPLAY
     SSL_OP_NO_TICKET SSL_CTX_add_session) (only parsing).
Local Notation "'lookup_after'" :=
  (lookup_after_update SSL_SESS_CACHE_CLIENT SSL_SESS_CACHE_NO_AUTO_CLEAR
     SSL_SESS_CACHE_NO_INTERNAL_STORE SSL_VERIFY_PEER SSL_OP_NO_ANTI_REPLAY
     SSL_OP_NO_TICKET SSL_CTX_add_session SSL_CTX_flush_sessions_ex) (only parsing).

Ltac case_split_goal :=
  repeat match goal with
         | |- context [match ?x with _ => _ end] => destruct x eqn:?
         end.

(** The events of a call: those of the store-and-hook part, when it is
    entered, followed by at most one sweep. *)
Lemma update_cache_events s mode env :
  exists tail,
    (tail = [] \/ tail = [EvFlush (now env)])
    /\ (snd (update_cache s mode env) = tail
        \/ snd (update_cache s mode env) = snd (new_session s env) ++ tail).
Proof.
  unfold ssl_update_cache.
  destruct ((session_id_length (session s) =? 0)
            || negb (not_resumable (session s) =? 0));
    [exists []; auto|].
  destruct (negb (server s =? 0) && (sid_ctx_length (session s) =? 0)
            && negb (Z.land (verify_mode s) SSL_VERIFY_PEER =? 0));
    [exists []; auto|].
  destruct (negb (Z.land (session_cache_mode (session_ctx s)) mode =? 0)
            && ((hit s =? 0) || is_tls13 s)).
  - destruct (new_session s env) as [c1 e1]. simpl.
    case_split_goal; simpl;
      first [ exists [EvFlush (now env)]; split; auto; fail
            | exists []; rewrite app_nil_r; auto ].
  - case_split_goal; simpl;
      first [ exists [EvFlush (now env)]; split; auto; fail
            | exists []; auto ].
Qed.

(** The store-and-hook part: at most one call of [SSL_CTX_add_session],
    then nothing, or a reference taken and the hook called, or these two
    and the reference given back. *)
Lemma new_session_events s env :
  let x := session s in
  exists store hook,
    snd (new_session s env) = store ++ hook
    /\ (store = [] \/ store = [EvAddSession x])
    /\ (hook = []
        \/ hook = [EvSessionUpRef x; EvNewSessionCb x]
        \/ hook = [EvSessionUpRef x; EvNewSessionCb x; EvSessionFree x])
    /\ (up_ref_ok env = false -> hook = []).
Proof.
  intros x. unfold cache_new_session.
  match goal with
  | |- context [if ?c then (SSL_CTX_add_session _ _, _) else _] => destruct c
  end; [exists [EvAddSession x] | exists []];
    case_split_goal; simpl; eexists;
    (split; [reflexivity|]); (split; [auto|]); (split; [auto|]);
    first [reflexivity | congruence].
Qed.

(** X14.  On a server, a session without application context is not cached when
    the client's identity is to be verified: nothing is stored, no hook is
    called, no sweep is made. *)
Theorem server_session_without_context_not_cached s mode env :
  server s <> 0 ->
  sid_ctx_length (session s) = 0 ->
  Z.land (verify_mode s) SSL_VERIFY_PEER <> 0 ->
  ssl_update_cache SSL_SESS_CACHE_CLIENT SSL_SESS_CACHE_NO_AUTO_CLEAR
    SSL_SESS_CACHE_NO_INTERNAL_STORE SSL_VERIFY_PEER SSL_OP_NO_ANTI_REPLAY
    SSL_OP_NO_TICKET SSL_CTX_add_session SSL_CTX_flush_sessions_ex s mode env
  = (session_ctx s, []).
Proof.
  intros Hsrv Hctx Hver. unfold ssl_update_cache.
  destruct ((session_id_length (session s) =? 0)
            || negb (not_resumable (session s) =? 0)); [reflexivity|].
  rewrite Hctx.
  destruct (Z.eqb_spec (server s) 0); [contradiction|].
  destruct (Z.eqb_spec (Z.land (verify_mode s) SSL_VERIFY_PEER) 0); [contradiction|].
  reflexivity.
Qed.

(** X15.  The new-session hook is never called without a reference taken on the
    session just before, never more than once a call, and when a
    reference is given back it is right after the hook was called; when
    the reference cannot be taken the hook is not called at all. *)
Theorem hook_called_holding_a_reference s mode env :
  let x := session s in
  let hook := List.filter is_hook (snd (update_cache s mode env)) in
  (hook = []
   \/ hook = [EvSessionUpRef x; EvNewSessionCb x]
   \/ hook = [EvSessionUpRef x; EvNewSessionCb x; EvSessionFree x])
  /\ (up_ref_ok env = false -> hook = []).
Proof.
  intros x hook. subst hook.
  destruct (update_cache_events s mode env) as (tail & Htail & [E|E]); rewrite E.
  - destruct Htail as [->| ->]; simpl; auto.
  - destruct (new_session_events s env) as (store & hk & Hs & Hstore & Hhk & Hup).
    rewrite Hs, !List.filter_app.
    replace (List.filter is_hook store) with (@nil cache_event)
      by (destruct Hstore as [->| ->]; reflexivity).
    replace (List.filter is_hook tail) with (@nil cache_event)
      by (destruct Htail as [->| ->]; reflexivity).
    rewrite app_nil_r. simpl.
    replace (List.filter is_hook hk) with hk
      by (destruct Hhk as [->|[->| ->]]; reflexivity).
    split; [exact Hhk | exact Hup].
Qed.

(** X16.  On a TLS 1.3 server that neither does early data with replay
    protection, nor has a remove-session hook, nor has tickets switched
    off, the session is never put in the internal cache. *)
Theorem tls13_server_session_not_stored s mode env :
  is_tls13 s = true ->
  server s <> 0 ->
  max_early_data s <= 0 \/ Z.land (options s) SSL_OP_NO_ANTI_REPLAY <> 0 ->
  remove_session_cb (session_ctx s) = false ->
  Z.land (options s) SSL_OP_NO_TICKET = 0 ->
  List.filter is_add (snd (update_cache s mode env)) = [].
Proof.
  intros H13 Hsrv Hearly Hrm Htick.
  assert (List.filter is_add (snd (new_session s env)) = []) as Hnew.
  { unfold cache_new_session. rewrite H13, Hrm, Htick.
    destruct (Z.eqb_spec (server s) 0); [contradiction|].
    replace ((max_early_data s >? 0)
             && (Z.land (options s) SSL_OP_NO_ANTI_REPLAY =? 0)) with false.
    2:{ symmetry. destruct Hearly as [H|H].
        - replace (max_early_data s >? 0) with false
            by (symmetry; rewrite Z.gtb_ltb; apply Z.ltb_ge; lia).
          reflexivity.
        - destruct (Z.eqb_spec (Z.land (options s) SSL_OP_NO_ANTI_REPLAY) 0);
            [contradiction|]. apply andb_false_r. }
    simpl. rewrite andb_false_r. case_split_goal; reflexivity. }
  destruct (update_cache_events s mode env) as (tail & Htail & [E|E]); rewrite E.
  - destruct Htail as [->| ->]; reflexivity.
  - rewrite List.filter_app, Hnew. destruct Htail as [->| ->]; reflexivity.
Qed.

(** X17.  A resumed session of a connection below TLS 1.3 is neither stored
    again nor announced to the hook: all the call may do is sweep. *)
Theorem resumed_session_not_stored_again s mode env :
  hit s <> 0 ->
  is_tls13 s = false ->
  let r := ssl_update_cache SSL_SESS_CACHE_CLIENT SSL_SESS_CACHE_NO_AUTO_CLEAR
             SSL_SESS_CACHE_NO_INTERNAL_STORE SSL_VERIFY_PEER SSL_OP_NO_ANTI_REPLAY
             SSL_OP_NO_TICKET SSL_CTX_add_session SSL_CTX_flush_sessions_ex s mode env in
  snd r = [] \/ snd r = [EvFlush (now env)].
Proof.
  intros Hhit H13. unfold ssl_update_cache. rewrite H13.
  destruct (Z.eqb_spec (hit s) 0); [contradiction|].
  rewrite andb_false_r. case_split_goal; simpl; auto.
Qed.

(** X18.  No sweep is made when auto-clear is switched off, when the cache mode
    lacks part of the mode asked for, or when the counter cannot be read. *)
Theorem no_sweep_without_auto_clear s mode env :
  Z.land (session_cache_mode (session_ctx s)) SSL_SESS_CACHE_NO_AUTO_CLEAR <> 0
  \/ Z.land (session_cache_mode (session_ctx s)) mode <> mode
  \/ tsan_lock_ok env = false ->
  List.filter is_flush (snd (update_cache s mode env)) = [].
Proof.
  intros H.
  pose proof (cache_new_session_no_sweep SSL_SESS_CACHE_NO_INTERNAL_STORE
                SSL_OP_NO_ANTI_REPLAY SSL_OP_NO_TICKET SSL_CTX_add_session s env)
    as Hns.
  unfold ssl_update_cache.
  destruct ((session_id_length (session s) =? 0)
            || negb (not_resumable (session s) =? 0)); [reflexivity|].
  destruct (negb (server s =? 0) && (sid_ctx_length (session s) =? 0)
            && negb (Z.land (verify_mode s) SSL_VERIFY_PEER =? 0)); [reflexivity|].
  assert ((Z.land (session_cache_mode (session_ctx s)) SSL_SESS_CACHE_NO_AUTO_CLEAR =? 0)
          && (Z.land (session_cache_mode (session_ctx s)) mode =? mode) = false
          \/ tsan_lock_ok env = false) as Hoff.
  { destruct H as [H|[H|H]]; [left|left|right; exact H].
    - destruct (Z.eqb_spec (Z.land (session_cache_mode (session_ctx s))
                                   SSL_SESS_CACHE_NO_AUTO_CLEAR) 0);
        [contradiction|reflexivity].
    - destruct (Z.eqb_spec (Z.land (session_cache_mode (session_ctx s)) mode) mode);
        [contradiction|apply andb_false_r]. }
  destruct (negb (Z.land (session_cache_mode (session_ctx s)) mode =? 0)
            && ((hit s =? 0) || is_tls13 s));
    [destruct (new_session s env) as [c1 e1]; simpl in Hns|];
    (destruct Hoff as [->|Hoff];
     [simpl; auto
     | unfold ssl_tsan_load; rewrite Hoff; simpl;
       destruct ((Z.land (session_cache_mode (session_ctx s))
                          SSL_SESS_CACHE_NO_AUTO_CLEAR =? 0)
                 && (Z.land (session_cache_mode (session_ctx s)) mode =? mode));
       simpl; auto]).
Qed.

(** X19.  A fresh, cacheable session of a connection below TLS 1.3 is found by
    its own id right after the call, provided the internal store is on,
    part of the mode asked for is in the cache mode, auto-clear is off,
    and [SSL_CTX_add_session] leaves the cache with a session equal to the
    one it is given. *)
Theorem cached_session_is_found s mode env r0 :
  (forall c x, exists e, In e (sessions (SSL_CTX_add_session c x))
                         /\ ssl_session_cmp e x = 0) ->
  0 < session_id_length (session s) <= SSL_MAX_SSL_SESSION_ID_LENGTH ->
  not_resumable (session s) = 0 ->
  server s = 0 \/ sid_ctx_length (session s) <> 0
    \/ Z.land (verify_mode s) SSL_VERIFY_PEER = 0 ->
  Z.land (session_cache_mode (session_ctx s)) mode <> 0 ->
  Z.land (session_cache_mode (session_ctx s)) SSL_SESS_CACHE_NO_INTERNAL_STORE = 0 ->
  Z.land (session_cache_mode (session_ctx s)) SSL_SESS_CACHE_NO_AUTO_CLEAR <> 0 ->
  hit s = 0 ->
  is_tls13 s = false ->
  ssl_version (session s) = version s ->
  read_lock_ok env = true ->
  Z.of_nat (length (session_id r0)) = SSL_MAX_SSL_SESSION_ID_LENGTH ->
  lookup_after s mode (session_id (session s)) (session_id_length (session s)) r0 env
  = 1.
Proof.
  intros Hadd Hlen Hres Hctx Hmode Hstore Hauto Hhit H13 Hver Hlock Hbuf.
  unfold lookup_after_update, SSL_has_matching_session_id.
  replace (session_id_length (session s) >? SSL_MAX_SSL_SESSION_ID_LENGTH) with false
    by (symmetry; rewrite Z.gtb_ltb; apply Z.ltb_ge; lia).
  rewrite Hlock. cbn [negb fst].
  match goal with
  | |- (if is_some (lh_SSL_SESSION_retrieve ?l ?p) then _ else _) = _ =>
      replace (is_some (lh_SSL_SESSION_retrieve l p)) with true; [reflexivity|];
      symmetry; apply retrieve_finds
  end.
  assert (exists e, In e (sessions (fst (update_cache s mode env)))
                    /\ ssl_session_cmp e (session s) = 0) as (e & Hin & Hcmp).
  { unfold ssl_update_cache, cache_new_session.
    destruct (Z.eqb_spec (session_id_length (session s)) 0); [lia|].
    rewrite Hres. cbn [Z.eqb negb orb].
    replace (negb (server s =? 0) && (sid_ctx_length (session s) =? 0)
             && negb (Z.land (verify_mode s) SSL_VERIFY_PEER =? 0)) with false.
    2:{ symmetry. destruct Hctx as [H|[H|H]].
        - rewrite H. reflexivity.
        - destruct (Z.eqb_spec (sid_ctx_length (session s)) 0); [contradiction|].
          rewrite andb_false_r. reflexivity.
        - rewrite H. simpl. rewrite andb_false_r. reflexivity. }
    destruct (Z.eqb_spec (Z.land (session_cache_mode (session_ctx s)) mode) 0);
      [contradiction|].
    destruct (Z.eqb_spec (Z.land (session_cache_mode (session_ctx s))
                                 SSL_SESS_CACHE_NO_AUTO_CLEAR) 0); [contradiction|].
    rewrite Hhit, Hstore, H13. simpl.
    repeat match goal with
           | |- context [match new_session_cb ?c with _ => _ end] =>
               destruct (new_session_cb c)
           | |- context [if up_ref_ok env then _ else _] => destruct (up_ref_ok env)
           | |- context [if ?f (session s) =? 0 then _ else _] =>
               destruct (f (session s) =? 0)
           end; simpl; apply Hadd. }
  exists e. split; [exact Hin|].
  apply (ssl_session_cmp_trans e (session s)); [exact Hcmp|].
  apply ssl_session_cmp_zero. simpl. repeat split; auto.
    intros i Hi.
    rewrite memcpy_byte by (unfold SSL_MAX_SSL_SESSION_ID_LENGTH in *; lia).
    replace (i <? Z.to_nat (session_id_length (session s)))%nat with true
      by (symmetry; apply Nat.ltb_lt; exact Hi).
    reflexivity.
Qed.

End UpdateCache.

(** *** On the factory of the examples *)

Ltac by_computation :=
  vm_compute; first [reflexivity | intuition discriminate].

(** A session without application context, a server that verifies its
    clients, a TLS 1.3 server whose factory has a new-session hook that
    keeps what it is given, a resuming server, and a server whose factory
    has auto-clear switched off. *)
Definition demo_session_no_ctx : SSL_SESSION :=
  {| ssl_version := 771; session_id_length := 32; session_id := repeat 7 32;
     sid_ctx_length := 0; not_resumable := 0 |}.

Definition demo_verifying_server : SSL_CONNECTION :=
  {| version := 771; server := 1; session := demo_session_no_ctx; hit := 0;
     verify_mode := 1; max_early_data := 0; options := 0; is_tls13 := false;
     session_ctx := demo_ctx [] 255 |}.

Definition demo_hook_ctx : SSL_CTX :=
  {| session_cache_mode := 2; sessions := []; remove_session_cb := false;
     new_session_cb := Some (fun _ => 1); sess_connect_good := 0;
     sess_accept_good := 0 |}.

Definition demo_tls13_server : SSL_CONNECTION :=
  {| version := 772; server := 1; session := demo_session; hit := 0;
     verify_mode := 0; max_early_data := 0; options := 0; is_tls13 := true;
     session_ctx := demo_hook_ctx |}.

Definition demo_resuming_server : SSL_CONNECTION :=
  {| version := 771; server := 1; session := demo_session; hit := 1;
     verify_mode := 0; max_early_data := 0; options := 0; is_tls13 := false;
     session_ctx := demo_ctx [] 255 |}.

Definition demo_ctx_no_auto_clear (good : Z) : SSL_CTX :=
  {| session_cache_mode := 130; sessions := []; remove_session_cb := false;
     new_session_cb := None; sess_connect_good := 0; sess_accept_good := good |}.

Lemma demo_add_session_stores c x :
  exists e, In e (sessions (demo_add_session c x)) /\ ssl_session_cmp e x = 0.
Proof.
  unfold demo_add_session.
  destruct (is_some (lh_SSL_SESSION_retrieve (sessions c) x)) eqn:E.
  - apply retrieve_finds, E.
  - exists x. split; [left; reflexivity | apply ssl_session_cmp_refl].
Qed.

Lemma has_matching_session_id_exact_witness :
  fst (SSL_has_matching_session_id
         (Some (demo_server demo_session (demo_ctx [demo_session] 0)))
         (repeat 7 32) 32 demo_session_no_id demo_env) = 1
  /\ exists e, In e [demo_session]
               /\ ssl_version e = 771 /\ session_id_length e = 32
               /\ forall i, (i < Z.to_nat 32)%nat ->
                            byte_at (session_id e) i = byte_at (repeat 7 32) i.
Proof.
  split; [reflexivity|].
  apply (has_matching_session_id_exact
           (demo_server demo_session (demo_ctx [demo_session] 0))
           (repeat 7 32) 32 demo_session_no_id demo_env);
    by_computation.
Defined.

Lemma server_session_without_context_not_cached_witness :
  demo_update_cache demo_verifying_server 2 demo_env = (demo_ctx [] 255, []).
Proof.
  apply (server_session_without_context_not_cached 1 128 512 1 (2 ^ 24) (2 ^ 14)
           demo_add_session demo_flush demo_verifying_server 2 demo_env);
    by_computation.
Defined.

(** The TLS 1.3 server announces the session to the hook and stores
    nothing. *)
Lemma tls13_server_session_not_stored_witness :
  snd (demo_update_cache demo_tls13_server 2 demo_env)
  = [EvSessionUpRef demo_session; EvNewSessionCb demo_session]
  /\ List.filter is_add (snd (demo_update_cache demo_tls13_server 2 demo_env)) = [].
Proof.
  split; [reflexivity|].
  apply (tls13_server_session_not_stored 1 128 512 1 (2 ^ 24) (2 ^ 14)
           demo_add_session demo_flush demo_tls13_server 2 demo_env);
    first [left; by_computation | by_computation].
Defined.

Lemma resumed_session_not_stored_again_witness :
  snd (demo_update_cache demo_resuming_server 2 demo_env) = []
  \/ snd (demo_update_cache demo_resuming_server 2 demo_env) = [EvFlush (now demo_env)].
Proof.
  apply (resumed_session_not_stored_again 1 128 512 1 (2 ^ 24) (2 ^ 14)
           demo_add_session demo_flush demo_resuming_server 2 demo_env);
    by_computation.
Defined.

Lemma no_sweep_without_auto_clear_witness :
  snd (demo_update_cache (demo_server demo_session (demo_ctx [] 255)) 2 demo_env)
  = [EvAddSession demo_session; EvFlush 1000]
  /\ List.filter is_flush
       (snd (demo_update_cache (demo_server demo_session (demo_ctx_no_auto_clear 255))
                               2 demo_env)) = [].
Proof.
  split; [reflexivity|].
  apply (no_sweep_without_auto_clear 1 128 512 1 (2 ^ 24) (2 ^ 14)
           demo_add_session demo_flush
           (demo_server demo_session (demo_ctx_no_auto_clear 255)) 2 demo_env).
  left. by_computation.
Defined.

Lemma cached_session_is_found_witness :
  fst (SSL_has_matching_session_id
         (Some (demo_server demo_session (demo_ctx_no_auto_clear 0)))
         (repeat 7 32) 32 demo_session_no_id demo_env) = 0
  /\ demo_lookup_after_update (demo_server demo_session (demo_ctx_no_auto_clear 0)) 2
                              (repeat 7 32) 32 demo_session_no_id demo_env = 1.
Proof.
  split; [reflexivity|].
  apply (cached_session_is_found 1 128 512 1 (2 ^ 24) (2 ^ 14)
           demo_add_session demo_flush
           (demo_server demo_session (demo_ctx_no_auto_clear 0)) 2 demo_env
           demo_session_no_id);
    first [exact demo_add_session_stores | left; by_computation | by_computation].
Defined.

End SessionCacheMore.

(** ** More about reading early data *)

Module EarlyDataMore.

Import EarlyData.

Section Read.

Variable handshake_state : Type.
Variable SSL_EARLY_DATA_ACCEPTED : Z.
Variable SSL_in_before : SSL_CONNECTION handshake_state -> bool.
Variable SSL_accept :
  SSL_CONNECTION handshake_state -> Z * SSL_CONNECTION handshake_state.
Variable SSL_read_ex :
  SSL_CONNECTION handshake_state -> Z -> Z -> Z * Z * SSL_CONNECTION handshake_state.

Local Notation "'read_early_data'" :=
  (SSL_read_early_data SSL_EARLY_DATA_ACCEPTED SSL_in_before SSL_accept SSL_read_ex)
  (only parsing).

Ltac case_split H :=
  repeat match type of H with
         | context [match ?x with _ => _ end] => destruct x eqn:?
         end.

Lemma finished_of_test ret (st : early_data_state_t) :
  (ret >? 0)
  || ((ret <=? 0)
      && negb (match st with
               | SSL_EARLY_DATA_FINISHED_READING => true
               | _ => false
               end)) = false ->
  st = SSL_EARLY_DATA_FINISHED_READING.
Proof.
  destruct (Z.gtb_spec ret 0), (Z.leb_spec ret 0); simpl; try lia;
    destruct st; simpl; intros Htest; try discriminate Htest; reflexivity.
Qed.

(** X20.  What the result says about the state the call leaves.  "Finish" goes
    with the state "finished reading" and a byte count of 0; "success"
    with "read retry"; an error either was raised as "should not have been
    called", with connection and byte count untouched, or is a handshake
    or read that has to be retried, with the state "accept retry" or "read
    retry". *)
Theorem read_early_data_result_and_state c num rb res c' rb' errs :
  SSL_read_early_data SSL_EARLY_DATA_ACCEPTED SSL_in_before SSL_accept SSL_read_ex
                      (Some c) num rb = (res, Some c', rb', errs) ->
  match res with
  | SSL_READ_EARLY_DATA_FINISH =>
      early_data_state c' = SSL_EARLY_DATA_FINISHED_READING /\ rb' = 0 /\ errs = []
  | SSL_READ_EARLY_DATA_SUCCESS =>
      early_data_state c' = SSL_EARLY_DATA_READ_RETRY /\ errs = []
  | SSL_READ_EARLY_DATA_ERROR =>
      (errs = [ERR_R_SHOULD_NOT_HAVE_BEEN_CALLED] /\ c' = c /\ rb' = rb)
      \/ (errs = []
          /\ (early_data_state c' = SSL_EARLY_DATA_ACCEPT_RETRY
              \/ early_data_state c' = SSL_EARLY_DATA_READ_RETRY))
  end.
Proof.
  unfold SSL_read_early_data, accept_retry, read_retry. intros H.
  case_split H; inversion H; subst; clear H; simpl; auto;
    try (simpl in *; discriminate);
    (split; [eapply finished_of_test; eassumption | auto]).
Qed.

(** X21.  Once the call answered "finish", every further call is refused as
    "should not have been called" and changes nothing. *)
Theorem read_early_data_finish_is_final c num rb c' rb' errs num2 rb2 :
  SSL_read_early_data SSL_EARLY_DATA_ACCEPTED SSL_in_before SSL_accept SSL_read_ex
                      (Some c) num rb
  = (SSL_READ_EARLY_DATA_FINISH, Some c', rb', errs) ->
  SSL_read_early_data SSL_EARLY_DATA_ACCEPTED SSL_in_before SSL_accept SSL_read_ex
                      (Some c') num2 rb2
  = (SSL_READ_EARLY_DATA_ERROR, Some c', rb2, [ERR_R_SHOULD_NOT_HAVE_BEEN_CALLED]).
Proof.
  intros H.
  assert (early_data_state c' = SSL_EARLY_DATA_FINISHED_READING) as Hst.
  { revert H. unfold SSL_read_early_data, accept_retry, read_retry. intros H.
    case_split H; inversion H; subst; clear H; simpl; auto;
      try (simpl in *; discriminate);
      (eapply finished_of_test; eassumption). }
  unfold SSL_read_early_data. rewrite Hst.
  destruct (server c' =? 0); reflexivity.
Qed.

End Read.

(** *** On the handshake layer of the examples *)

Definition demo_server (st : early_data_state_t) (ext : Z) : SSL_CONNECTION unit :=
  {| server := 1; early_data_state := st; ext_early_data := ext; hs := tt |}.

(** The client offered no early data: the first call finishes at once. *)
Lemma read_early_data_result_and_state_witness :
  demo_read_early_data (Some (demo_server SSL_EARLY_DATA_NONE 0)) 16 5
  = (SSL_READ_EARLY_DATA_FINISH,
     Some (demo_server SSL_EARLY_DATA_FINISHED_READING 0), 0, [])
  /\ early_data_state (demo_server SSL_EARLY_DATA_FINISHED_READING 0)
     = SSL_EARLY_DATA_FINISHED_READING
  /\ 0 = 0 /\ @nil reason = [].
Proof.
  split; [reflexivity|].
  apply (read_early_data_result_and_state unit 2 (fun _ => true)
           (fun c : SSL_CONNECTION unit => (1, c)) (fun c num _ => (1, num, c))
           (demo_server SSL_EARLY_DATA_NONE 0) 16 5 SSL_READ_EARLY_DATA_FINISH
           (demo_server SSL_EARLY_DATA_FINISHED_READING 0) 0 []).
  reflexivity.
Defined.

Lemma read_early_data_finish_is_final_witness :
  demo_read_early_data (Some (demo_server SSL_EARLY_DATA_FINISHED_READING 0)) 8 7
  = (SSL_READ_EARLY_DATA_ERROR,
     Some (demo_server SSL_EARLY_DATA_FINISHED_READING 0), 7,
     [ERR_R_SHOULD_NOT_HAVE_BEEN_CALLED]).
Proof.
  apply (read_early_data_finish_is_final unit 2 (fun _ => true)
           (fun c : SSL_CONNECTION unit => (1, c)) (fun c num _ => (1, num, c))
           (demo_server SSL_EARLY_DATA_NONE 0) 16 5
           (demo_server SSL_EARLY_DATA_FINISHED_READING 0) 0 [] 8 7).
  reflexivity.
Defined.

End EarlyDataMore.

(** ** Early data: the write entry point *)

Module EarlyDataWrite.

Import EarlyData.

Section Write.

Variable handshake_state : Type.

(** The fields of the connection the entry point reads or writes.
    [session_max_early_data] is [None] when the connection has no
    session. *)
Record SSL_CONNECTION : Type := {
  server : Z;
  early_data_state : early_data_state_t;
  mode : Z;
  session_max_early_data : option Z;
  psk_use_session_cb : bool;
  hs : handshake_state
}.

Definition set_state (c : SSL_CONNECTION) (st : early_data_state_t) : SSL_CONNECTION :=
  {| server := server c; early_data_state := st; mode := mode c;
     session_max_early_data := session_max_early_data c;
     psk_use_session_cb := psk_use_session_cb c; hs := hs c |}.

Definition set_mode (c : SSL_CONNECTION) (m : Z) : SSL_CONNECTION :=
  {| server := server c; early_data_state := early_data_state c; mode := m;
     session_max_early_data := session_max_early_data c;
     psk_use_session_cb := psk_use_session_cb c; hs := hs c |}.

(** The mode bit, from the public header. *)
Variable SSL_MODE_ENABLE_PARTIAL_WRITE : Z.
(** [SSL_in_before]. *)
Variable SSL_in_before : SSL_CONNECTION -> bool.
(** [SSL_connect]: its return value and the connection it leaves. *)
Variable SSL_connect : SSL_CONNECTION -> Z * SSL_CONNECTION.
(** [SSL_write_ex(s, buf, num, written)]: its return value, what
    [*written] holds afterwards, and the connection it leaves. *)
Variable SSL_write_ex : SSL_CONNECTION -> Z -> Z -> Z * Z * SSL_CONNECTION.
(** [statem_flush] and [BIO_flush(sc->wbio)]. *)
Variable statem_flush : SSL_CONNECTION -> Z * SSL_CONNECTION.
Variable BIO_flush : SSL_CONNECTION -> SSL_CONNECTION.

(** The returned [int], the connection afterwards, the content of
    [*written] afterwards and the reasons raised. *)
Definition write_outcome : Type :=
  (Z * option SSL_CONNECTION * Z * list reason)%type.

(** The case [SSL_EARLY_DATA_WRITE_FLUSH] (lines 2764-2770). *)
Definition write_flush (c : SSL_CONNECTION) (num w : Z) : write_outcome :=
  let (r, c1) := statem_flush c in
  if negb (r =? 1) then (0, Some c1, w, [])
  else (1, Some (set_state c1 SSL_EARLY_DATA_WRITE_RETRY), num, []).

(** The connection [SSL_write_ex] is handed at line 2755: the state is
    "writing" and partial writes are switched off. *)
Definition writing_connection (c : SSL_CONNECTION) : SSL_CONNECTION :=
  let c0 := set_state c SSL_EARLY_DATA_WRITING in
  set_mode c0 (Z.land (mode c0) (Z.lnot SSL_MODE_ENABLE_PARTIAL_WRITE mod 2 ^ 32)).

(** The case [SSL_EARLY_DATA_WRITE_RETRY] and what falls through to it
    (lines 2746-2762); [wt] is the content of the uninitialised
    [writtmp]. *)
Definition write_retry (c : SSL_CONNECTION) (num w wt : Z) : write_outcome :=
  let partialwrite := Z.land (mode c) SSL_MODE_ENABLE_PARTIAL_WRITE in
  let '(ret, _, c2) := SSL_write_ex (writing_connection c) num wt in
  let c3 := set_mode c2 (Z.lor (mode c2) partialwrite) in
  if ret =? 0 then (ret, Some (set_state c3 SSL_EARLY_DATA_WRITE_RETRY), w, [])
  else write_flush (set_state c3 SSL_EARLY_DATA_WRITE_FLUSH) num w.

(** The case [SSL_EARLY_DATA_CONNECT_RETRY] and what falls through to it
    (lines 2736-2744). *)
Definition connect_retry (c : SSL_CONNECTION) (num w wt : Z) : write_outcome :=
  let (ret, c1) := SSL_connect (set_state c SSL_EARLY_DATA_CONNECTING) in
  if ret <=? 0 then (0, Some (set_state c1 SSL_EARLY_DATA_CONNECT_RETRY), w, [])
  else write_retry c1 num w wt.

(** The cases [SSL_EARLY_DATA_FINISHED_READING] and
    [SSL_EARLY_DATA_READ_RETRY] (lines 2772-2782). *)
Definition unauth_write (c : SSL_CONNECTION) (num w : Z) : write_outcome :=
  let st := early_data_state c in
  let '(ret, w', c1) := SSL_write_ex (set_state c SSL_EARLY_DATA_UNAUTH_WRITING) num w in
  let c2 := if negb (ret =? 0) then BIO_flush c1 else c1 in
  (ret, Some (set_state c2 st), w', []).

(** The test of lines 2727-2730. *)
Definition cannot_start (c : SSL_CONNECTION) : bool :=
  negb (server c =? 0)
  || negb (SSL_in_before c)
  || ((match session_max_early_data c with
       | None => true
       | Some m => m =? 0
       end)
      && negb (psk_use_session_cb c)).

(** [SSL_write_early_data] (lines 2714-2788).  [s] is [None] when the
    handle is not backed by a TLS connection; [w] is what [*written] held
    before the call. *)
Definition SSL_write_early_data (s : option SSL_CONNECTION) (num w wt : Z)
    : write_outcome :=
  match s with
  | None => (0, None, w, [])
  | Some c =>
      match early_data_state c with
      | SSL_EARLY_DATA_NONE =>
          if cannot_start c
          then (0, Some c, w, [ERR_R_SHOULD_NOT_HAVE_BEEN_CALLED])
          else connect_retry c num w wt
      | SSL_EARLY_DATA_CONNECT_RETRY => connect_retry c num w wt
      | SSL_EARLY_DATA_WRITE_RETRY => write_retry c num w wt
      | SSL_EARLY_DATA_WRITE_FLUSH => write_flush c num w
      | SSL_EARLY_DATA_FINISHED_READING
      | SSL_EARLY_DATA_READ_RETRY => unauth_write c num w
      | _ => (0, Some c, w, [ERR_R_SHOULD_NOT_HAVE_BEEN_CALLED])
      end
  end.

(** The states from which the call writes as a client. *)
Definition client_side (st : early_data_state_t) : bool :=
  match st with
  | SSL_EARLY_DATA_NONE | SSL_EARLY_DATA_CONNECT_RETRY
  | SSL_EARLY_DATA_WRITE_RETRY | SSL_EARLY_DATA_WRITE_FLUSH => true
  | _ => false
  end.

(** The states from which the call writes as a server to a client that is
    not yet authenticated. *)
Definition server_side (st : early_data_state_t) : bool :=
  match st with
  | SSL_EARLY_DATA_FINISHED_READING | SSL_EARLY_DATA_READ_RETRY => true
  | _ => false
  end.

Ltac case_split H :=
  repeat match type of H with
         | context [match ?x with _ => _ end] => destruct x eqn:?
         end.

(** *** The mode word *)

Lemma testbit_above_32 m i : 0 <= m < 2 ^ 32 -> 32 <= i -> Z.testbit m i = false.
Proof.
  intros Hm Hi. rewrite <- (Z.mod_small m (2 ^ 32)) by exact Hm.
  apply Z.mod_pow2_bits_high. lia.
Qed.

Lemma partial_write_off m f :
  Z.land (Z.land m (Z.lnot f mod 2 ^ 32)) f = 0.
Proof.
  apply Z.bits_inj'. intros i Hi. rewrite Z.bits_0, !Z.land_spec.
  destruct (Z.lt_ge_cases i 32) as [Hlt|Hge].
  - rewrite Z.mod_pow2_bits_low by exact Hlt. rewrite Z.lnot_spec by exact Hi.
    destruct (Z.testbit m i), (Z.testbit f i); reflexivity.
  - rewrite Z.mod_pow2_bits_high by lia. rewrite andb_false_r. reflexivity.
Qed.

Lemma partial_write_back m f :
  0 <= m < 2 ^ 32 ->
  Z.lor (Z.land m (Z.lnot f mod 2 ^ 32)) (Z.land m f) = m.
Proof.
  intros Hm. apply Z.bits_inj'. intros i Hi. rewrite Z.lor_spec, !Z.land_spec.
  destruct (Z.lt_ge_cases i 32) as [Hlt|Hge].
  - rewrite Z.mod_pow2_bits_low by exact Hlt. rewrite Z.lnot_spec by exact Hi.
    destruct (Z.testbit m i), (Z.testbit f i); reflexivity.
  - rewrite (testbit_above_32 m i Hm Hge). reflexivity.
Qed.

(** X22.  The connection handed to [SSL_write_ex] on the client side has
    partial writes switched off; and when the collaborators leave the mode
    word alone, the call leaves it as it found it, the partial-write bit
    included, whichever way it returns. *)
Theorem early_write_restores_mode c num w wt ret c' w' errs :
  (forall x, mode (snd (SSL_connect x)) = mode x) ->
  (forall x n v, mode (snd (SSL_write_ex x n v)) = mode x) ->
  (forall x, mode (snd (statem_flush x)) = mode x) ->
  (forall x, mode (BIO_flush x) = mode x) ->
  0 <= mode c < 2 ^ 32 ->
  SSL_write_early_data (Some c) num w wt = (ret, Some c', w', errs) ->
  Z.land (mode (writing_connection c)) SSL_MODE_ENABLE_PARTIAL_WRITE = 0
  /\ mode c' = mode c.
Proof.
  intros Hconn Hwrite Hflush Hbio Hm H.
  split; [apply partial_write_off|].
  assert (forall x n v r y z,
            0 <= mode x < 2 ^ 32 ->
            write_flush x n v = (r, Some y, z, errs) -> mode y = mode x) as Hwf.
  { intros x n v r y z _ E. unfold write_flush in E.
    pose proof (Hflush x) as Hx. destruct (statem_flush x) as [r1 x1].
    simpl in Hx. case_split E; inversion E; subst; simpl; exact Hx. }
  assert (forall x n v t r y z,
            0 <= mode x < 2 ^ 32 ->
            write_retry x n v t = (r, Some y, z, errs) -> mode y = mode x) as Hwr.
  { intros x n v t r y z Hx E. unfold write_retry in E.
    pose proof (Hwrite (writing_connection x) n t) as Hw.
    destruct (SSL_write_ex (writing_connection x) n t) as [[r1 v1] x1].
    simpl in Hw.
    assert (Z.lor (mode x1) (Z.land (mode x) SSL_MODE_ENABLE_PARTIAL_WRITE) = mode x)
      as Hback by (rewrite Hw; apply partial_write_back; exact Hx).
    destruct (r1 =? 0).
    - inversion E; subst; simpl. exact Hback.
    - apply Hwf in E; [|simpl; rewrite Hback; exact Hx].
      rewrite E. simpl. exact Hback. }
  assert (forall x n v t r y z,
            0 <= mode x < 2 ^ 32 ->
            connect_retry x n v t = (r, Some y, z, errs) -> mode y = mode x) as Hcr.
  { intros x n v t r y z Hx E. unfold connect_retry in E.
    pose proof (Hconn (set_state x SSL_EARLY_DATA_CONNECTING)) as Hc.
    destruct (SSL_connect (set_state x SSL_EARLY_DATA_CONNECTING)) as [r1 x1].
    simpl in Hc. destruct (r1 <=? 0).
    - inversion E; subst; simpl. exact Hc.
    - apply Hwr in E; [|rewrite Hc; exact Hx]. congruence. }
  unfold SSL_write_early_data in H.
  destruct (early_data_state c) eqn:Hst;
    try (inversion H; subst; reflexivity);
    try (eapply Hcr; eassumption);
    try (eapply Hwr; eassumption);
    try (eapply Hwf; eassumption).
  - destruct (cannot_start c); [inversion H; subst; reflexivity|].
    eapply Hcr; eassumption.
  - unfold unauth_write in H.
    pose proof (Hwrite (set_state c SSL_EARLY_DATA_UNAUTH_WRITING) num w) as Hw.
    destruct (SSL_write_ex (set_state c SSL_EARLY_DATA_UNAUTH_WRITING) num w)
      as [[r1 v1] x1].
    simpl in Hw. inversion H; subst; simpl.
    destruct (negb (ret =? 0)); [rewrite Hbio|]; exact Hw.
  - unfold unauth_write in H.
    pose proof (Hwrite (set_state c SSL_EARLY_DATA_UNAUTH_WRITING) num w) as Hw.
    destruct (SSL_write_ex (set_state c SSL_EARLY_DATA_UNAUTH_WRITING) num w)
      as [[r1 v1] x1].
    simpl in Hw. inversion H; subst; simpl.
    destruct (negb (ret =? 0)); [rewrite Hbio|]; exact Hw.
Qed.

(** *** Results and states *)

(** X23.  On the client side the call is all or nothing: it returns 1 with the
    whole buffer reported as written and the state "write retry", or it
    returns 0 and leaves the byte count alone. *)
Theorem early_write_all_or_nothing c num w wt ret c' w' errs :
  client_side (early_data_state c) = true ->
  SSL_write_early_data (Some c) num w wt = (ret, Some c', w', errs) ->
  (ret = 1 /\ w' = num /\ errs = []
   /\ early_data_state c' = SSL_EARLY_DATA_WRITE_RETRY)
  \/ (ret = 0 /\ w' = w).
Proof.
  intros Hside H. unfold SSL_write_early_data in H.
  destruct (early_data_state c); try discriminate Hside;
    unfold connect_retry, write_retry, write_flush in H;
    case_split H; inversion H; subst; simpl; auto;
    match goal with
    | E : (_ =? 0) = true |- _ => apply Z.eqb_eq in E; subst; auto
    end.
Qed.

(** X24.  A server that has read, or is reading, early data can write to the
    client in between: the call returns what [SSL_write_ex] returns and
    the early-data state afterwards is the one before, so that reading can
    go on. *)
Theorem unauthenticated_write_keeps_state c num w wt ret c' w' errs :
  server_side (early_data_state c) = true ->
  SSL_write_early_data (Some c) num w wt = (ret, Some c', w', errs) ->
  early_data_state c' = early_data_state c
  /\ errs = []
  /\ (ret, w') = fst (SSL_write_ex (set_state c SSL_EARLY_DATA_UNAUTH_WRITING) num w).
Proof.
  intros Hside H. unfold SSL_write_early_data in H.
  destruct (early_data_state c) eqn:Hst; try discriminate Hside;
    unfold unauth_write in H; rewrite Hst in H;
    destruct (SSL_write_ex (set_state c SSL_EARLY_DATA_UNAUTH_WRITING) num w)
      as [[r1 v1] x1];
    inversion H; subst; simpl; auto.
Qed.

(** Early data cannot be started by a server, after the handshake began,
    or without a session that allows early data or a PSK callback: the
    call is refused as "should not have been called" and the connection is
    as before. *)
Theorem early_write_cannot_start c num w wt :
  early_data_state c = SSL_EARLY_DATA_NONE ->
  server c <> 0 \/ SSL_in_before c = false
    \/ (psk_use_session_cb c = false
        /\ (session_max_early_data c = None \/ session_max_early_data c = Some 0)) ->
  SSL_write_early_data (Some c) num w wt
  = (0, Some c, w, [ERR_R_SHOULD_NOT_HAVE_BEEN_CALLED]).
Proof.
  intros Hst Hno. unfold SSL_write_early_data. rewrite Hst.
  replace (cannot_start c) with true; [reflexivity|].
  symmetry. unfold cannot_start. destruct Hno as [H|[H|[Hp [H|H]]]].
  - destruct (Z.eqb_spec (server c) 0); [contradiction|reflexivity].
  - rewrite H. simpl. apply orb_true_iff. left. apply orb_true_r.
  - rewrite Hp, H. apply orb_true_r.
  - rewrite Hp, H. apply orb_true_r.
Qed.

End Write.

Arguments server {handshake_state}.
Arguments early_data_state {handshake_state}.
Arguments mode {handshake_state}.
Arguments session_max_early_data {handshake_state}.
Arguments psk_use_session_cb {handshake_state}.
Arguments hs {handshake_state}.
Arguments set_state {handshake_state}.
Arguments writing_connection {handshake_state}.
Arguments SSL_write_early_data {handshake_state}.

(** *** On a handshake layer for the examples

    The partial-write bit is 1 as in the public header; the handshake
    step, the write and the flush go through, the write reporting the
    bytes it was given. *)

Definition demo_write_ex (c : SSL_CONNECTION unit) (num w : Z)
    : Z * Z * SSL_CONNECTION unit := (1, num, c).

Definition demo_write_early_data :=
  SSL_write_early_data 1 (fun _ => true) (fun c : SSL_CONNECTION unit => (1, c))
                       demo_write_ex (fun c => (1, c)) (fun c => c).

(** A client with a session that allows early data and partial writes
    switched on, and a server that is reading early data. *)
Definition demo_client (st : early_data_state_t) : SSL_CONNECTION unit :=
  {| server := 0; early_data_state := st; mode := 3;
     session_max_early_data := Some 16384; psk_use_session_cb := false; hs := tt |}.

Definition demo_server (st : early_data_state_t) : SSL_CONNECTION unit :=
  {| server := 1; early_data_state := st; mode := 0;
     session_max_early_data := None; psk_use_session_cb := false; hs := tt |}.

Ltac by_computation :=
  vm_compute; first [reflexivity | intuition discriminate].

Lemma early_write_restores_mode_witness :
  demo_write_early_data (Some (demo_client SSL_EARLY_DATA_NONE)) 100 0 0
  = (1, Some (demo_client SSL_EARLY_DATA_WRITE_RETRY), 100, [])
  /\ mode (writing_connection 1 (demo_client SSL_EARLY_DATA_NONE)) = 2
  /\ Z.land (mode (writing_connection 1 (demo_client SSL_EARLY_DATA_NONE))) 1 = 0
  /\ mode (demo_client SSL_EARLY_DATA_WRITE_RETRY)
     = mode (demo_client SSL_EARLY_DATA_NONE).
Proof.
  split; [reflexivity|]. split; [reflexivity|].
  apply (early_write_restores_mode unit 1 (fun _ => true)
           (fun c : SSL_CONNECTION unit => (1, c)) demo_write_ex
           (fun c => (1, c)) (fun c => c)
           (demo_client SSL_EARLY_DATA_NONE) 100 0 0 1
           (demo_client SSL_EARLY_DATA_WRITE_RETRY) 100 []);
    first [reflexivity | by_computation].
Defined.

Lemma early_write_all_or_nothing_witness :
  (1 = 1 /\ 100 = 100 /\ @nil reason = []
   /\ early_data_state (demo_client SSL_EARLY_DATA_WRITE_RETRY)
      = SSL_EARLY_DATA_WRITE_RETRY)
  \/ (1 = 0 /\ 100 = 0).
Proof.
  apply (early_write_all_or_nothing unit 1 (fun _ => true)
           (fun c : SSL_CONNECTION unit => (1, c)) demo_write_ex
           (fun c => (1, c)) (fun c => c)
           (demo_client SSL_EARLY_DATA_CONNECT_RETRY) 100 0 0 1
           (demo_client SSL_EARLY_DATA_WRITE_RETRY) 100 []);
    reflexivity.
Defined.

Lemma unauthenticated_write_keeps_state_witness :
  demo_write_early_data (Some (demo_server SSL_EARLY_DATA_READ_RETRY)) 100 0 0
  = (1, Some (demo_server SSL_EARLY_DATA_READ_RETRY), 100, [])
  /\ early_data_state (demo_server SSL_EARLY_DATA_READ_RETRY)
     = early_data_state (demo_server SSL_EARLY_DATA_READ_RETRY)
  /\ @nil reason = []
  /\ (1, 100) = fst (demo_write_ex
                       (set_state (demo_server SSL_EARLY_DATA_READ_RETRY)
                                  SSL_EARLY_DATA_UNAUTH_WRITING) 100 0).
Proof.
  split; [reflexivity|].
  apply (unauthenticated_write_keeps_state unit 1 (fun _ => true)
           (fun c : SSL_CONNECTION unit => (1, c)) demo_write_ex
           (fun c => (1, c)) (fun c => c)
           (demo_server SSL_EARLY_DATA_READ_RETRY) 100 0 0 1
           (demo_server SSL_EARLY_DATA_READ_RETRY) 100 []);
    reflexivity.
Defined.

Lemma early_write_cannot_start_witness :
  demo_write_early_data (Some (demo_server SSL_EARLY_DATA_NONE)) 100 0 0
  = (0, Some (demo_server SSL_EARLY_DATA_NONE), 0,
     [ERR_R_SHOULD_NOT_HAVE_BEEN_CALLED]).
Proof.
  apply (early_write_cannot_start unit 1 (fun _ => true)
           (fun c : SSL_CONNECTION unit => (1, c)) demo_write_ex
           (fun c => (1, c)) (fun c => c)
           (demo_server SSL_EARLY_DATA_NONE) 100 0 0).
  - reflexivity.
  - left. discriminate.
Defined.

End EarlyDataWrite.

(** ** More about connection objects: what is given back *)

Module ConnMore.

Import Conn.

#[local] Arguments cert {X509 EVP_PKEY}.
#[local] Arguments method {X509 EVP_PKEY}.
#[local] Arguments server {X509 EVP_PKEY}.
#[local] Arguments handshake_func {X509 EVP_PKEY}.
#[local] Arguments shutdown {X509 EVP_PKEY}.
#[local] Arguments hit {X509 EVP_PKEY}.
#[local] Arguments cipher_list {X509 EVP_PKEY}.
#[local] Arguments cipher_list_by_id {X509 EVP_PKEY}.
#[local] Arguments ca_names {X509 EVP_PKEY}.
#[local] Arguments client_ca_names {X509 EVP_PKEY}.
#[local] Arguments sid_ctx {X509 EVP_PKEY}.
#[local] Arguments sid_ctx_length {X509 EVP_PKEY}.
#[local] Arguments dane {X509 EVP_PKEY}.
#[local] Arguments set_session {X509 EVP_PKEY}.
#[local] Arguments set_cert {X509 EVP_PKEY}.
#[local] Arguments set_method {X509 EVP_PKEY}.
#[local] Arguments set_sid_ctx {X509 EVP_PKEY}.
#[local] Arguments set_dane {X509 EVP_PKEY}.
#[local] Arguments copy_settings {X509 EVP_PKEY}.
#[local] Arguments set_server {X509 EVP_PKEY}.
#[local] Arguments set_role {X509 EVP_PKEY}.
#[local] Arguments set_shutdown_hit {X509 EVP_PKEY}.
#[local] Arguments set_cipher_list {X509 EVP_PKEY}.
#[local] Arguments set_cipher_list_by_id {X509 EVP_PKEY}.
#[local] Arguments set_ca_names {X509 EVP_PKEY}.
#[local] Arguments set_client_ca_names {X509 EVP_PKEY}.

Section Objects.

Variables EVP_MD X509 EVP_PKEY : Type.
Variable EVP_MD_get_size : EVP_MD -> Z.
Variable d2i_X509 : list Z -> Z -> option (X509 * Z).
Variable X509_get0_pubkey : X509 -> option EVP_PKEY.
Variable d2i_PUBKEY : list Z -> Z -> option (EVP_PKEY * Z).

Local Notation "'store'" := (world EVP_MD X509 EVP_PKEY) (only parsing).
Local Notation "'conn'" := (SSL X509 EVP_PKEY) (only parsing).
Local Notation "'free'" := (SSL_free EVP_MD X509 EVP_PKEY) (only parsing).
Local Notation "'new'" := (SSL_new EVP_MD X509 EVP_PKEY) (only parsing).
Local Notation "'dup'" :=
  (SSL_dup EVP_MD_get_size d2i_X509 X509_get0_pubkey d2i_PUBKEY) (only parsing).

(** *** Counts *)

Lemma set_references_twice (o : conn) n m :
  set_references (set_references o n) m = set_references o m.
Proof. reflexivity. Qed.

Lemma set_references_same (o : conn) : set_references o (references o) = o.
Proof. destruct o. reflexivity. Qed.

Lemma set_ctx_references_back (cx : SSL_CTX EVP_MD) :
  set_ctx_references _ (set_ctx_references _ cx (ctx_references _ cx + 2))
                     (ctx_references _ cx + 2 - 2) = cx.
Proof.
  destruct cx. unfold set_ctx_references. simpl. f_equal. lia.
Qed.

Lemma set_objs_same (w : store) : set_objs _ _ _ w (objs w) = w.
Proof. destruct w. reflexivity. Qed.

(** A count that went up comes down to where it was, provided it was
    positive or the object is not counted at all. *)
Lemma count_up_down (m : gmap nat Z) a :
  (forall n, m !! a = Some n -> 0 < n) ->
  count_down (count_up m a) a = m.
Proof.
  intros Hpos. unfold count_up. destruct (m !! a) as [n|] eqn:E.
  - unfold count_down. rewrite lookup_insert_eq.
    replace (n + 1 - 1 >? 0) with true
      by (symmetry; apply Z.gtb_lt; specialize (Hpos n eq_refl); lia).
    rewrite insert_insert_eq. replace (n + 1 - 1) with n by lia.
    apply insert_id, E.
  - unfold count_down. rewrite E. reflexivity.
Qed.

(** A fresh object with one reference is gone when that reference is. *)
Lemma count_down_fresh (m : gmap nat Z) a :
  m !! a = None -> count_down (<[a := 1]> m) a = m.
Proof.
  intros H. unfold count_down. rewrite lookup_insert_eq. simpl.
  apply delete_insert_id, H.
Qed.

(** *** Taking a reference and giving it back *)

(** X25.  On a connection that is not quiescent [SSL_dup] only takes a
    reference; [SSL_free] on the handle it returned gives the reference
    back, and the store is exactly what it was. *)
Theorem dup_then_free_is_identity (w : store) s sc :
  objs w !! s = Some sc ->
  is_connection sc = true ->
  in_init sc && in_before sc = false ->
  0 < references sc ->
  exists w1,
    SSL_dup EVP_MD_get_size d2i_X509 X509_get0_pubkey d2i_PUBKEY s w = (Some s, w1)
    /\ SSL_free EVP_MD X509 EVP_PKEY s w1 = w.
Proof.
  intros Hs Hc Hq Hpos. unfold SSL_dup. rewrite Hs, Hc. cbn [negb].
  replace (negb (in_init sc) || negb (in_before sc)) with true
    by (destruct (in_init sc), (in_before sc); simpl in *; congruence).
  eexists. split; [reflexivity|].
  unfold SSL_free. cbn [objs set_objs]. rewrite lookup_insert_eq.
  cbn [references set_references].
  replace (references sc + 1 - 1 >? 0) with true
    by (symmetry; apply Z.gtb_lt; lia).
  rewrite set_references_twice. replace (references sc + 1 - 1) with (references sc) by lia.
  rewrite set_references_same. cbn [objs set_objs].
  rewrite insert_insert_eq, (insert_id (objs w) s sc Hs).
  destruct w. reflexivity.
Qed.

(** *** Creating and freeing *)

Lemma constructor_steps_cert cx (w : store) crt w1 :
  constructor_steps _ _ _ cx w = (Some crt, w1) ->
  cert_refs w !! crt = None
  /\ cert_refs w1 = <[crt := 1]> (cert_refs w)
  /\ objs w1 = objs w /\ ctxs w1 = ctxs w /\ session_refs w1 = session_refs w.
Proof.
  unfold constructor_steps, ssl_cert_dup, bind, draw, ret. intros H.
  repeat match type of H with
         | context [alloc ?o] => destruct (alloc o) as [[|] ?]; simpl in H;
                                 try discriminate
         end.
  inversion H; subst. simpl. split; [apply not_elem_of_dom, is_fresh | auto].
Qed.

(** X26.  A connection that is created and freed at once leaves no trace: the
    object is gone, its certificate bundle is gone, the factory has the
    references it had, and no session count moved.  Only the allocation
    oracle has advanced. *)
Theorem new_then_free_leaves_no_trace (w : store) c r w1 :
  SSL_new EVP_MD X509 EVP_PKEY c w = (Some r, w1) ->
  SSL_free EVP_MD X509 EVP_PKEY r w1 = set_oracle _ _ _ w (oracle w1).
Proof.
  unfold SSL_new. intros H.
  destruct (ctxs w !! c) as [cx|] eqn:Hcx; [|discriminate].
  destruct (ctx_method _ cx) as [m|]; [|discriminate].
  destruct (constructor_steps _ _ _ cx w) as [[crt|] w0] eqn:E; [|discriminate].
  destruct (constructor_steps_cert _ _ _ _ E) as (Hfresh & Hcert & Hobjs & Hctxs & Hsess).
  inversion H; subst r w1. clear H.
  assert (objs w !! fresh (dom (objs w0)) = None) as Hr
    by (rewrite <- Hobjs; apply not_elem_of_dom, is_fresh).
  destruct w as [ob cxs sr cr orc], w0 as [ob0 cxs0 sr0 cr0 orc0].
  cbn [objs ctxs session_refs cert_refs oracle] in *. subst ob0 cxs0 sr0 cr0.
  unfold SSL_free.
  cbn [objs set_objs ctxs set_ctxs cert_refs set_cert_refs session_refs
       set_session_refs oracle set_oracle].
  rewrite lookup_insert_eq.
  cbn [references session cert ctx new_connection SSL_SESSION_free ssl_cert_free
       snd objs set_objs ctxs set_ctxs cert_refs set_cert_refs session_refs
       set_session_refs oracle set_oracle].
  replace (1 - 1 >? 0) with false by reflexivity.
  rewrite lookup_insert_eq.
  cbn [objs set_objs ctxs set_ctxs cert_refs set_cert_refs session_refs
       set_session_refs oracle set_oracle].
  rewrite count_down_fresh by exact Hfresh.
  rewrite set_ctx_references_back, insert_insert_eq, (insert_id cxs c cx Hcx).
  rewrite delete_insert_id by exact Hr.
  reflexivity.
Qed.

(** *** The two halves of the duplication

    [dup_body] is the session, method and certificate part (lines
    5184-5211) followed by everything else (lines 5213-5262). *)
Definition dup_head (r : nat) (sc : conn) : M EVP_MD X509 EVP_PKEY unit :=
  match session sc with
  | Some _ => SSL_copy_session_id _ _ _ r sc
  | None =>
      bind _ _ _ (SSL_set_ssl_method _ _ _ r (method sc)) (fun _ =>
      bind _ _ _ (match cert sc with
                  | Some c =>
                      bind _ _ _ (get_obj _ _ _ r) (fun o =>
                      bind _ _ _ (ssl_cert_free _ _ _ (cert o)) (fun _ =>
                      bind _ _ _ (modify_obj _ _ _ r (fun o => set_cert o None)) (fun _ =>
                      bind _ _ _ (ssl_cert_dup _ _ _ c) (fun c' =>
                      modify_obj _ _ _ r (fun o => set_cert o (Some c'))))))
                  | None => ret _ _ _ tt
                  end) (fun _ =>
      SSL_set_session_id_context _ _ _ r (sid_ctx sc) (sid_ctx_length sc)))
  end.

Definition dup_tail (r : nat) (sc : conn) : M EVP_MD X509 EVP_PKEY unit :=
  bind _ _ _ (dane_dup_step _ _ _ EVP_MD_get_size d2i_X509 X509_get0_pubkey
                            d2i_PUBKEY r sc) (fun _ =>
  bind _ _ _ (modify_obj _ _ _ r (fun o => copy_settings o sc)) (fun _ =>
  bind _ _ _ (draw _ _ _) (fun _ =>
  bind _ _ _ (modify_obj _ _ _ r (fun o => set_server o (server sc))) (fun _ =>
  bind _ _ _ (match handshake_func sc with
              | Some _ =>
                  modify_obj _ _ _ r
                    (fun o => set_role o (if server sc =? 0 then role_connect
                                          else role_accept))
              | None => ret _ _ _ tt
              end) (fun _ =>
  bind _ _ _ (modify_obj _ _ _ r
                (fun o => set_shutdown_hit o (shutdown sc) (hit sc))) (fun _ =>
  bind _ _ _ (dup_cipher_stack _ _ _ (cipher_list sc)) (fun cl =>
  bind _ _ _ (match cl with
              | Some _ => modify_obj _ _ _ r (fun o => set_cipher_list o cl)
              | None => ret _ _ _ tt
              end) (fun _ =>
  bind _ _ _ (dup_cipher_stack _ _ _ (cipher_list_by_id sc)) (fun cli =>
  bind _ _ _ (match cli with
              | Some _ => modify_obj _ _ _ r (fun o => set_cipher_list_by_id o cli)
              | None => ret _ _ _ tt
              end) (fun _ =>
  bind _ _ _ (dup_ca_names _ _ _ (ca_names sc)) (fun ca =>
  bind _ _ _ (modify_obj _ _ _ r (fun o => set_ca_names o ca)) (fun _ =>
  bind _ _ _ (dup_ca_names _ _ _ (client_ca_names sc)) (fun cca =>
  modify_obj _ _ _ r (fun o => set_client_ca_names o cca)))))))))))))).

Lemma dup_body_halves r sc :
  dup_body _ _ _ EVP_MD_get_size d2i_X509 X509_get0_pubkey d2i_PUBKEY r sc
  = bind _ _ _ (dup_head r sc) (fun _ => dup_tail r sc).
Proof. reflexivity. Qed.

(** *** Steps that may fail

    [steps P m Q F]: when [m] runs from a store satisfying [P], the store
    it leaves satisfies [Q x] if it yields [x], and [F] if it fails. *)
Definition steps {A} (P : store -> Prop) (m : M EVP_MD X509 EVP_PKEY A)
    (Q : A -> store -> Prop) (F : store -> Prop) : Prop :=
  forall w x w', m w = (x, w') -> P w ->
    match x with
    | Some v => Q v w'
    | None => F w'
    end.

Lemma steps_ret {A} (P F : store -> Prop) (x : A) :
  steps P (ret _ _ _ x) (fun _ => P) F.
Proof. intros w y w' H HP. inversion H; subst. exact HP. Qed.

Lemma steps_fail {A} (P F : store -> Prop) (Q : A -> store -> Prop) :
  (forall w, P w -> F w) -> steps P (fail _ _ _) Q F.
Proof. intros HF w y w' H HP. inversion H; subst. apply HF, HP. Qed.

Lemma steps_bind {A B} (P F : store -> Prop) (Q : A -> store -> Prop)
    (R : B -> store -> Prop) (m : M EVP_MD X509 EVP_PKEY A)
    (k : A -> M EVP_MD X509 EVP_PKEY B) :
  steps P m Q F -> (forall x, steps (Q x) (k x) R F) ->
  steps P (bind _ _ _ m k) R F.
Proof.
  intros Hm Hk w y w' H HP. unfold bind in H.
  destruct (m w) as [[x|] w1] eqn:E.
  - eapply Hk; [exact H|]. exact (Hm w (Some x) w1 E HP).
  - inversion H; subst. exact (Hm w None w' E HP).
Qed.

Lemma steps_weaken {A} (P P' F : store -> Prop) (Q Q' : A -> store -> Prop)
    (m : M EVP_MD X509 EVP_PKEY A) :
  steps P' m Q' F -> (forall w, P w -> P' w) -> (forall x w, Q' x w -> Q x w) ->
  steps P m Q F.
Proof.
  intros Hm HP HQ w x w' H Hw. specialize (Hm w x w' H (HP w Hw)).
  destruct x; [apply HQ|]; exact Hm.
Qed.

Section Undo.

(** The copy under construction at [r], for the factory [cx] stored at
    [c], on top of the store [w0] in which [r] is free. *)
Variables (r c : nat) (cx : SSL_CTX EVP_MD) (w0 : store).
Hypothesis r_free : objs w0 !! r = None.
Hypothesis c_there : ctxs w0 !! c = Some cx.

(** What freeing the copy does to a table of counts. *)
Definition release (x : option nat) (m : gmap nat Z) : gmap nat Z :=
  match x with
  | Some a => count_down m a
  | None => m
  end.

Definition raise (x : option nat) (m : gmap nat Z) : gmap nat Z :=
  match x with
  | Some a => count_up m a
  | None => m
  end.

(** The store holds the copy on top of [w0]: the copy has one reference,
    belongs to the factory and points at the session [sess] and the
    certificate bundle [crt]; the factory has its two more references;
    the counts are [srefs] and [crefs]. *)
Definition built (sess crt : option nat) (srefs crefs : gmap nat Z) (w : store) : Prop :=
  (exists o, objs w = <[r := o]> (objs w0) /\ references o = 1 /\ ctx o = c
             /\ session o = sess /\ cert o = crt)
  /\ ctxs w = <[c := set_ctx_references _ cx (ctx_references _ cx + 2)]> (ctxs w0)
  /\ session_refs w = srefs /\ cert_refs w = crefs.

(** Releasing what the copy points at gives the counts of [w0]. *)
Definition balanced (sess crt : option nat) (srefs crefs : gmap nat Z) : Prop :=
  release sess srefs = session_refs w0 /\ release crt crefs = cert_refs w0.

Definition undoable (w : store) : Prop :=
  exists sess crt srefs crefs,
    built sess crt srefs crefs w /\ balanced sess crt srefs crefs.

(** Freeing the copy from an undoable store gives [w0] back. *)
Lemma undoable_free w : undoable w -> free r w = set_oracle _ _ _ w0 (oracle w).
Proof.
  intros (sess & crt & srefs & crefs & ((o & Ho & Hr & Hc & Hs & Hcr) & Hx & Hsr & Hcf)
          & Hbs & Hbc).
  destruct w as [ob cxs sr cr orc], w0 as [ob0 cxs0 sr0 cr0 orc0].
  cbn [objs ctxs session_refs cert_refs oracle] in *. subst ob cxs sr cr.
  unfold SSL_free. cbn [objs]. rewrite lookup_insert_eq, Hr.
  replace (1 - 1 >? 0) with false by reflexivity.
  rewrite Hs, Hcr, Hc.
  assert (forall (w : store),
            snd (SSL_SESSION_free _ _ _ sess w)
            = set_session_refs _ _ _ w (release sess (session_refs w))) as Hsf
    by (intros [? ? ? ? ?]; destruct sess; reflexivity).
  assert (forall (w : store),
            snd (ssl_cert_free _ _ _ crt w)
            = set_cert_refs _ _ _ w (release crt (cert_refs w))) as Hcff
    by (intros [? ? ? ? ?]; destruct crt; reflexivity).
  rewrite Hsf, Hcff.
  cbn [objs set_objs ctxs set_ctxs cert_refs set_cert_refs session_refs
       set_session_refs oracle set_oracle].
  rewrite lookup_insert_eq.
  cbn [objs set_objs ctxs set_ctxs cert_refs set_cert_refs session_refs
       set_session_refs oracle set_oracle].
  rewrite Hbs, Hbc.
  rewrite set_ctx_references_back, insert_insert_eq, (insert_id cxs0 c cx c_there).
  rewrite delete_insert_id by exact r_free.
  reflexivity.
Qed.

Lemma built_frame sess crt srefs crefs (w w' : store) :
  objs w' = objs w -> ctxs w' = ctxs w -> session_refs w' = session_refs w ->
  cert_refs w' = cert_refs w ->
  built sess crt srefs crefs w -> built sess crt srefs crefs w'.
Proof. unfold built. intros -> -> -> ->. tauto. Qed.

Lemma built_lookup sess crt srefs crefs (w : store) :
  built sess crt srefs crefs w ->
  exists o, objs w !! r = Some o /\ objs w = <[r := o]> (objs w0)
            /\ references o = 1 /\ ctx o = c /\ session o = sess /\ cert o = crt.
Proof.
  intros ((o & Ho & H) & _). exists o. rewrite Ho, lookup_insert_eq. auto.
Qed.

(** **** Steps that cannot fail *)

Lemma steps_get_obj sess crt srefs crefs F :
  steps (built sess crt srefs crefs) (get_obj _ _ _ r)
        (fun o w => built sess crt srefs crefs w /\ session o = sess /\ cert o = crt) F.
Proof.
  intros w x w' H HP. unfold get_obj in H.
  destruct (built_lookup _ _ _ _ _ HP) as (o & Ho & _ & _ & _ & Hs & Hc).
  rewrite Ho in H. inversion H; subst. auto.
Qed.

(** An update of the copy that keeps its count and factory and takes its
    session and certificate bundle from [sess], [crt] to [sess'], [crt']. *)
Definition moves (f : conn -> conn) (sess crt sess' crt' : option nat) : Prop :=
  forall o, references (f o) = references o /\ ctx (f o) = ctx o
            /\ (session o = sess -> session (f o) = sess')
            /\ (cert o = crt -> cert (f o) = crt').

Lemma steps_modify sess crt sess' crt' srefs crefs f F :
  moves f sess crt sess' crt' ->
  steps (built sess crt srefs crefs) (modify_obj _ _ _ r f)
        (fun _ => built sess' crt' srefs crefs) F.
Proof.
  intros Hf w x w' H HP. unfold modify_obj in H.
  destruct (built_lookup _ _ _ _ _ HP) as (o & Ho & Hobjs & Hr & Hc & Hs & Hcr).
  destruct HP as (_ & Hx & Hsr & Hcf).
  rewrite Ho in H. inversion H; subst x w'. clear H.
  unfold built. cbn [objs set_objs ctxs session_refs cert_refs].
  split; [|auto].
  exists (f o). destruct (Hf o) as (-> & -> & Hs' & Hc').
  rewrite Hobjs at 1. rewrite insert_insert_eq. auto 10.
Qed.

Lemma steps_session_up sess crt srefs crefs a F :
  steps (built sess crt srefs crefs) (SSL_SESSION_up_ref _ _ _ a)
        (fun _ => built sess crt (count_up srefs a) crefs) F.
Proof.
  intros w x w' H (Ho & Hx & Hsr & Hcf). inversion H; subst.
  unfold built. simpl. auto.
Qed.

Lemma steps_session_free sess crt srefs crefs y F :
  steps (built sess crt srefs crefs) (SSL_SESSION_free _ _ _ y)
        (fun _ => built sess crt (release y srefs) crefs) F.
Proof.
  intros w x w' H (Ho & Hx & Hsr & Hcf). unfold SSL_SESSION_free in H.
  destruct y; inversion H; subst; unfold built; simpl; auto.
Qed.

Lemma steps_cert_free sess crt srefs crefs y F :
  steps (built sess crt srefs crefs) (ssl_cert_free _ _ _ y)
        (fun _ => built sess crt srefs (release y crefs)) F.
Proof.
  intros w x w' H (Ho & Hx & Hsr & Hcf). unfold ssl_cert_free in H.
  destruct y; inversion H; subst; unfold built; simpl; auto.
Qed.

Lemma steps_cert_up sess crt srefs crefs (y : option nat) F :
  steps (built sess crt srefs crefs)
        (fun w : store =>
           match y with
           | Some a => (Some tt, set_cert_refs _ _ _ w (count_up (cert_refs w) a))
           | None => (Some tt, w)
           end)
        (fun _ => built sess crt srefs (raise y crefs)) F.
Proof.
  intros w x w' H (Ho & Hx & Hsr & Hcf).
  destruct y; inversion H; subst; unfold built; simpl; auto.
Qed.

(** **** Steps that may fail, from a balanced store *)

Section Balanced.

Variables (sess crt : option nat) (srefs crefs : gmap nat Z).
Hypothesis Hb : balanced sess crt srefs crefs.

Local Notation "'B'" := (built sess crt srefs crefs) (only parsing).

Lemma built_undoable w : B w -> undoable w.
Proof. intros H. exists sess, crt, srefs, crefs. auto. Qed.

Lemma steps_draw : steps B (draw _ _ _) (fun _ => B) undoable.
Proof.
  intros w x w' H HP. unfold draw in H. destruct (alloc (oracle w)) as [ok o'].
  assert (B w') as HB
    by (inversion H; subst; eapply built_frame; [| | | |exact HP]; reflexivity).
  destruct ok; inversion H; subst; [exact HB | apply built_undoable, HB].
Qed.

Lemma steps_keep f :
  moves f sess crt sess crt -> steps B (modify_obj _ _ _ r f) (fun _ => B) undoable.
Proof. apply steps_modify. Qed.

Lemma steps_set_sid b n :
  steps B (SSL_set_session_id_context _ _ _ r b n) (fun _ => B) undoable.
Proof.
  unfold SSL_set_session_id_context.
  destruct (n >? SSL_MAX_SID_CTX_LENGTH); [apply steps_fail, built_undoable|].
  apply steps_keep. intros o. simpl. auto.
Qed.

Lemma steps_set_method m :
  steps B (SSL_set_ssl_method _ _ _ r m) (fun _ => B) undoable.
Proof.
  unfold SSL_set_ssl_method.
  eapply steps_bind; [apply steps_get_obj|]. intros o.
  eapply steps_weaken with (P' := B) (Q' := fun _ => B); [|tauto|auto].
  destruct (negb (is_connection o) || method_is_quic m);
    [apply steps_fail, built_undoable|].
  destruct (negb (method_eqb (method o) m)); [|apply steps_ret].
  eapply steps_bind; [apply steps_keep; intros o'; simpl; auto|]. intros ?.
  destruct (_ =? _); [apply steps_ret | apply steps_draw].
Qed.

Lemma steps_dane_dup from :
  steps B (dane_dup_step _ _ _ EVP_MD_get_size d2i_X509 X509_get0_pubkey d2i_PUBKEY
                         r from) (fun _ => B) undoable.
Proof.
  intros w x w' H HP. unfold dane_dup_step in H.
  destruct (built_lookup _ _ _ _ _ HP) as (o & Ho & Hobjs & Hr & Hc & Hs & Hcr).
  rewrite Ho in H.
  destruct (ctxs w !! ctx o) as [cx'|];
    [|inversion H; subst x w'; apply built_undoable, HP].
  destruct (Dane.ssl_dane_dup _ _ _ _ _ _ _ _) as [[[ret0 d] e] o'].
  assert (B (set_oracle _ _ _ (set_objs _ _ _ w (<[r := set_dane o d]> (objs w))) o'))
    as HB.
  { destruct HP as (_ & Hx & Hsr & Hcf). unfold built.
    cbn [objs set_objs set_oracle ctxs session_refs cert_refs].
    split; [|auto]. exists (set_dane o d).
    rewrite Hobjs at 1. rewrite insert_insert_eq. auto. }
  destruct (ret0 =? 0); inversion H; subst x w'; [apply built_undoable|]; exact HB.
Qed.

Lemma steps_dup_names l :
  steps B (dup_names _ _ _ l) (fun _ => B) undoable.
Proof.
  induction l as [|xn rest IH]; simpl; [apply steps_ret|].
  eapply steps_bind; [apply steps_draw|]. intros ?.
  eapply steps_bind; [apply steps_draw|]. intros ?.
  eapply steps_bind; [apply IH|]. intros l'. apply steps_ret.
Qed.

Lemma steps_dup_ca_names l :
  steps B (dup_ca_names _ _ _ l) (fun _ => B) undoable.
Proof.
  destruct l as [names|]; simpl; [|apply steps_ret].
  eapply steps_bind; [apply steps_draw|]. intros ?.
  eapply steps_bind; [apply steps_dup_names|]. intros l'. apply steps_ret.
Qed.

Lemma steps_dup_cipher_stack l :
  steps B (dup_cipher_stack _ _ _ l) (fun _ => B) undoable.
Proof.
  destruct l as [l|]; simpl; [|apply steps_ret].
  eapply steps_bind; [apply steps_draw|]. intros ?. apply steps_ret.
Qed.

(** A new certificate bundle: when the allocation goes through, it sits
    at a free address with one reference. *)
Lemma steps_cert_dup y :
  steps B (ssl_cert_dup _ _ _ y)
        (fun a w => built sess crt srefs (<[a := 1]> crefs) w /\ crefs !! a = None)
        undoable.
Proof.
  unfold ssl_cert_dup. eapply steps_bind; [apply steps_draw|]. intros ?.
  intros w a w' H HP. inversion H; subst a w'. clear H.
  destruct HP as (Ho & Hx & Hsr & Hcf). split.
  - unfold built. simpl. rewrite Hcf. auto.
  - rewrite <- Hcf. apply not_elem_of_dom, is_fresh.
Qed.

Lemma steps_dup_tail sc :
  steps B (dup_tail r sc) (fun _ => undoable) undoable.
Proof.
  unfold dup_tail.
  eapply steps_weaken with (P' := B) (Q' := fun _ => B);
    [|auto|intros ? w; apply built_undoable].
  eapply steps_bind; [apply steps_dane_dup|]. intros ?.
  eapply steps_bind; [apply steps_keep; intros o'; simpl; auto|]. intros ?.
  eapply steps_bind; [apply steps_draw|]. intros ?.
  eapply steps_bind; [apply steps_keep; intros o'; simpl; auto|]. intros ?.
  eapply steps_bind with (Q := fun _ => B).
  { destruct (handshake_func sc);
      [apply steps_keep; intros o'; simpl; auto | apply steps_ret]. }
  intros ?. eapply steps_bind; [apply steps_keep; intros o'; simpl; auto|]. intros ?.
  eapply steps_bind; [apply steps_dup_cipher_stack|]. intros cl.
  eapply steps_bind with (Q := fun _ => B).
  { destruct cl; [apply steps_keep; intros o'; simpl; auto | apply steps_ret]. }
  intros ?. eapply steps_bind; [apply steps_dup_cipher_stack|]. intros cli.
  eapply steps_bind with (Q := fun _ => B).
  { destruct cli; [apply steps_keep; intros o'; simpl; auto | apply steps_ret]. }
  intros ?. eapply steps_bind; [apply steps_dup_ca_names|]. intros ca.
  eapply steps_bind; [apply steps_keep; intros o'; simpl; auto|]. intros ?.
  eapply steps_bind; [apply steps_dup_ca_names|]. intros cca.
  apply steps_keep. intros o'; simpl; auto.
Qed.

End Balanced.

(** **** The first half, from the store [SSL_new] left *)

Section Head.

(** The source [sc], and the certificate bundle [k] the constructor gave
    the copy. *)
Variables (sc : conn) (k : nat).
Hypothesis k_fresh : cert_refs w0 !! k = None.
Hypothesis session_counted :
  forall a n, session sc = Some a -> session_refs w0 !! a = Some n -> 0 < n.
Hypothesis cert_counted :
  forall cf, cert sc = Some cf -> exists n, cert_refs w0 !! cf = Some n /\ 0 < n.

Lemma balanced_new :
  balanced None (Some k) (session_refs w0) (<[k := 1]> (cert_refs w0)).
Proof. split; [reflexivity | apply count_down_fresh, k_fresh]. Qed.

Lemma balanced_shared a :
  session sc = Some a ->
  balanced (Some a) (Some k) (count_up (session_refs w0) a) (<[k := 1]> (cert_refs w0)).
Proof.
  intros Ha. split; [|apply count_down_fresh, k_fresh].
  apply count_up_down. intros n. apply session_counted, Ha.
Qed.

Lemma release_raise :
  release (Some k) (raise (cert sc) (<[k := 1]> (cert_refs w0)))
  = raise (cert sc) (cert_refs w0).
Proof.
  destruct (cert sc) as [cf|] eqn:Hcf; cbn [raise release];
    [|apply count_down_fresh, k_fresh].
  destruct (cert_counted cf eq_refl) as (n & Hn & _).
  assert (cf <> k) as Hne by (intros ->; congruence).
  unfold count_up. rewrite lookup_insert_ne by auto. rewrite Hn.
  unfold count_down. rewrite lookup_insert_ne by auto. rewrite lookup_insert_eq.
  replace (1 - 1 >? 0) with false by reflexivity.
  rewrite delete_insert_ne by auto. rewrite delete_insert_id by exact k_fresh.
  reflexivity.
Qed.

Lemma balanced_copied a :
  session sc = Some a ->
  balanced (Some a) (cert sc) (count_up (session_refs w0) a)
           (release (Some k) (raise (cert sc) (<[k := 1]> (cert_refs w0)))).
Proof.
  intros Ha. rewrite release_raise. split.
  - apply count_up_down. intros n. apply session_counted, Ha.
  - destruct (cert sc) as [cf|] eqn:Hcf; [|reflexivity].
    apply count_up_down. intros n Hn.
    destruct (cert_counted cf eq_refl) as (n' & Hn' & Hpos). congruence.
Qed.

Lemma balanced_bare :
  balanced None None (session_refs w0) (release (Some k) (<[k := 1]> (cert_refs w0))).
Proof. split; [reflexivity | apply count_down_fresh, k_fresh]. Qed.

Lemma balanced_own a :
  release (Some k) (<[k := 1]> (cert_refs w0)) !! a = None ->
  balanced None (Some a) (session_refs w0)
           (<[a := 1]> (release (Some k) (<[k := 1]> (cert_refs w0)))).
Proof.
  intros Ha. split; [reflexivity|]. cbn [release] in *.
  rewrite count_down_fresh by exact Ha. apply count_down_fresh, k_fresh.
Qed.

Lemma steps_given {A} (P : store -> Prop) (fact : Prop)
    (m : M EVP_MD X509 EVP_PKEY A) (Q : A -> store -> Prop) F :
  (fact -> steps P m Q F) -> steps (fun w => P w /\ fact) m Q F.
Proof. intros Hm w x w' H (HP & Hf). exact (Hm Hf w x w' H HP). Qed.

Lemma steps_set_session_shared a crefs F :
  steps (built None (Some k) (session_refs w0) crefs)
        (SSL_set_session _ _ _ r (Some a))
        (fun _ => built (Some a) (Some k) (count_up (session_refs w0) a) crefs) F.
Proof.
  unfold SSL_set_session.
  eapply steps_bind; [apply steps_get_obj|]. intros o.
  apply steps_given. intros (Hs & _).
  eapply steps_bind; [apply steps_session_up|]. intros ?.
  rewrite Hs.
  eapply steps_bind; [apply steps_session_free|]. intros ?.
  apply steps_modify. intros o'. simpl. auto.
Qed.

Lemma steps_copy_session_id a :
  session sc = Some a ->
  steps (built None (Some k) (session_refs w0) (<[k := 1]> (cert_refs w0)))
        (SSL_copy_session_id _ _ _ r sc) (fun _ => undoable) undoable.
Proof.
  intros Ha. unfold SSL_copy_session_id. rewrite Ha.
  eapply steps_bind; [apply steps_set_session_shared|]. intros ?.
  eapply steps_bind; [apply steps_get_obj|]. intros o.
  apply steps_given. intros _.
  eapply steps_bind
    with (Q := fun _ => built (Some a) (Some k) (count_up (session_refs w0) a)
                              (<[k := 1]> (cert_refs w0))).
  { destruct (negb (method_eqb (method o) (method sc))); [|apply steps_ret].
    eapply steps_bind;
      [apply steps_modify with (sess' := Some a) (crt' := Some k);
       intros o'; simpl; auto|].
    intros ?. apply steps_draw, balanced_shared, Ha. }
  intros ?. eapply steps_bind; [apply steps_cert_up|]. intros ?.
  eapply steps_bind; [apply steps_get_obj|]. intros o1.
  apply steps_given. intros (_ & Hc1). rewrite Hc1.
  eapply steps_bind; [apply steps_cert_free|]. intros ?.
  eapply steps_bind;
    [apply steps_modify with (sess' := Some a) (crt' := cert sc);
     intros o'; simpl; auto|].
  intros ?.
  eapply steps_weaken;
    [apply steps_set_sid, (balanced_copied a Ha) | auto |].
  intros ? w. apply built_undoable, balanced_copied, Ha.
Qed.

Lemma steps_dup_head :
  steps (built None (Some k) (session_refs w0) (<[k := 1]> (cert_refs w0)))
        (dup_head r sc) (fun _ => undoable) undoable.
Proof.
  assert ({a | session sc = Some a} + {session sc = None}) as [[a Ha]|Ha]
    by (destruct (session sc); eauto).
  - unfold dup_head. rewrite Ha. apply (steps_copy_session_id a Ha).
  - unfold dup_head. rewrite Ha.
    eapply steps_bind; [apply steps_set_method, balanced_new|]. intros ?.
    assert ({cf | cert sc = Some cf} + {cert sc = None}) as [[cf Hcf]|Hcf]
      by (destruct (cert sc); eauto); rewrite Hcf.
    + eapply steps_bind
        with (Q := fun _ w => exists a,
                     built None (Some a) (session_refs w0)
                           (<[a := 1]> (release (Some k) (<[k := 1]> (cert_refs w0)))) w
                     /\ release (Some k) (<[k := 1]> (cert_refs w0)) !! a = None).
      * eapply steps_bind; [apply steps_get_obj|]. intros o.
        apply steps_given. intros (_ & Hc1). rewrite Hc1.
        eapply steps_bind; [apply steps_cert_free|]. intros ?.
        eapply steps_bind;
          [apply steps_modify with (sess' := None) (crt' := None);
           intros o'; simpl; auto|].
        intros ?.
        eapply steps_bind; [apply steps_cert_dup, balanced_bare|]. intros a.
        apply steps_given. intros Hfresh.
        eapply steps_weaken
          with (P' := built None None (session_refs w0)
                            (<[a := 1]> (release (Some k) (<[k := 1]> (cert_refs w0)))))
               (Q' := fun _ => built None (Some a) (session_refs w0)
                                     (<[a := 1]> (release (Some k)
                                                    (<[k := 1]> (cert_refs w0)))));
          [apply steps_modify; intros o'; simpl; auto | auto |].
        intros ? w HB. exists a. split; [exact HB | exact Hfresh].
      * intros ? w y w' H (a & HB & Hfresh).
        pose proof (steps_set_sid _ _ _ _ (balanced_own a Hfresh)
                      (sid_ctx sc) (sid_ctx_length sc) w y w' H HB) as Hres.
        destruct y; [|exact Hres].
        eapply built_undoable; [apply (balanced_own a Hfresh) | exact Hres].
    + eapply steps_bind; [apply steps_ret|]. intros ?.
      eapply steps_weaken; [apply steps_set_sid, balanced_new | auto |].
      intros ? w. apply built_undoable, balanced_new.
Qed.

(** The whole duplication, run on the store [SSL_new] left: if it fails,
    freeing the copy gives [w0] back. *)
Lemma steps_dup_body :
  steps (built None (Some k) (session_refs w0) (<[k := 1]> (cert_refs w0)))
        (dup_body _ _ _ EVP_MD_get_size d2i_X509 X509_get0_pubkey d2i_PUBKEY r sc)
        (fun _ => undoable) undoable.
Proof.
  rewrite dup_body_halves.
  eapply steps_bind; [apply steps_dup_head|]. intros ?.
  intros w y w' H (sess & crt & srefs & crefs & HB & Hbal).
  exact (steps_dup_tail sess crt srefs crefs Hbal sc w y w' H HB).
Qed.

End Head.

End Undo.

(** X27.  A duplication of a quiescent connection that fails, at whichever step,
    gives back everything it took: the copy is gone, the source and every
    other connection are untouched, and the factory, the sessions and the
    certificate bundles have the reference counts they had.  Only the
    allocation oracle has advanced. *)
Theorem failed_dup_leaves_store (w : store) s sc w' :
  objs w !! s = Some sc ->
  is_connection sc = true ->
  in_init sc && in_before sc = true ->
  (forall a n, session sc = Some a -> session_refs w !! a = Some n -> 0 < n) ->
  (forall cf, cert sc = Some cf -> exists n, cert_refs w !! cf = Some n /\ 0 < n) ->
  SSL_dup EVP_MD_get_size d2i_X509 X509_get0_pubkey d2i_PUBKEY s w = (None, w') ->
  w' = set_oracle _ _ _ w (oracle w').
Proof.
  intros Hs Hc Hq Hsess Hcert. unfold SSL_dup. rewrite Hs, Hc. cbn [negb].
  replace (negb (in_init sc) || negb (in_before sc)) with false
    by (destruct (in_init sc), (in_before sc); simpl in *; congruence).
  destruct (new (ctx sc) w) as [[r|] w1] eqn:En.
  - destruct (dup_body _ _ _ _ _ _ _ r sc w1) as [[u|] w2] eqn:Eb; [discriminate|].
    intros H. inversion H; subst w'. clear H.
    unfold SSL_new in En.
    destruct (ctxs w !! ctx sc) as [cx|] eqn:Hcx; [|discriminate].
    destruct (ctx_method _ cx) as [m|]; [|discriminate].
    destruct (constructor_steps _ _ _ cx w) as [[k|] wc] eqn:E; [|discriminate].
    destruct (constructor_steps_cert _ _ _ _ E) as (Hk & Hcr & Hobjs & Hctxs & Hsr).
    inversion En; subst r w1. clear En.
    assert (objs w !! fresh (dom (objs wc)) = None) as Hr
      by (rewrite <- Hobjs; apply not_elem_of_dom, is_fresh).
    pose proof (steps_dup_body (fresh (dom (objs wc))) (ctx sc) cx w sc k Hk Hsess Hcert
                  _ _ _ Eb) as Hundo.
    cbn beta iota in Hundo.
    match type of Hundo with
    | ?P -> _ => assert P as HB
    end.
    { unfold built. cbn [objs set_objs ctxs set_ctxs session_refs cert_refs].
      split; [|rewrite Hctxs, Hsr, Hcr; auto].
      eexists. rewrite Hobjs. split; [reflexivity|]. simpl. auto. }
    rewrite (undoable_free _ _ _ _ Hr Hcx _ (Hundo HB)).
    destruct w; reflexivity.
  - intros H. inversion H; subst w'. clear H.
    unfold SSL_new in En.
    destruct (ctxs w !! ctx sc) as [cx|];
      [|inversion En; subst w1; destruct w; reflexivity].
    destruct (ctx_method _ cx) as [m|];
      [|inversion En; subst w1; destruct w; reflexivity].
    destruct (constructor_steps _ _ _ cx w) as [[k|] wc]; inversion En; subst w1.
    destruct w; reflexivity.
Qed.

End Objects.

Arguments SSL_new {EVP_MD X509 EVP_PKEY}.
Arguments SSL_free {EVP_MD X509 EVP_PKEY}.
Arguments set_oracle {EVP_MD X509 EVP_PKEY}.

(** *** On the store of the examples *)

(** The store of the examples with allocations that go through up to a
    point: the seven of the constructor, then two more, then a failure
    when the second cipher stack is duplicated. *)
Definition demo_world_failing : world Dane.nid (list Z) (list Z) :=
  set_oracle (demo_world true true (Some 7%nat))
             [true; true; true; true; true; true; true; true; true; false].

Lemma dup_then_free_is_identity_witness :
  exists w1,
    demo_dup (demo_world true false (Some 7%nat)) = (Some 0%nat, w1)
    /\ SSL_free 0%nat w1 = demo_world true false (Some 7%nat).
Proof.
  apply (dup_then_free_is_identity Dane.nid (list Z) (list Z) Dane.demo_md_size
           Dane.demo_d2i Dane.demo_pubkey Dane.demo_d2i
           (demo_world true false (Some 7%nat)) 0%nat
           (demo_conn true false (Some 7%nat)));
    first [reflexivity | vm_compute; reflexivity].
Defined.

Lemma new_then_free_leaves_no_trace_witness :
  fst (SSL_new 0%nat demo_world_failing) = Some 1%nat
  /\ SSL_free 1%nat (snd (SSL_new 0%nat demo_world_failing))
     = set_oracle demo_world_failing [true; true; false].
Proof.
  split; [reflexivity|].
  apply (new_then_free_leaves_no_trace Dane.nid (list Z) (list Z)
           demo_world_failing 0%nat 1%nat (snd (SSL_new 0%nat demo_world_failing))).
  vm_compute. reflexivity.
Defined.

Lemma failed_dup_leaves_store_witness :
  fst (demo_dup demo_world_failing) = None
  /\ snd (demo_dup demo_world_failing)
     = set_oracle demo_world_failing (oracle (snd (demo_dup demo_world_failing)))
  /\ objs (snd (demo_dup demo_world_failing)) = objs (demo_world true true (Some 7%nat))
  /\ session_refs (snd (demo_dup demo_world_failing)) = {[ 7%nat := 1 ]}.
Proof.
  split; [reflexivity|].
  assert (snd (demo_dup demo_world_failing)
          = set_oracle demo_world_failing (oracle (snd (demo_dup demo_world_failing))))
    as E.
  { apply (failed_dup_leaves_store Dane.nid (list Z) (list Z) Dane.demo_md_size
             Dane.demo_d2i Dane.demo_pubkey Dane.demo_d2i
             demo_world_failing 0%nat (demo_conn true true (Some 7%nat))).
    - reflexivity.
    - reflexivity.
    - reflexivity.
    - intros a n Ha Hn. inversion Ha; subst a. vm_compute in Hn.
      inversion Hn; subst n. reflexivity.
    - intros cf Hcf. inversion Hcf; subst cf. exists 1. split; reflexivity.
    - vm_compute. reflexivity. }
  split; [exact E|]. rewrite E. split; reflexivity.
Defined.

End ConnMore.

(** ** The ALPN protocol list *)

Module Alpn.

(** [unsigned int] arithmetic. *)
Definition uint (x : Z) : Z := x mod 2 ^ 32.

(** The loop of [alpn_value_ok] (lines 3734-3738) from the index [idx]
    on: the value the function returns, [None] when [fuel] iterations were
    not enough to leave the loop. *)
Fixpoint alpn_scan (fuel : nat) (protos : list Z) (protos_len idx : Z) : option Z :=
  match fuel with
  | O => if idx <? protos_len then None
         else Some (if idx =? protos_len then 1 else 0)
  | S fuel' =>
      if idx <? protos_len then
        if nth (Z.to_nat idx) protos 0 =? 0 then Some 0
        else alpn_scan fuel' protos protos_len
                       (uint (idx + uint (nth (Z.to_nat idx) protos 0 + 1)))
      else Some (if idx =? protos_len then 1 else 0)
  end.

(** [alpn_value_ok] (lines 3727-3739); [protos] is [None] for NULL. *)
Definition alpn_value_ok (protos : option (list Z)) (protos_len : Z) : option Z :=
  match protos with
  | Some l =>
      if protos_len <? 2 then Some 0
      else alpn_scan (Z.to_nat protos_len) l protos_len 0
  | None => Some 0
  end.

(** [ctx->ext.alpn] and [ctx->ext.alpn_len]. *)
Record alpn_ext : Type := {
  alpn : option (list Z);
  alpn_len : Z
}.

(** [SSL_CTX_set_alpn_protos] (lines 3745-3768), which
    [SSL_set_alpn_protos] (lines 3775-3802) repeats on a connection: the
    returned [int], the stored list afterwards and what is left of the
    allocation oracle. *)
Definition SSL_CTX_set_alpn_protos (e : alpn_ext) (protos : option (list Z))
    (protos_len : Z) (o : alloc_oracle) : option (Z * alpn_ext * alloc_oracle) :=
  match protos with
  | None => Some (0, {| alpn := None; alpn_len := 0 |}, o)
  | Some l =>
      if protos_len =? 0 then Some (0, {| alpn := None; alpn_len := 0 |}, o)
      else
        match alpn_value_ok protos protos_len with
        | None => None
        | Some ok =>
            if ok =? 0 then Some (1, e, o)
            else
              let (got, o') := alloc o in
              if negb got then Some (1, e, o')
              else Some (0, {| alpn := Some (firstn (Z.to_nat protos_len) l);
                               alpn_len := protos_len |}, o')
        end
  end.

(** The wire format of a list of protocol names: every name behind its
    length. *)
Definition wire_format (names : list (list Z)) : list Z :=
  concat (map (fun n => Z.of_nat (length n) :: n) names).

(** A name that can be put on the wire: not empty, at most 255 bytes. *)
Definition name_ok (n : list Z) : Prop := (0 < length n <= 255)%nat.

(** The stored list is absent, or is the wire format of at least one
    name. *)
Definition well_formed (e : alpn_ext) : Prop :=
  (alpn e = None /\ alpn_len e = 0)
  \/ exists names, names <> [] /\ List.Forall name_ok names
                   /\ alpn e = Some (wire_format names)
                   /\ alpn_len e = Z.of_nat (length (wire_format names)).

(** *** The scan *)

Lemma uint_small x : 0 <= x < 2 ^ 32 -> uint x = x.
Proof. apply Z.mod_small. Qed.

Lemma skipn_nth_cons (l : list Z) i :
  (i < length l)%nat -> skipn i l = nth i l 0 :: skipn (S i) l.
Proof.
  revert i. induction l as [|a l IH]; intros i Hi; simpl in Hi; [lia|].
  destruct i as [|i]; [reflexivity|]. simpl. apply IH. lia.
Qed.

Lemma skipn_add (l : list Z) i j : skipn (i + j) l = skipn j (skipn i l).
Proof.
  revert l. induction i as [|i IH]; intros l; [reflexivity|].
  destruct l as [|a l]; simpl; [destruct j; reflexivity | apply IH].
Qed.

(** From an index within the list, with fuel for every remaining byte, the
    scan answers, and answers 1 exactly when what is left of the list is
    the wire format of names. *)
Lemma alpn_scan_spec protos : forall fuel idx,
  List.Forall (fun b => 0 <= b <= 255) protos ->
  Z.of_nat (length protos) + 256 < 2 ^ 32 ->
  0 <= idx <= Z.of_nat (length protos) ->
  (length protos - Z.to_nat idx <= fuel)%nat ->
  exists r,
    alpn_scan fuel protos (Z.of_nat (length protos)) idx = Some r
    /\ (r = 0 \/ r = 1)
    /\ (r = 1 <-> exists names, List.Forall name_ok names
                                /\ skipn (Z.to_nat idx) protos = wire_format names).
Proof.
  induction fuel as [|fuel IH]; intros idx Hbytes Hfit Hidx Hfuel.
  - assert (idx = Z.of_nat (length protos)) as -> by lia.
    simpl. rewrite Z.ltb_irrefl, Z.eqb_refl. exists 1.
    split; [reflexivity|]. split; [auto|]. split; [intros _|reflexivity].
    exists []. split; [constructor|]. rewrite Nat2Z.id, skipn_all. reflexivity.
  - simpl. destruct (Z.ltb_spec idx (Z.of_nat (length protos))) as [Hlt|Hge].
    + assert (Z.to_nat idx < length protos)%nat as Hi by lia.
      pose proof (skipn_nth_cons protos _ Hi) as Hcut.
      set (b := nth (Z.to_nat idx) protos 0) in *.
      assert (0 <= b <= 255) as Hb.
      { apply (proj1 (List.Forall_forall _ protos) Hbytes). apply nth_In, Hi. }
      destruct (Z.eqb_spec b 0) as [Hz|Hnz].
      * exists 0. split; [reflexivity|]. split; [auto|]. split; [discriminate|].
        intros (names & Hnames & Hw). exfalso. rewrite Hcut in Hw.
        destruct names as [|n ns]; [discriminate|]. unfold wire_format in Hw.
        simpl in Hw. injection Hw as Hlen Hrest.
        inversion Hnames as [|? ? Hn _]; subst. unfold name_ok in Hn. lia.
      * rewrite (uint_small (b + 1)) by lia. rewrite uint_small by lia.
        destruct (Z.le_gt_cases (idx + (b + 1)) (Z.of_nat (length protos)))
          as [Hin|Hout].
        -- destruct (IH (idx + (b + 1)) Hbytes Hfit ltac:(lia) ltac:(lia))
             as (r & Hr & Hr01 & Hiff).
           exists r. split; [exact Hr|]. split; [exact Hr01|].
           replace (Z.to_nat (idx + (b + 1)))
             with (S (Z.to_nat idx) + Z.to_nat b)%nat in Hiff by lia.
           rewrite skipn_add in Hiff. rewrite Hiff, Hcut. split.
           ++ intros (ns & Hns & Hw).
              exists (firstn (Z.to_nat b) (skipn (S (Z.to_nat idx)) protos) :: ns).
              assert (length (firstn (Z.to_nat b) (skipn (S (Z.to_nat idx)) protos))
                      = Z.to_nat b) as Hl
                by (rewrite length_firstn, length_skipn; lia).
              split.
              ** constructor; [unfold name_ok; rewrite Hl; lia | exact Hns].
              ** unfold wire_format in *. simpl. rewrite Hl, Z2Nat.id by lia.
                 f_equal. rewrite <- Hw. symmetry. apply firstn_skipn.
           ++ intros (names & Hnames & Hw).
              destruct names as [|n ns]; [discriminate|].
              unfold wire_format in Hw. simpl in Hw.
              injection Hw as Hlen Hrest.
              inversion Hnames as [|? ? Hn Hns]; subst.
              exists ns. split; [exact Hns|].
              rewrite Hrest. rewrite Hlen, Nat2Z.id.
              rewrite skipn_app, skipn_all, Nat.sub_diag. reflexivity.
        -- exists 0.
           assert (alpn_scan fuel protos (Z.of_nat (length protos)) (idx + (b + 1))
                   = Some 0) as ->.
           { destruct fuel; simpl;
               replace (idx + (b + 1) <? Z.of_nat (length protos)) with false
                 by (symmetry; apply Z.ltb_ge; lia);
               replace (idx + (b + 1) =? Z.of_nat (length protos)) with false
                 by (symmetry; apply Z.eqb_neq; lia);
               reflexivity. }
           split; [reflexivity|]. split; [auto|]. split; [discriminate|].
           intros (names & Hnames & Hw). exfalso. rewrite Hcut in Hw.
           destruct names as [|n ns]; [discriminate|].
           unfold wire_format in Hw. simpl in Hw. injection Hw as Hlen Hrest.
           assert (length (skipn (S (Z.to_nat idx)) protos)
                   = length (n ++ concat (map (fun n0 => Z.of_nat (length n0) :: n0) ns)))
             as Hl by (rewrite Hrest; reflexivity).
           rewrite length_skipn, length_app in Hl. lia.
    + assert (idx = Z.of_nat (length protos)) as -> by lia.
      rewrite Z.eqb_refl. exists 1.
      split; [reflexivity|]. split; [auto|]. split; [intros _|reflexivity].
      exists []. split; [constructor|]. rewrite Nat2Z.id, skipn_all. reflexivity.
Qed.

Lemma wire_format_length n ns :
  name_ok n -> (2 <= length (wire_format (n :: ns)))%nat.
Proof.
  unfold name_ok, wire_format. simpl. rewrite length_app. lia.
Qed.

Lemma alpn_value_ok_spec protos :
  List.Forall (fun b => 0 <= b <= 255) protos ->
  Z.of_nat (length protos) + 256 < 2 ^ 32 ->
  exists r,
    alpn_value_ok (Some protos) (Z.of_nat (length protos)) = Some r
    /\ (r = 0 \/ r = 1)
    /\ (r = 1 <-> exists names, names <> [] /\ List.Forall name_ok names
                                /\ protos = wire_format names).
Proof.
  intros Hbytes Hfit. unfold alpn_value_ok.
  destruct (Z.ltb_spec (Z.of_nat (length protos)) 2) as [Hshort|Hlong].
  - exists 0. split; [reflexivity|]. split; [auto|]. split; [discriminate|].
    intros (names & Hne & Hnames & ->). exfalso.
    destruct names as [|n ns]; [congruence|].
    inversion Hnames as [|? ? Hn _]; subst.
    pose proof (wire_format_length n ns Hn). lia.
  - destruct (alpn_scan_spec protos (Z.to_nat (Z.of_nat (length protos))) 0
                Hbytes Hfit ltac:(lia) ltac:(lia)) as (r & Hr & Hr01 & Hiff).
    exists r. split; [exact Hr|]. split; [exact Hr01|].
    change (skipn (Z.to_nat 0) protos) with protos in Hiff. split.
    + intros Hr1. destruct (proj1 Hiff Hr1) as (names & Hnames & Hw).
      exists names. split; [|auto].
      intros ->. rewrite Hw in Hlong. simpl in Hlong. lia.
    + intros (names & _ & Hnames & Hw). apply Hiff. eauto.
Qed.

Lemma wire_format_bytes names :
  List.Forall name_ok names ->
  List.Forall (List.Forall (fun b => 0 <= b <= 255)) names ->
  List.Forall (fun b => 0 <= b <= 255) (wire_format names).
Proof.
  induction 1 as [|n ns Hn _ IH]; intros Hb; [constructor|].
  inversion Hb; subst. unfold wire_format. simpl. constructor.
  - unfold name_ok in Hn. lia.
  - apply Forall_app. split; [assumption | apply IH; assumption].
Qed.

(** X28.  The validation answers within the fuel it is given; it accepts the
    wire format of every non-empty list of names of 1 to 255 bytes, and
    whatever it accepts is the wire format of such a list: no empty name,
    no name running past the end, no trailing byte. *)
Theorem alpn_value_ok_accepts_exactly_wire_format :
  (forall names,
     names <> [] ->
     List.Forall name_ok names ->
     List.Forall (List.Forall (fun b => 0 <= b <= 255)) names ->
     Z.of_nat (length (wire_format names)) + 256 < 2 ^ 32 ->
     alpn_value_ok (Some (wire_format names))
                   (Z.of_nat (length (wire_format names))) = Some 1)
  /\ (forall protos,
        List.Forall (fun b => 0 <= b <= 255) protos ->
        Z.of_nat (length protos) + 256 < 2 ^ 32 ->
        alpn_value_ok (Some protos) (Z.of_nat (length protos)) = Some 0
        \/ (alpn_value_ok (Some protos) (Z.of_nat (length protos)) = Some 1
            /\ exists names, names <> [] /\ List.Forall name_ok names
                             /\ protos = wire_format names)).
Proof.
  split.
  - intros names Hne Hnames Hbytes Hfit.
    destruct (alpn_value_ok_spec (wire_format names)
                (wire_format_bytes names Hnames Hbytes) Hfit) as (r & Hr & _ & Hiff).
    rewrite Hr. f_equal. apply Hiff. eauto.
  - intros protos Hbytes Hfit.
    destruct (alpn_value_ok_spec protos Hbytes Hfit) as (r & Hr & [-> | ->] & Hiff).
    + left. exact Hr.
    + right. split; [exact Hr | apply Hiff; reflexivity].
Qed.

(** X29.  What the setter does with each input, and that the stored list
    stays absent or well formed throughout.  An empty list returns 0 and
    clears the stored list, as NULL does for any length.  A list that is
    not empty and not in wire format is refused with 1, the stored list
    kept and no memory asked for.  A list in wire format asks for memory
    once: when that is had the list is stored as given, with its length,
    and 0 is returned; when it is not, 1 is returned and the stored list
    is kept. *)
Theorem set_alpn_protos_keeps_well_formed e protos o :
  well_formed e ->
  List.Forall (fun b => 0 <= b <= 255) protos ->
  Z.of_nat (length protos) + 256 < 2 ^ 32 ->
  (exists ret e' o',
     SSL_CTX_set_alpn_protos e (Some protos) (Z.of_nat (length protos)) o
     = Some (ret, e', o')
     /\ well_formed e'
     /\ (protos = [] ->
         ret = 0 /\ e' = {| alpn := None; alpn_len := 0 |} /\ o' = o)
     /\ (protos <> [] ->
         ~ (exists names, names <> [] /\ List.Forall name_ok names
                          /\ protos = wire_format names) ->
         ret = 1 /\ e' = e /\ o' = o)
     /\ (forall names,
           names <> [] -> List.Forall name_ok names -> protos = wire_format names ->
           o' = snd (alloc o)
           /\ (fst (alloc o) = true ->
               ret = 0
               /\ e' = {| alpn := Some protos; alpn_len := Z.of_nat (length protos) |})
           /\ (fst (alloc o) = false -> ret = 1 /\ e' = e)))
  /\ (forall n,
        SSL_CTX_set_alpn_protos e None n o
        = Some (0, {| alpn := None; alpn_len := 0 |}, o)).
Proof.
  intros Hwf Hbytes Hfit. split; [|reflexivity].
  assert (forall names, names <> [] -> List.Forall name_ok names ->
                        protos = wire_format names ->
                        (2 <= length protos)%nat) as Hlong.
  { intros names Hne Hnames ->. destruct names as [|n ns]; [congruence|].
    inversion Hnames; subst. apply wire_format_length. assumption. }
  unfold SSL_CTX_set_alpn_protos.
  destruct (Z.eqb_spec (Z.of_nat (length protos)) 0) as [Hz|Hnz].
  - eexists 0, _, o. split; [reflexivity|]. split; [left; auto|].
    split; [auto|]. split.
    + intros Hne _. destruct protos; [congruence | simpl in Hz; lia].
    + intros names Hne Hnames Hw. pose proof (Hlong names Hne Hnames Hw). lia.
  - assert (protos <> []) as Hne by (intros ->; simpl in Hnz; lia).
    destruct (alpn_value_ok_spec protos Hbytes Hfit) as (r & -> & [-> | ->] & Hiff).
    + simpl. eexists 1, e, o. split; [reflexivity|]. split; [exact Hwf|].
      split; [intros; congruence|]. split; [auto|].
      intros names Hn Hnames Hw.
      assert (0 = 1) by (apply Hiff; eauto). discriminate.
    + simpl. destruct (alloc o) as [[|] o']; simpl.
      * eexists 0, _, o'. split; [reflexivity|].
        rewrite Nat2Z.id, firstn_all.
        destruct (proj1 Hiff eq_refl) as (names & Hn & Hnames & Hw).
        split; [right; exists names; simpl; rewrite Hw; auto|].
        split; [intros; congruence|]. split.
        -- intros _ Hnot. exfalso. apply Hnot. eauto.
        -- intros _ _ _ _. split; [reflexivity|].
           split; [auto | discriminate].
      * eexists 1, e, o'. split; [reflexivity|]. split; [exact Hwf|].
        split; [intros; congruence|]. split.
        -- intros _ Hnot. exfalso. apply Hnot. apply Hiff. reflexivity.
        -- intros _ _ _ _. split; [reflexivity|].
           split; [discriminate | auto].
Qed.

(** *** Examples *)

(** "h2" and "http/1.1" on the wire. *)
Definition demo_names : list (list Z) :=
  [[104; 50]; [104; 116; 116; 112; 47; 49; 46; 49]].

Definition no_alpn : alpn_ext := {| alpn := None; alpn_len := 0 |}.

(** With memory to be had the two names are stored as given; with none the
    call answers 1 and nothing is stored; a list cut short is refused and
    the stored list kept; an empty list clears it. *)
Lemma set_alpn_protos_keeps_well_formed_witness :
  well_formed no_alpn
  /\ List.Forall (fun b => 0 <= b <= 255) (wire_format demo_names)
  /\ Z.of_nat (length (wire_format demo_names)) + 256 < 2 ^ 32
  /\ SSL_CTX_set_alpn_protos no_alpn (Some (wire_format demo_names))
                             (Z.of_nat (length (wire_format demo_names))) [true]
     = Some (0, {| alpn := Some (wire_format demo_names); alpn_len := 12 |}, [])
  /\ SSL_CTX_set_alpn_protos no_alpn (Some (wire_format demo_names)) 12 [false]
     = Some (1, no_alpn, [])
  /\ SSL_CTX_set_alpn_protos {| alpn := Some (wire_format demo_names); alpn_len := 12 |}
                             (Some [2; 104; 50; 9; 104]) 5 [true]
     = Some (1, {| alpn := Some (wire_format demo_names); alpn_len := 12 |}, [true])
  /\ SSL_CTX_set_alpn_protos {| alpn := Some (wire_format demo_names); alpn_len := 12 |}
                             (Some []) 0 [true]
     = Some (0, no_alpn, [true]).
Proof.
  assert (well_formed no_alpn) as Hwf by (left; split; reflexivity).
  assert (List.Forall (fun b => 0 <= b <= 255) (wire_format demo_names)) as Hbytes
    by (unfold wire_format, demo_names; simpl; repeat constructor; lia).
  assert (Z.of_nat (length (wire_format demo_names)) + 256 < 2 ^ 32) as Hfit
    by (vm_compute; reflexivity).
  split; [exact Hwf|]. split; [exact Hbytes|]. split; [exact Hfit|].
  split; [|repeat split; reflexivity].
  destruct (set_alpn_protos_keeps_well_formed no_alpn (wire_format demo_names)
              [true] Hwf Hbytes Hfit)
    as [(ret & e' & o' & Hcall & _ & _ & _ & Hstored) _].
  destruct (Hstored demo_names ltac:(discriminate)
              ltac:(unfold name_ok, demo_names; repeat constructor; simpl; lia)
              eq_refl) as (Ho & Hok & _).
  destruct (Hok eq_refl) as [Hret He].
  rewrite Hcall, Hret, He, Ho. reflexivity.
Defined.

End Alpn.

(** ** Fragment sizes *)

Module Fragment.

Section Limits.

(** A session and the two macros of the local header that read its
    negotiated Max Fragment Length extension. *)
Variable SSL_SESSION : Type.
Variable USE_MAX_FRAGMENT_LENGTH_EXT : SSL_SESSION -> bool.
Variable GET_MAX_FRAGMENT_LENGTH : SSL_SESSION -> Z.

Record SSL_CONNECTION : Type := {
  session : option SSL_SESSION;
  max_send_fragment : Z;
  split_send_fragment : Z
}.

(** [ssl_get_max_send_fragment] (lines 7324-7332). *)
Definition ssl_get_max_send_fragment (sc : SSL_CONNECTION) : Z :=
  match session sc with
  | Some s =>
      if USE_MAX_FRAGMENT_LENGTH_EXT s then GET_MAX_FRAGMENT_LENGTH s
      else max_send_fragment sc
  | None => max_send_fragment sc
  end.

(** [ssl_get_split_send_fragment] (lines 7334-7347). *)
Definition ssl_get_split_send_fragment (sc : SSL_CONNECTION) : Z :=
  let otherwise :=
    if split_send_fragment sc >? max_send_fragment sc
    then max_send_fragment sc
    else split_send_fragment sc in
  match session sc with
  | Some s =>
      if USE_MAX_FRAGMENT_LENGTH_EXT s
         && (split_send_fragment sc >? GET_MAX_FRAGMENT_LENGTH s)
      then GET_MAX_FRAGMENT_LENGTH s
      else otherwise
  | None => otherwise
  end.

(** X30.  The split size handed to the record layer never exceeds the fragment
    size handed to it, nor the split size the application set; and it is
    the application's setting whenever that is within the connection's
    fragment size and within the negotiated one, if one is in force. *)
Theorem split_fragment_within_max_fragment sc :
  ssl_get_split_send_fragment sc <= ssl_get_max_send_fragment sc
  /\ ssl_get_split_send_fragment sc <= split_send_fragment sc
  /\ (split_send_fragment sc <= max_send_fragment sc ->
      split_send_fragment sc <= ssl_get_max_send_fragment sc ->
      ssl_get_split_send_fragment sc = split_send_fragment sc).
Proof.
  unfold ssl_get_split_send_fragment, ssl_get_max_send_fragment.
  destruct (session sc) as [s|];
    [destruct (USE_MAX_FRAGMENT_LENGTH_EXT s); cbn [andb];
     [destruct (Z.gtb_spec (split_send_fragment sc) (GET_MAX_FRAGMENT_LENGTH s))|]|];
    destruct (Z.gtb_spec (split_send_fragment sc) (max_send_fragment sc));
    repeat split; intros; lia.
Qed.

End Limits.

End Fragment.
